(** * tg-notify: the conversation engine of the time-tracking bot

    A shallow embedding of [bot.py] (wizard handlers, calendar widgets,
    pagination, dispatcher) and of [AdminManager.get_projects_keyboard]
    from [admin.py], together with the Python and python-telegram-bot
    primitives those functions rely on.

    Conventions.
    - Python [str] is [string], the bytes of its UTF-8 encoding.
    - Python [int] is [Z]; Python [float] is a binary64 [spec_float].
    - [context.user_data] is a [gmap string pyval].
    - A handler is a function on an explicit [world]; an exception keeps
      every mutation made before it was raised, as in Python. *)

From Stdlib Require Import ZArith String Ascii List Bool Lia.
From Stdlib Require Import Floats.SpecFloat.
From stdpp Require Import gmap strings.

Open Scope Z_scope.

(** ** Python strings

    A [str] is held as the bytes of its UTF-8 encoding.  Splitting at an
    ASCII separator, comparing and testing a prefix act on the bytes as
    they act on the characters; [strip], [isdigit], [int] and [float] look
    at the characters, through the tables of the Unicode database
    (version 14.0, the one of CPython 3.11). *)
Module Unicode.

Definition byte (c : ascii) : Z := Z.of_nat (nat_of_ascii c).

(** A continuation byte of UTF-8, [10xxxxxx]. *)
Definition is_continuation (c : ascii) : bool :=
  (128 <=? byte c) && (byte c <? 192).

(** The characters of a string, each one as its own bytes: a byte and the
    continuation bytes that follow it. *)
Fixpoint chars (s : string) : list string :=
  match s with
  | EmptyString => []
  | String c s' =>
      match chars s' with
      | String c' x :: rest =>
          if is_continuation c' then String c (String c' x) :: rest
          else String c EmptyString :: String c' x :: rest
      | l => String c EmptyString :: l
      end
  end.

Fixpoint payload (acc : Z) (s : string) : Z :=
  match s with
  | EmptyString => acc
  | String c s' => payload (acc * 64 + byte c mod 64) s'
  end.

(** The code point of a character; [-1] for bytes that encode none. *)
Definition code (ch : string) : Z :=
  match ch with
  | EmptyString => -1
  | String c rest =>
      let n := byte c in
      let k := Z.of_nat (String.length rest) in
      let cp := payload (if n <? 224 then n mod 32 else if n <? 240 then n mod 16 else n mod 8)
                        rest in
      if n <? 128 then (if k =? 0 then n else -1)
      else if n <? 192 then -1
      else if n <? 224 then (if (k =? 1) && (0x80 <=? cp) then cp else -1)
      else if n <? 240 then (if (k =? 2) && (0x800 <=? cp) then cp else -1)
      else if n <? 248 then (if (k =? 3) && (0x10000 <=? cp) && (cp <=? 0x10ffff) then cp else -1)
      else -1
  end.

Definition in_ranges (l : list (Z * Z)) (cp : Z) : bool :=
  existsb (fun r => (fst r <=? cp) && (cp <=? snd r)) l.

(** [Py_UNICODE_ISSPACE]: the characters [str.isspace()] accepts. *)
Definition whitespace : list (Z * Z) :=
  [ (0x9, 0xd); (0x1c, 0x20); (0x85, 0x85); (0xa0, 0xa0);
    (0x1680, 0x1680); (0x2000, 0x200a); (0x2028, 0x2029); (0x202f, 0x202f);
    (0x205f, 0x205f); (0x3000, 0x3000) ].

Definition isspace (cp : Z) : bool := in_ranges whitespace cp.

(** The digit zero of every decimal system (general category Nd); the
    digits one to nine follow it. *)
Definition decimal_zeros : list Z :=
  [ 0x30; 0x660; 0x6f0; 0x7c0; 0x966; 0x9e6; 0xa66; 0xae6;
    0xb66; 0xbe6; 0xc66; 0xce6; 0xd66; 0xde6; 0xe50; 0xed0;
    0xf20; 0x1040; 0x1090; 0x17e0; 0x1810; 0x1946; 0x19d0; 0x1a80;
    0x1a90; 0x1b50; 0x1bb0; 0x1c40; 0x1c50; 0xa620; 0xa8d0; 0xa900;
    0xa9d0; 0xa9f0; 0xaa50; 0xabf0; 0xff10; 0x104a0; 0x10d30; 0x11066;
    0x110f0; 0x11136; 0x111d0; 0x112f0; 0x11450; 0x114d0; 0x11650; 0x116c0;
    0x11730; 0x118e0; 0x11950; 0x11c50; 0x11d50; 0x11da0; 0x16a60; 0x16ac0;
    0x16b50; 0x1d7ce; 0x1d7d8; 0x1d7e2; 0x1d7ec; 0x1d7f6; 0x1e140; 0x1e2f0;
    0x1e950; 0x1fbf0 ].

(** [Py_UNICODE_TODECIMAL]: the value of a decimal digit. *)
Definition decimal (cp : Z) : option Z :=
  match List.find (fun z => (z <=? cp) && (cp <? z + 10)) decimal_zeros with
  | Some z => Some (cp - z)
  | None => None
  end.

(** The characters of numeric type Digit that are no decimal digits
    (superscripts, circled digits and the like). *)
Definition other_digits : list (Z * Z) :=
  [ (0xb2, 0xb3); (0xb9, 0xb9); (0x1369, 0x1371); (0x19da, 0x19da);
    (0x2070, 0x2070); (0x2074, 0x2079); (0x2080, 0x2089); (0x2460, 0x2468);
    (0x2474, 0x247c); (0x2488, 0x2490); (0x24ea, 0x24ea); (0x24f5, 0x24fd);
    (0x24ff, 0x24ff); (0x2776, 0x277e); (0x2780, 0x2788); (0x278a, 0x2792);
    (0x10a40, 0x10a43); (0x10e60, 0x10e68); (0x11052, 0x1105a); (0x1f100, 0x1f10a) ].

(** [Py_UNICODE_ISDIGIT] *)
Definition isdigit (cp : Z) : bool :=
  match decimal cp with
  | Some _ => true
  | None => in_ranges other_digits cp
  end.

End Unicode.

(** ** Python builtins used by the bot *)
Module Py.

Definition is_digit (c : ascii) : bool :=
  let n := Z.of_nat (nat_of_ascii c) in (48 <=? n) && (n <=? 57).

Definition digit_val (c : ascii) : Z := Z.of_nat (nat_of_ascii c) - 48.

Definition digit_char (d : Z) : ascii := ascii_of_nat (Z.to_nat (48 + d)).

(** A character that [str.strip()] removes. *)
Definition blank (ch : string) : bool := Unicode.isspace (Unicode.code ch).

Fixpoint drop_blank (l : list string) : list string :=
  match l with
  | ch :: l' => if blank ch then drop_blank l' else l
  | [] => []
  end.

(** [s.strip()] *)
Definition strip (s : string) : string :=
  String.concat EmptyString (rev (drop_blank (rev (drop_blank (Unicode.chars s))))).

(** White space as the C parsers of [int()] and [float()] skip it around
    a number: TAB..CR and the blank. *)
Definition is_space (c : ascii) : bool :=
  let n := Z.of_nat (nat_of_ascii c) in
  ((9 <=? n) && (n <=? 13)) || (n =? 32).

Fixpoint ltrim (s : string) : string :=
  match s with
  | String c s' => if is_space c then ltrim s' else s
  | EmptyString => EmptyString
  end.

Fixpoint rtrim (s : string) : string :=
  match s with
  | String c s' =>
      match rtrim s' with
      | EmptyString => if is_space c then EmptyString else String c EmptyString
      | r => String c r
      end
  | EmptyString => EmptyString
  end.

Definition trim (s : string) : string := rtrim (ltrim s).

Fixpoint is_ascii (s : string) : bool :=
  match s with
  | EmptyString => true
  | String c s' => (Unicode.byte c <? 128) && is_ascii s'
  end.

(** What [int()] and [float()] make of the characters before parsing
    ([_PyUnicode_TransformDecimalAndSpaceToASCII]): outside ASCII, white
    space becomes a blank and a decimal digit its ASCII digit; the first
    other character becomes a question mark and ends the text. *)
Fixpoint transform (l : list string) : string :=
  match l with
  | [] => EmptyString
  | ch :: rest =>
      let cp := Unicode.code ch in
      if (0 <=? cp) && (cp <? 127) then ch +:+ transform rest
      else if Unicode.isspace cp then String " " (transform rest)
      else match Unicode.decimal cp with
           | Some d => String (digit_char d) (transform rest)
           | None => "?"
           end
  end.

Definition to_ascii (s : string) : string :=
  if is_ascii s then s else transform (Unicode.chars s).

(** [s.startswith(p)] *)
Fixpoint startswith (s p : string) {struct p} : bool :=
  match p with
  | EmptyString => true
  | String a p' =>
      match s with
      | String b s' => Ascii.eqb a b && startswith s' p'
      | EmptyString => false
      end
  end.

(** [s.split(sep)] for a one-character separator. *)
Fixpoint split (sep : ascii) (s : string) : list string :=
  match s with
  | EmptyString => [EmptyString]
  | String c s' =>
      if Ascii.eqb c sep then EmptyString :: split sep s'
      else match split sep s' with
           | w :: ws => String c w :: ws
           | [] => [String c EmptyString]
           end
  end.

(** [s.split(sep, 1)] *)
Fixpoint split1 (sep : ascii) (s : string) : list string :=
  match s with
  | EmptyString => [EmptyString]
  | String c s' =>
      if Ascii.eqb c sep then [EmptyString; s']
      else match split1 sep s' with
           | w :: ws => String c w :: ws
           | [] => [String c EmptyString]
           end
  end.

(** [s.replace(a, b)] for one-character [a] and [b]. *)
Fixpoint replace (a b : ascii) (s : string) : string :=
  match s with
  | EmptyString => EmptyString
  | String c s' => String (if Ascii.eqb c a then b else c) (replace a b s')
  end.

Definition lower_char (c : ascii) : ascii :=
  let n := nat_of_ascii c in
  if ((65 <=? n) && (n <=? 90))%nat then ascii_of_nat (n + 32) else c.

Fixpoint lower (s : string) : string :=
  match s with
  | EmptyString => EmptyString
  | String c s' => String (lower_char c) (lower s')
  end.

(** [digitpart ::= digit (["_"] digit)*]: value and number of digits.
    [prev] tells whether the previous character was a digit. *)
Fixpoint digitpart_acc (acc cnt : Z) (prev : bool) (s : string) : option (Z * Z) :=
  match s with
  | EmptyString => if prev then Some (acc, cnt) else None
  | String c s' =>
      if is_digit c then digitpart_acc (10 * acc + digit_val c) (cnt + 1) true s'
      else if Ascii.eqb c "_" then
             if prev then digitpart_acc acc cnt false s' else None
           else None
  end.

Definition digitpart (s : string) : option (Z * Z) := digitpart_acc 0 0 false s.

Definition signed (s : string) : bool * string :=
  match s with
  | String "-" r => (true, r)
  | String "+" r => (false, r)
  | _ => (false, s)
  end.

(** [int(s)] in base 10; [None] stands for [ValueError]. *)
Definition int (s : string) : option Z :=
  let '(neg, body) := signed (trim (to_ascii s)) in
  match digitpart body with
  | Some (v, _) => Some (if neg then - v else v)
  | None => None
  end.

(** [s.isdigit()] *)
Definition isdigit (s : string) : bool :=
  match Unicode.chars s with
  | [] => false
  | l => forallb (fun ch => Unicode.isdigit (Unicode.code ch)) l
  end.

(** [str(n)] for a non-negative [n]; [fuel] bounds the number of digits. *)
Fixpoint str_nonneg (fuel : nat) (n : Z) (acc : string) : string :=
  match fuel with
  | O => acc
  | S f =>
      let acc' := String (digit_char (n mod 10)) acc in
      if n <? 10 then acc' else str_nonneg f (n / 10) acc'
  end.

(** [str(z)] *)
Definition str (z : Z) : string :=
  if z <? 0 then String "-" (str_nonneg (S (Z.to_nat (- z))) (- z) EmptyString)
  else str_nonneg (S (Z.to_nat z)) z EmptyString.

(** [f"{z:02d}"] *)
Definition fmt02d (z : Z) : string :=
  if (0 <=? z) && (z <? 10) then String "0" (str z) else str z.

(** *** binary64 values *)

Definition prec : Z := 53.
Definition emax : Z := 1024.

(** The binary64 nearest to [n / d] (ties to even), for [0 <= n], [0 < d]. *)
Definition round_ratio (neg : bool) (n d : Z) : spec_float :=
  match n with
  | 0 => S754_zero neg
  | _ => let '(q, e, l) := SFdiv_core_binary prec emax n 0 d 0 in
         binary_round_aux prec emax neg q e l
  end.

(** The binary64 nearest to [m * 10^e]. *)
Definition of_decimal (neg : bool) (m e : Z) : spec_float :=
  if 0 <=? e then round_ratio neg (m * 10 ^ e) 1
  else round_ratio neg m (10 ^ (- e)).

Definition float_of_Z (z : Z) : spec_float := binary_normalize prec emax z 0 false.

(** First occurrence of a character satisfying [p]: the text before it and
    the text after it. *)
Fixpoint cut (p : ascii -> bool) (s : string) : string * option string :=
  match s with
  | EmptyString => (EmptyString, None)
  | String c s' =>
      if p c then (EmptyString, Some s')
      else let '(a, b) := cut p s' in (String c a, b)
  end.

Definition is_exp_mark (c : ascii) : bool := Ascii.eqb c "e" || Ascii.eqb c "E".
Definition is_point (c : ascii) : bool := Ascii.eqb c ".".

(** [exponent ::= ("e" | "E") [sign] digitpart], the part after the mark. *)
Definition exponent (s : string) : option Z :=
  let '(neg, body) := signed s in
  match digitpart body with
  | Some (v, _) => Some (if neg then - v else v)
  | None => None
  end.

(** [number ::= [digitpart] "." digitpart | digitpart ["."]]:
    the digits read as one integer, and how many of them follow the point. *)
Definition number (s : string) : option (Z * Z) :=
  match cut is_point s with
  | (ip, None) =>
      match digitpart ip with Some (v, _) => Some (v, 0) | None => None end
  | (ip, Some fp) =>
      match ip, fp with
      | EmptyString, EmptyString => None
      | _, EmptyString =>
          match digitpart ip with Some (v, _) => Some (v, 0) | None => None end
      | EmptyString, _ =>
          match digitpart fp with Some (w, k) => Some (w, k) | None => None end
      | _, _ =>
          match digitpart ip, digitpart fp with
          | Some (v, _), Some (w, k) => Some (v * 10 ^ k + w, k)
          | _, _ => None
          end
      end
  end.

(** [float(s)]; [None] stands for [ValueError]. *)
Definition float (s : string) : option spec_float :=
  let '(neg, body) := signed (trim (to_ascii s)) in
  let lb := lower body in
  if String.eqb lb "inf" || String.eqb lb "infinity" then Some (S754_infinity neg)
  else if String.eqb lb "nan" then Some S754_nan
  else
    let '(mant, ex) := cut is_exp_mark body in
    match number mant, (match ex with None => Some 0 | Some x => exponent x end) with
    | Some (m, k), Some e => Some (of_decimal neg m (e - k))
    | _, _ => None
    end.

(** [a <= b] and [a > b] on floats: false as soon as one side is NaN. *)
Definition float_le (a b : spec_float) : bool := SFleb a b.
Definition float_gt (a b : spec_float) : bool := SFltb b a.

(** [l[start:stop]] *)
Definition slice {A} (l : list A) (start stop : Z) : list A :=
  let n := Z.of_nat (length l) in
  let clamp i := Z.min n (Z.max 0 (if i <? 0 then i + n else i)) in
  let a := clamp start in
  let b := clamp stop in
  firstn (Z.to_nat (b - a)) (skipn (Z.to_nat a) l).

(** [sep.join(l)] *)
Fixpoint join (sep : string) (l : list string) : string :=
  match l with
  | [] => EmptyString
  | [x] => x
  | x :: rest => x +:+ sep +:+ join sep rest
  end.

End Py.

(** ** [datetime] and [calendar] *)
Module Cal.

Record date := mkdate { year : Z; month : Z; day : Z }.

Definition MINYEAR : Z := 1.
Definition MAXYEAR : Z := 9999.

Definition isleap (y : Z) : bool :=
  (y mod 4 =? 0) && (negb (y mod 100 =? 0) || (y mod 400 =? 0)).

Definition mdays (m : Z) : Z :=
  match m with
  | 1 => 31 | 2 => 28 | 3 => 31 | 4 => 30 | 5 => 31 | 6 => 30
  | 7 => 31 | 8 => 31 | 9 => 30 | 10 => 31 | 11 => 30 | 12 => 31
  | _ => 0
  end.

Definition days_in_month (y m : Z) : Z :=
  mdays m + (if (m =? 2) && isleap y then 1 else 0).

(** The arguments accepted by [datetime(y, m, d)]. *)
Definition valid_date (y m d : Z) : bool :=
  (MINYEAR <=? y) && (y <=? MAXYEAR) && (1 <=? m) && (m <=? 12)
  && (1 <=? d) && (d <=? days_in_month y m).

Definition days_before_year (y : Z) : Z :=
  let p := y - 1 in p * 365 + p / 4 - p / 100 + p / 400.

Definition days_before_month (y m : Z) : Z :=
  match m with
  | 1 => 0 | 2 => 31 | 3 => 59 | 4 => 90 | 5 => 120 | 6 => 151
  | 7 => 181 | 8 => 212 | 9 => 243 | 10 => 273 | 11 => 304 | 12 => 334
  | _ => 0
  end + (if (2 <? m) && isleap y then 1 else 0).

Definition toordinal (d : date) : Z :=
  days_before_year (year d) + days_before_month (year d) (month d) + day d.

(** [date.weekday()]: Monday is 0. *)
Definition date_weekday (d : date) : Z := (toordinal d + 6) mod 7.

(** [a < b] on dates. *)
Definition date_ltb (a b : date) : bool :=
  (year a <? year b)
  || ((year a =? year b)
      && ((month a <? month b) || ((month a =? month b) && (day a <? day b)))).

(** [(a - b).days] *)
Definition days_between (a b : date) : Z := toordinal a - toordinal b.

(** [calendar.weekday(year, month, day)] *)
Definition weekday (y m d : Z) : Z :=
  let y' := if (MINYEAR <=? y) && (y <=? MAXYEAR) then y else 2000 + y mod 400 in
  date_weekday (mkdate y' m d).

Fixpoint chunks {A} (fuel : nat) (l : list A) : list (list A) :=
  match fuel, l with
  | S f, _ :: _ => firstn 7 l :: chunks f (skipn 7 l)
  | _, _ => []
  end.

(** [Calendar.itermonthdays(year, month)] with Monday as first weekday,
    for a month in 1..12. *)
Definition itermonthdays (y m : Z) : list Z :=
  let day1 := weekday y m 1 in
  let ndays := days_in_month y m in
  let days_before := day1 mod 7 in
  let days_after := (0 - day1 - ndays) mod 7 in
  repeat 0 (Z.to_nat days_before)
  ++ map (fun i => Z.of_nat i) (seq 1 (Z.to_nat ndays))
  ++ repeat 0 (Z.to_nat days_after).

(** [calendar.monthcalendar(year, month)]; [None] stands for
    [IllegalMonthError]. *)
Definition monthcalendar (y m : Z) : option (list (list Z)) :=
  if (1 <=? m) && (m <=? 12) then
    let days := itermonthdays y m in Some (chunks (length days) days)
  else None.

Definition chr_range (lo hi c : ascii) : bool :=
  let n := Z.of_nat (nat_of_ascii c) in
  (Z.of_nat (nat_of_ascii lo) <=? n) && (n <=? Z.of_nat (nat_of_ascii hi)).

(** [%m] followed by the literal ["-"]: the pattern [1[0-2]|0[1-9]|[1-9]]. *)
Definition month_field (s : string) : option (Z * string) :=
  match s with
  | String a (String b (String "-" r)) =>
      if (Ascii.eqb a "1" && chr_range "0" "2" b)
         || (Ascii.eqb a "0" && chr_range "1" "9" b)
      then Some (10 * Py.digit_val a + Py.digit_val b, r) else None
  | String a (String "-" r) =>
      if chr_range "1" "9" a then Some (Py.digit_val a, r) else None
  | _ => None
  end.

(** [\d] in a pattern: a decimal digit of any script, with its value. *)
Definition re_digit (ch : string) : option Z := Unicode.decimal (Unicode.code ch).

(** [%d] at the end of the input: the pattern
    [3[01]|[12]\d|0[1-9]|[1-9]| [1-9]]. *)
Definition day_field (s : string) : option Z :=
  match s with
  | String a (String b EmptyString) =>
      if (Ascii.eqb a "3" && chr_range "0" "1" b)
         || (chr_range "1" "2" a && Py.is_digit b)
         || (Ascii.eqb a "0" && chr_range "1" "9" b)
      then Some (10 * Py.digit_val a + Py.digit_val b)
      else if Ascii.eqb a " " && chr_range "1" "9" b then Some (Py.digit_val b)
      else None
  | String a EmptyString =>
      if chr_range "1" "9" a then Some (Py.digit_val a) else None
  | String a r =>
      if chr_range "1" "2" a then
        match Unicode.chars r with
        | [ch] =>
            match re_digit ch with
            | Some v => Some (10 * Py.digit_val a + v)
            | None => None
            end
        | _ => None
        end
      else None
  | _ => None
  end.

(** [%Y] followed by the literal ["-"]: the pattern [\d\d\d\d]. *)
Definition year_field (s : string) : option (Z * string) :=
  match Unicode.chars s with
  | a :: b :: c :: d :: rest =>
      match re_digit a, re_digit b, re_digit c, re_digit d,
            String.concat EmptyString rest with
      | Some va, Some vb, Some vc, Some vd, String "-" r =>
          Some (1000 * va + 100 * vb + 10 * vc + vd, r)
      | _, _, _, _, _ => None
      end
  | _ => None
  end.

(** [datetime.strptime(s, '%Y-%m-%d')]; [None] stands for [ValueError]. *)
Definition strptime (s : string) : option date :=
  match year_field s with
  | Some (y, r) =>
      match month_field r with
      | Some (m, r') =>
          match day_field r' with
          | Some dd => if valid_date y m dd then Some (mkdate y m dd) else None
          | None => None
          end
      | None => None
      end
  | None => None
  end.

(** [f"{year}-{month:02d}-{day:02d}"] *)
Definition iso (y m d : Z) : string :=
  Py.str y +:+ "-" +:+ Py.fmt02d m +:+ "-" +:+ Py.fmt02d d.

(** [datetime.strftime('%Y-%m-%d')] of a valid date. *)
Definition strftime_iso (d : date) : string := iso (year d) (month d) (day d).

(** [d - timedelta(days=1)] *)
Definition yesterday (d : date) : date :=
  if 1 <? day d then mkdate (year d) (month d) (day d - 1)
  else if 1 <? month d
       then mkdate (year d) (month d - 1) (days_in_month (year d) (month d - 1))
       else mkdate (year d - 1) 12 31.

End Cal.

(** ** The bot: values, Telegram calls, database, handler monad *)
Module Bot.

(** Values stored in [context.user_data] or interpolated in a message. *)
Inductive pyval :=
  | VNone
  | VInt (z : Z)
  | VFloat (f : spec_float)
  | VStr (s : string).

(** A message text: a literal, or an f-string kept as its template and the
    interpolated values, or a listing built row by row. *)
Inductive text :=
  | Lit (s : string)
  | Fmt (template : string) (args : list pyval)
  | Table (template : string) (args : list pyval) (rows : list (list pyval)).

Record button := InlineKeyboardButton { label : text; callback_data : string }.

Definition keyboard := list (list button).

(** Calls made on the Telegram API; they are taken to succeed. *)
Inductive call :=
  | answer (t : option text)
  | edit_message_text (t : text) (reply_markup : option keyboard)
  | reply_text (t : text) (reply_markup : option keyboard)
  | reply_menu (t : text) (rows : list (list string))
  | send_document (filename caption : text).

(** Conversation states, [bot.py:34]. *)
Inductive state :=
  | SELECTING_PROJECT
  | ENTERING_HOURS
  | ENTERING_DESCRIPTION
  | SELECTING_DATE.

(** What a handler returns: [None], a state, or [ConversationHandler.END]. *)
Inductive retval :=
  | RNone
  | RState (s : state)
  | REND.

(** *** Database rows ([database.py], [init_database]) *)

Record user_row := { user_id : Z; is_admin_flag : bool; is_banned_flag : bool }.
Record project_row := { project_id : Z; project_name : string; is_active : bool }.
Record entry_row := {
  entry_id : Z; entry_user : Z; entry_project : pyval;
  entry_hours : pyval; entry_description : pyval; entry_date : string }.

Record database := {
  users : list user_row;
  projects : list project_row;
  time_entries : list entry_row;
  next_project_id : Z;
  next_entry_id : Z }.

(** *** Incoming updates *)

Inductive payload :=
  | Callback (data : string)
  | Message (msg : string)
  | Command (name : string).

Record update := { effective_user : Z; body : payload }.

Definition is_callback (u : update) : bool :=
  match body u with Callback _ => true | _ => false end.

(** The update is the command [/name]. *)
Definition is_command (name : string) (u : update) : bool :=
  match body u with Command c => String.eqb c name | _ => false end.

(** What the surroundings contribute while one update is handled: the
    clock, whether the database can be reached, whether it accepts a row
    of [time_entries], the day number of the DATE it reads from the text
    given for the [date] column, the administrator of the environment
    file and the functions of [reports.py] and [analytics.py]. *)
Record env := {
  today : Cal.date;
  db_up : bool;
  row_ok : entry_row -> bool;
  date_value : string -> Z;
  ADMIN_USER_ID : Z;
  report : string -> list pyval -> string }.

(** *** Handler monad: state and exceptions *)

Record world := World {
  user_data : gmap string pyval;
  db : database;
  calls : list call }.

Inductive exn :=
  | ValueError
  | KeyError (k : string)
  | IndexError
  | TypeError
  | ZeroDivisionError
  | DatabaseError.

Inductive res (A : Type) :=
  | Ok (a : A)
  | Raise (e : exn).
Arguments Ok {A} a.
Arguments Raise {A} e.

Definition M (A : Type) : Type := world -> res A * world.

#[global] Instance M_ret : MRet M := fun A a w => (Ok a, w).

#[global] Instance M_bind : MBind M := fun A B k m w =>
  match m w with
  | (Ok a, w') => k a w'
  | (Raise e, w') => (Raise e, w')
  end.

Definition raise {A} (e : exn) : M A := fun w => (Raise e, w).

(** [try: m except Exception: h] *)
Definition try_except {A} (m : M A) (h : M A) : M A := fun w =>
  match m w with
  | (Ok a, w') => (Ok a, w')
  | (Raise _, w') => h w'
  end.

(** [try: m except ValueError: h] *)
Definition try_except_ValueError {A} (m : M A) (h : M A) : M A := fun w =>
  match m w with
  | (Raise ValueError, w') => h w'
  | r => r
  end.

Definition lift_option {A} (e : exn) (o : option A) : M A :=
  match o with Some a => mret a | None => raise e end.

Definition emit (c : call) : M unit := fun w =>
  (Ok tt, World (user_data w) (db w) (calls w ++ [c])).

(** [context.user_data[k] = v] *)
Definition ud_set (k : string) (v : pyval) : M unit := fun w =>
  (Ok tt, World (<[k := v]> (user_data w)) (db w) (calls w)).

(** [context.user_data[k]] *)
Definition ud_item (k : string) : M pyval := fun w =>
  match user_data w !! k with
  | Some v => (Ok v, w)
  | None => (Raise (KeyError k), w)
  end.

(** [context.user_data.get(k)] *)
Definition ud_get (k : string) : M (option pyval) := fun w =>
  (Ok (user_data w !! k), w).

(** [context.user_data.clear()] *)
Definition ud_clear : M unit := fun w => (Ok tt, World ∅ (db w) (calls w)).

(** [context.user_data.pop(k, None)] *)
Definition ud_pop (k : string) : M unit := fun w =>
  (Ok tt, World (delete k (user_data w)) (db w) (calls w)).

(** Truth value of a Python object as used in [if x:] / [not x]. *)
Definition truthy (v : option pyval) : bool :=
  match v with
  | None | Some VNone => false
  | Some (VInt z) => negb (z =? 0)
  | Some (VFloat f) => negb (SFeqb f (S754_zero false))
  | Some (VStr s) => negb (String.eqb s EmptyString)
  end.

(** [v == s] for a value read with [.get()] and a string literal [s]. *)
Definition is_str (s : string) (v : option pyval) : bool :=
  match v with
  | Some (VStr t) => String.eqb t s
  | _ => false
  end.

(** [parts[i]] *)
Definition item {A} (l : list A) (i : nat) : M A := lift_option IndexError (l !! i).

(** [int(s)] and [float(s)] with their [ValueError]. *)
Definition int (s : string) : M Z := lift_option ValueError (Py.int s).
Definition float (s : string) : M spec_float := lift_option ValueError (Py.float s).

Section Handlers.

Context (E : env).

(** A read through [db_manager.get_cursor()]. *)
Definition select {A} (f : database -> A) : M A := fun w =>
  if db_up E then (Ok (f (db w)), w) else (Raise DatabaseError, w).

(** A write through [db_manager.get_cursor()], committed on exit. *)
Definition execute (f : database -> database) : M unit := fun w =>
  if db_up E then (Ok tt, World (user_data w) (f (db w)) (calls w))
  else (Raise DatabaseError, w).

Definition find_user (uid : Z) (d : database) : option user_row :=
  List.find (fun r => user_id r =? uid) (users d).

Definition find_project (pid : Z) (d : database) : option project_row :=
  List.find (fun r => project_id r =? pid) (projects d).

(** [AdminManager.is_banned], [admin.py:121] *)
Definition is_banned (uid : Z) : M bool :=
  select (fun d => match find_user uid d with
                   | Some r => is_banned_flag r
                   | None => false
                   end).

(** [AdminManager.is_admin], [admin.py:14] *)
Definition is_admin (uid : Z) : M bool :=
  db_admin ← select (fun d => match find_user uid d with
                              | Some r => is_admin_flag r
                              | None => false
                              end);
  mret ((uid =? ADMIN_USER_ID E) || db_admin).

(** [check_user_ban], [bot.py:171] *)
Definition check_user_ban (uid : Z) : M bool := is_banned uid.

(** [TimeTrackingBot.register_user], [bot.py:49] *)
Definition register_user (uid : Z) : M unit :=
  execute (fun d =>
    match find_user uid d with
    | Some _ => d
    | None => {| users := users d ++ [{| user_id := uid; is_admin_flag := false;
                                         is_banned_flag := false |}];
                 projects := projects d; time_entries := time_entries d;
                 next_project_id := next_project_id d;
                 next_entry_id := next_entry_id d |}
    end).

(** [TimeTrackingBot.get_projects], [bot.py:62]; rows in stored order. *)
Definition get_projects : M (list (Z * string)) :=
  select (fun d => map (fun r => (project_id r, project_name r))
                       (List.filter is_active (projects d))).

Definition insert_entry (row : entry_row) (d : database) : database :=
  {| users := users d; projects := projects d;
     time_entries := time_entries d ++ [row];
     next_project_id := next_project_id d;
     next_entry_id := next_entry_id d + 1 |}.

(** The row [add_time_entry] inserts; [id] is a serial column. *)
Definition new_entry (d : database) (uid : Z) (pid hours description : pyval)
    (date : string) : entry_row :=
  {| entry_id := next_entry_id d; entry_user := uid; entry_project := pid;
     entry_hours := hours; entry_description := description; entry_date := date |}.

(** [TimeTrackingBot.add_time_entry], [bot.py:68]: the insert raises when
    the database is unreachable or rejects the row. *)
Definition add_time_entry (uid : Z) (pid hours description : pyval)
    (date : string) : M unit := fun w =>
  let row := new_entry (db w) uid pid hours description date in
  if db_up E && row_ok E row then
    (Ok tt, World (user_data w) (insert_entry row (db w)) (calls w))
  else (Raise DatabaseError, w).

(** [WHERE user_id = uid]: the rows of one user, as the table holds them;
    the join with [projects] keeps every row, [project_id] being a foreign
    key. *)
Definition entries_of (uid : Z) (d : database) : list entry_row :=
  List.filter (fun r => entry_user r =? uid) (time_entries d).

(** The place of a row among rows that are in the order of the listing:
    behind the rows of a later date, before the others. *)
Fixpoint place (r : entry_row) (l : list entry_row) : list entry_row :=
  match l with
  | [] => [r]
  | x :: l' =>
      if date_value E (entry_date r) <? date_value E (entry_date x)
      then x :: place r l' else r :: l
  end.

(** [ORDER BY te.date DESC, te.created_at DESC].  A row gets its
    [created_at] when it is inserted and the table is held in the order of
    the insertions, so among the rows of one date the last one stored
    comes first. *)
Definition recent_first (l : list entry_row) : list entry_row :=
  fold_right place [] (rev l).

(** A value that fits the type [bigint] of [LIMIT] and [OFFSET]. *)
Definition bigint (z : Z) : bool := (- 2 ^ 63 <=? z) && (z <? 2 ^ 63).

(** [LIMIT limit OFFSET offset] on rows in the order of the query; a
    negative bound or one outside [bigint] is an SQL error. *)
Definition limit_offset {A} (limit offset : Z) (rows : database -> list A) : M (list A) :=
  if (0 <=? limit) && bigint limit && (0 <=? offset) && bigint offset then
    select (fun d => firstn (Z.to_nat limit) (skipn (Z.to_nat offset) (rows d)))
  else _ ← select (fun _ => tt); raise DatabaseError.

(** [TimeTrackingBot.get_user_entries], [bot.py:80] *)
Definition get_user_entries (uid limit : Z) : M (list entry_row) :=
  limit_offset limit 0 (fun d => recent_first (entries_of uid d)).

(** [TimeTrackingBot.get_user_entries_paginated], [bot.py:93] *)
Definition get_user_entries_paginated (uid limit offset : Z) : M (list entry_row) :=
  limit_offset limit offset (fun d => recent_first (entries_of uid d)).

Definition remove_entry (eid uid : Z) (d : database) : database :=
  {| users := users d; projects := projects d;
     time_entries := List.filter (fun r => negb ((entry_id r =? eid) && (entry_user r =? uid)))
                                 (time_entries d);
     next_project_id := next_project_id d; next_entry_id := next_entry_id d |}.

(** [TimeTrackingBot.delete_time_entry], [bot.py:106] *)
Definition delete_time_entry (eid uid : Z) : M bool :=
  try_except
    (found ← select (fun d => existsb (fun r => (entry_id r =? eid) && (entry_user r =? uid))
                                      (time_entries d));
     execute (remove_entry eid uid);;
     mret found)
    (mret false).

(** *** Calendar widgets *)

Definition russian_months : list string :=
  [""; "Январь"; "Февраль"; "Март"; "Апрель"; "Май"; "Июнь";
   "Июль"; "Август"; "Сентябрь"; "Октябрь"; "Ноябрь"; "Декабрь"].

Definition weekday_labels : list string := ["Пн"; "Вт"; "Ср"; "Чт"; "Пт"; "Сб"; "Вс"].

(** [datetime(year, month, day).date()]; [None] stands for [ValueError]. *)
Definition mkdate (y m d : Z) : option Cal.date :=
  if Cal.valid_date y m d then Some (Cal.mkdate y m d) else None.

(** One day cell of [generate_calendar], [bot.py:154-163]. *)
Definition calendar_cell (year month day : Z) : option button :=
  if day =? 0 then Some (InlineKeyboardButton (Lit " ") "cal_ignore")
  else
    date_obj ← mkdate year month day;
    if Cal.date_ltb (today E) date_obj
    then Some (InlineKeyboardButton (Lit ("(" +:+ Py.str day +:+ ")")) "cal_ignore")
    else Some (InlineKeyboardButton (Lit (Py.str day))
                 ("cal_select_" +:+ Py.str year +:+ "_" +:+ Py.str month
                  +:+ "_" +:+ Py.str day)).

(** [generate_calendar], [bot.py:118]; [None] stands for the [ValueError]
    raised by [calendar.monthcalendar] or [datetime]. *)
Definition generate_calendar (year month : Z) : option keyboard :=
  cal ← Cal.monthcalendar year month;
  month_name ← russian_months !! Z.to_nat month;
  let header :=
    [ InlineKeyboardButton (Lit "◀️") ("cal_prev_" +:+ Py.str year +:+ "_" +:+ Py.str month);
      InlineKeyboardButton (Lit (month_name +:+ " " +:+ Py.str year)) "cal_ignore";
      InlineKeyboardButton (Lit "▶️") ("cal_next_" +:+ Py.str year +:+ "_" +:+ Py.str month) ] in
  let week_header := map (fun l => InlineKeyboardButton (Lit l) "cal_ignore") weekday_labels in
  rows ← mapM (fun week => mapM (calendar_cell year month) week) cal;
  Some (header :: week_header :: rows).

(** One day cell of [generate_report_calendar], [bot.py:1547-1553]. *)
Definition report_calendar_cell (year month day : Z) : option button :=
  if day =? 0 then Some (InlineKeyboardButton (Lit " ") "report_cal_ignore")
  else
    date_obj ← mkdate year month day;
    Some (InlineKeyboardButton (Lit (Py.str day))
            ("report_cal_select_" +:+ Py.str year +:+ "_" +:+ Py.str month
             +:+ "_" +:+ Py.str day)).

(** [generate_report_calendar], [bot.py:1511] *)
Definition generate_report_calendar (year month : Z) : option keyboard :=
  cal ← Cal.monthcalendar year month;
  month_name ← russian_months !! Z.to_nat month;
  let header :=
    [ InlineKeyboardButton (Lit "◀️")
        ("report_cal_prev_" +:+ Py.str year +:+ "_" +:+ Py.str month);
      InlineKeyboardButton (Lit (month_name +:+ " " +:+ Py.str year)) "report_cal_ignore";
      InlineKeyboardButton (Lit "▶️")
        ("report_cal_next_" +:+ Py.str year +:+ "_" +:+ Py.str month) ] in
  let week_header :=
    map (fun l => InlineKeyboardButton (Lit l) "report_cal_ignore") weekday_labels in
  rows ← mapM (fun week => mapM (report_calendar_cell year month) week) cal;
  Some (header :: week_header :: rows
        ++ [[InlineKeyboardButton (Lit "🔙 Назад к отчетам") "reports"]]).

(** *** The add-entry wizard *)

Definition BANNED : text := Lit "🚫 Ваш аккаунт заблокирован. Обратитесь к администратору.".
Definition BANNED_SHORT : text := Lit "🚫 Ваш аккаунт заблокирован".
Definition NO_PROJECTS : text := Lit "❌ Нет доступных проектов. Обратитесь к администратору.".
Definition HOURS_OUT_OF_RANGE : text :=
  Lit "❌ Некорректное количество часов. Введите число от 0.1 до 24:".
Definition HOURS_BAD_FORMAT : text :=
  Lit "❌ Некорректный формат. Введите число (например: 1.5):".
Definition PERIOD_UNAVAILABLE : text := Lit "❌ Недоступный период".
Definition NOT_SPECIFIED : pyval := VStr "Не указано".

(** [edit_message_text] on a callback query, [reply_text] otherwise. *)
Definition respond (u : update) (t : text) (kb : option keyboard) : M unit :=
  if is_callback u then emit (edit_message_text t kb) else emit (reply_text t kb).

(** [start_add_hours], [bot.py:272] *)
Definition start_add_hours (u : update) : M retval :=
  banned ← check_user_ban (effective_user u);
  if (banned : bool) then respond u BANNED None;; mret REND
  else
    projects ← get_projects;
    match (projects : list (Z * string)) with
    | [] => respond u NO_PROJECTS None;; mret REND
    | _ =>
        let kb := map (fun p => [InlineKeyboardButton (Lit (snd p))
                                   ("project_" +:+ Py.str (fst p))]) projects in
        respond u (Lit "📋 Выберите проект:") (Some kb);;
        mret (RState SELECTING_PROJECT)
    end.

Definition hours_keyboard : keyboard :=
  [ [ InlineKeyboardButton (Lit "0.5ч") "hours_0.5";
      InlineKeyboardButton (Lit "1ч") "hours_1";
      InlineKeyboardButton (Lit "2ч") "hours_2";
      InlineKeyboardButton (Lit "4ч") "hours_4" ];
    [ InlineKeyboardButton (Lit "✏️ Ввести вручную") "hours_custom" ] ].

(** [select_project], [bot.py:311] *)
Definition select_project (data : string) : M retval :=
  arg ← item (Py.split "_" data) 1;
  project_id ← int arg;
  ud_set "selected_project_id" (VInt project_id);;
  row ← select (find_project project_id);
  name ← lift_option TypeError (project_name <$> row);
  ud_set "selected_project_name" (VStr name);;
  emit (edit_message_text (Fmt "⏱ Проект: {}\nСколько часов добавить?" [VStr name])
          (Some hours_keyboard));;
  mret (RState ENTERING_HOURS).

Definition skip_keyboard : keyboard :=
  [ [ InlineKeyboardButton (Lit "⏭ Пропустить") "skip_description" ] ].

Definition description_prompt (name : pyval) (hours : spec_float) : text :=
  Fmt "⏱ Проект: {}\n⏰ Часы: {}\n\n📝 Введите краткое описание задачи или нажмите 'Пропустить':"
      [name; VFloat hours].

(** [select_hours], [bot.py:345] *)
Definition select_hours (data : string) : M retval :=
  if String.eqb data "hours_custom" then
    name ← ud_item "selected_project_name";
    emit (edit_message_text
            (Fmt "⏱ Проект: {}\nВведите количество часов (например: 1.5):" [name]) None);;
    mret (RState ENTERING_HOURS)
  else
    arg ← item (Py.split "_" data) 1;
    hours ← float arg;
    ud_set "selected_hours" (VFloat hours);;
    name ← ud_item "selected_project_name";
    emit (edit_message_text (description_prompt name hours) (Some skip_keyboard));;
    mret (RState ENTERING_DESCRIPTION).

(** [handle_hours_input], [bot.py:375] *)
Definition handle_hours_input (msg : string) : M retval :=
  try_except_ValueError
    (hours ← float (Py.replace "," "." msg);
     if Py.float_le hours (Py.float_of_Z 0) || Py.float_gt hours (Py.float_of_Z 24) then
       emit (reply_text HOURS_OUT_OF_RANGE None);;
       mret (RState ENTERING_HOURS)
     else
       ud_set "selected_hours" (VFloat hours);;
       name ← ud_item "selected_project_name";
       emit (reply_text (description_prompt name hours) (Some skip_keyboard));;
       mret (RState ENTERING_DESCRIPTION))
    (emit (reply_text HOURS_BAD_FORMAT None);;
     mret (RState ENTERING_HOURS)).

Definition date_prompt (name hours description : pyval) : text :=
  Fmt "⏱ Проект: {}\n⏰ Часы: {}\n📝 Описание: {}\n\n📅 Выберите дату:"
      [name; hours; description].

(** [show_date_selection], [bot.py:436] *)
Definition show_date_selection (u : update) : M retval :=
  let kb :=
    [ [ InlineKeyboardButton (Lit "📅 Сегодня")
          ("date_" +:+ Cal.strftime_iso (today E)) ];
      [ InlineKeyboardButton (Lit "📅 Вчера")
          ("date_" +:+ Cal.strftime_iso (Cal.yesterday (today E))) ];
      [ InlineKeyboardButton (Lit "🗓 Календарь") "date_custom" ] ] in
  name ← ud_item "selected_project_name";
  hours ← ud_item "selected_hours";
  description ← ud_get "description";
  respond u (date_prompt name hours (default NOT_SPECIFIED description)) (Some kb);;
  mret (RState SELECTING_DATE).

Definition PROJECTS_MENU : text := Lit "📋 Управление проектами:".

(** A text with the character NUL, which the database driver refuses to
    send. *)
Fixpoint has_nul (s : string) : bool :=
  match s with
  | EmptyString => false
  | String c s' => (Unicode.byte c =? 0) || has_nul s'
  end.

(** A text stored in a column of type [VARCHAR(n)]: more than [n]
    characters are an error, unless those in excess are all blanks, which
    are cut off. *)
Definition varchar (n : nat) (s : string) : option string :=
  let cs := Unicode.chars s in
  if forallb (String.eqb " ") (skipn n cs)
  then Some (String.concat EmptyString (firstn n cs)) else None.

(** [INSERT INTO projects (name, description)]: the row takes the next
    value of the sequence of [id] and is active. *)
Definition insert_project (d : database) (name : string) : database :=
  {| users := users d;
     projects := projects d ++ [{| project_id := next_project_id d;
                                   project_name := name; is_active := true |}];
     time_entries := time_entries d;
     next_project_id := next_project_id d + 1;
     next_entry_id := next_entry_id d |}.

(** The insert is refused by the constraint [UNIQUE (name)]: no row is
    stored, but the value taken from the sequence is not given back. *)
Definition refuse_project (d : database) : database :=
  {| users := users d; projects := projects d; time_entries := time_entries d;
     next_project_id := next_project_id d + 1;
     next_entry_id := next_entry_id d |}.

(** [AdminManager.add_project], [admin.py:80]: [False] when the database
    cannot be reached, when the name cannot be sent or stored
    ([name VARCHAR(255)]), and when a project has the name already. *)
Definition add_project (name : string) : M bool :=
  try_except
    (select (fun _ => tt);;
     stored ← lift_option DatabaseError
                (if has_nul name then None else varchar 255 name);
     taken ← select (fun d => existsb (fun r => String.eqb (project_name r) stored)
                                      (projects d));
     if (taken : bool) then execute refuse_project;; raise DatabaseError
     else execute (fun d => insert_project d stored);; mret true)
    (mret false).

(** [if nav: keyboard.append(nav)] *)
Definition nav_rows (nav : list button) : keyboard :=
  match nav with [] => [] | _ => [nav] end.

(** [(len(projects) - 1) // page_size + 1 if projects else 1];
    [None] stands for [ZeroDivisionError]. *)
Definition total_pages_of (len page_size : Z) : option Z :=
  if len =? 0 then Some 1
  else if page_size =? 0 then None
  else Some ((len - 1) / page_size + 1).

(** The navigation row of [get_projects_keyboard], [admin.py:206-210]. *)
Definition projects_nav (page total_pages : Z) : list button :=
  (if 0 <? page
   then [InlineKeyboardButton (Lit "⬅️") ("admin_projects_page_" +:+ Py.str (page - 1))]
   else [])
  ++ (if page <? total_pages - 1
      then [InlineKeyboardButton (Lit "➡️") ("admin_projects_page_" +:+ Py.str (page + 1))]
      else []).

Definition project_button (r : project_row) : list button :=
  [ InlineKeyboardButton
      (Fmt "{status_mark} {name} ({hours}ч)"
           [VStr (if is_active r then "✅" else "❌"); VStr (project_name r)])
      ("admin_project_" +:+ Py.str (project_id r)) ].

(** The keyboard built by [get_projects_keyboard] from the rows of
    [get_all_projects], [admin.py:189-220]. *)
Definition projects_keyboard (rows : list project_row) (page page_size : Z)
  : option keyboard :=
  total_pages ← total_pages_of (Z.of_nat (length rows)) page_size;
  let start_idx := page * page_size in
  let end_idx := start_idx + page_size in
  let page_projects := Py.slice rows start_idx end_idx in
  let nav_buttons := projects_nav page total_pages in
  Some (map project_button page_projects
        ++ nav_rows nav_buttons
        ++ [[ InlineKeyboardButton (Lit "➕ Добавить проект") "admin_add_project";
              InlineKeyboardButton (Lit "🔙 Админ меню") "admin_menu" ]]).

(** [AdminManager.get_projects_keyboard], [admin.py:186]; rows in stored
    order. *)
Definition get_projects_keyboard (page page_size : Z) : M keyboard :=
  rows ← select projects;
  lift_option ZeroDivisionError (projects_keyboard rows page page_size).

(** [handle_description_input], [bot.py:408] *)
Definition handle_description_input (u : update) (msg : string) : M retval :=
  let text := Py.strip msg in
  action ← ud_get "admin_action";
  if is_str "add_project" action then
      admin ← is_admin (effective_user u);
      (if (admin : bool) then
         success ← add_project text;
         if (success : bool) then
           emit (reply_text (Fmt "✅ Проект '{}' создан!" [VStr text]) None);;
           kb ← get_projects_keyboard 0 5;
           emit (reply_text PROJECTS_MENU (Some kb))
         else emit (reply_text (Fmt "❌ Проект '{}' уже существует!" [VStr text]) None)
       else mret tt);;
      ud_clear;;
      mret REND
  else
      ud_set "description" (VStr text);;
      show_date_selection u.

(** [skip_description], [bot.py:431] *)
Definition skip_description (u : update) : M retval :=
  ud_set "description" VNone;;
  show_date_selection u.

(** [description or 'Не указано'] *)
Definition or_not_specified (d : option pyval) : pyval :=
  if truthy d then default VNone d else NOT_SPECIFIED.

Definition entry_added (name hours description : pyval) (date : string) : text :=
  Fmt "✅ Запись добавлена!\n\n⏱ Проект: {}\n⏰ Часы: {}\n📝 Описание: {}\n📅 Дата: {}"
      [name; hours; description; VStr date].

(** The month reached by a ◀️ / ▶️ button, [bot.py:477-486]. *)
Definition shift_month (prev : bool) (year month : Z) : Z * Z :=
  if prev then
    let month := month - 1 in
    if month =? 0 then (year - 1, 12) else (year, month)
  else
    let month := month + 1 in
    if month =? 13 then (year + 1, 1) else (year, month).

(** [handle_calendar], [bot.py:462] *)
Definition handle_calendar (u : update) (data : string) : M retval :=
  if String.eqb data "cal_ignore" then
    emit (answer None);; mret RNone
  else if Py.startswith data "cal_prev_" || Py.startswith data "cal_next_" then
    let parts := Py.split "_" data in
    year ← item parts 2 ≫= int;
    month ← item parts 3 ≫= int;
    let '(year, month) := shift_month (Py.startswith data "cal_prev_") year month in
    if (year <? Cal.year (today E) - 1) || (Cal.year (today E) <? year) then
      emit (answer (Some PERIOD_UNAVAILABLE));; mret RNone
    else
      calendar_markup ← lift_option ValueError (generate_calendar year month);
      name ← ud_item "selected_project_name";
      hours ← ud_item "selected_hours";
      description ← ud_get "description";
      emit (edit_message_text (date_prompt name hours (default NOT_SPECIFIED description))
              (Some calendar_markup));;
      mret (RState SELECTING_DATE)
  else if Py.startswith data "cal_select_" then
    let parts := Py.split "_" data in
    year ← item parts 2 ≫= int;
    month ← item parts 3 ≫= int;
    day ← item parts 4 ≫= int;
    let date_str := Cal.iso year month day in
    project_id ← ud_item "selected_project_id";
    hours ← ud_item "selected_hours";
    description ← ud_get "description";
    add_time_entry (effective_user u) project_id hours (default VNone description) date_str;;
    let formatted_date := Py.fmt02d day +:+ "." +:+ Py.fmt02d month +:+ "." +:+ Py.str year in
    name ← ud_item "selected_project_name";
    emit (answer None);;
    emit (reply_text (entry_added name hours (or_not_specified description)
                        formatted_date) None);;
    ud_clear;;
    mret REND
  else mret RNone.

(** [date_obj.strftime('%d.%m.%Y')] *)
Definition dmy (d : Cal.date) : string :=
  Py.fmt02d (Cal.day d) +:+ "." +:+ Py.fmt02d (Cal.month d) +:+ "." +:+ Py.str (Cal.year d).

(** [select_date], [bot.py:541] *)
Definition select_date (u : update) (data : string) : M retval :=
  if String.eqb data "date_custom" then
    calendar_markup ← lift_option ValueError
                        (generate_calendar (Cal.year (today E)) (Cal.month (today E)));
    name ← ud_item "selected_project_name";
    hours ← ud_item "selected_hours";
    description ← ud_get "description";
    emit (edit_message_text (date_prompt name hours (default NOT_SPECIFIED description))
            (Some calendar_markup));;
    mret (RState SELECTING_DATE)
  else
    date_str ← item (Py.split1 "_" data) 1;
    project_id ← ud_item "selected_project_id";
    hours ← ud_item "selected_hours";
    description ← ud_get "description";
    add_time_entry (effective_user u) project_id hours (default VNone description) date_str;;
    date_obj ← lift_option ValueError (Cal.strptime date_str);
    name ← ud_item "selected_project_name";
    emit (answer None);;
    emit (reply_text (entry_added name hours (or_not_specified description)
                        (dmy date_obj)) None);;
    ud_clear;;
    mret REND.

(** [handle_date_input], [bot.py:592] *)
Definition handle_date_input : M retval :=
  emit (reply_text (Lit "📅 Пожалуйста, используйте кнопки выбора даты выше или нажмите '🗓 Календарь' для выбора конкретной даты.") None);;
  mret (RState SELECTING_DATE).

(** *** Entry listing and deletion *)

Definition entry_cells (r : entry_row) : list pyval :=
  [VInt (entry_id r); entry_project r; entry_hours r; entry_description r;
   VStr (entry_date r)].

(** The navigation row of [show_my_entries_page], [bot.py:658-662]. *)
Definition entries_nav (page total_pages : Z) : list button :=
  (if 0 <? page
   then [InlineKeyboardButton (Lit "◀️ Назад") ("entries_page_" +:+ Py.str (page - 1))]
   else [])
  ++ (if page <? total_pages - 1
      then [InlineKeyboardButton (Lit "Вперёд ▶️") ("entries_page_" +:+ Py.str (page + 1))]
      else []).

(** Text and keyboard of one page of entries, [bot.py:619-668]. *)
Definition entries_page_view (total_entries : Z) (entries : list entry_row) (page : Z)
  : text * keyboard :=
  let entries_per_page := 5 in
  match entries with
  | [] => (Lit "📊 У вас пока нет записей о времени.", [])
  | _ =>
      let total_pages := (total_entries + entries_per_page - 1) / entries_per_page in
      let nav_row := entries_nav page total_pages in
      (Table "📊 Ваши последние записи (страница {} из {}):"
             [VInt (page + 1); VInt total_pages] (map entry_cells entries),
       nav_rows nav_row
       ++ [[InlineKeyboardButton (Lit "🗑 Удалить запись")
              ("delete_entries_page_" +:+ Py.str page)]])
  end.

(** [show_my_entries_page], [bot.py:605] *)
Definition show_my_entries_page (u : update) (page : Z) : M retval :=
  let entries_per_page := 5 in
  let offset := page * entries_per_page in
  total_entries ← select (fun d => Z.of_nat (length (entries_of (effective_user u) d)));
  entries ← get_user_entries_paginated (effective_user u) entries_per_page offset;
  let '(text, kb) := entries_page_view total_entries entries page in
  (if is_callback u then
     emit (answer None);;
     match kb with
     | [] => emit (reply_text text None)
     | _ => emit (edit_message_text text (Some kb))
     end
   else emit (reply_text text (match kb with [] => None | _ => Some kb end)));;
  mret RNone.

(** [show_my_entries], [bot.py:599] *)
Definition show_my_entries (u : update) : M retval := show_my_entries_page u 0.

(** [handle_entries_pagination], [bot.py:1229] *)
Definition handle_entries_pagination (u : update) (data : string) : M retval :=
  page ← item (Py.split "_" data) 2 ≫= int;
  show_my_entries_page u page.

Definition entry_button (prefix suffix : string) (r : entry_row) : list button :=
  [ InlineKeyboardButton (Fmt "📋 {} - {}ч ({})" (entry_cells r))
      (prefix +:+ Py.str (entry_id r) +:+ suffix) ].

(** [show_delete_menu], [bot.py:1120] *)
Definition show_delete_menu (u : update) : M retval :=
  entries ← get_user_entries (effective_user u) 10;
  match (entries : list entry_row) with
  | [] =>
      (if is_callback u then emit (answer None) else mret tt);;
      emit (reply_text (Lit "🗑 У вас пока нет записей для удаления.") None);;
      mret RNone
  | _ =>
      respond u (Lit "🗑 Выберите запись для удаления:")
        (Some (map (entry_button "delete_entry_" "") entries));;
      mret RNone
  end.

Definition find_entry (eid uid : Z) (d : database) : option entry_row :=
  List.find (fun r => (entry_id r =? eid) && (entry_user r =? uid)) (time_entries d).

Definition NOT_FOUND : text := Lit "❌ Запись не найдена".

Definition confirm_text (r : entry_row) : text :=
  Fmt "⚠️ Подтвердите удаление:\n\nПроект: {}\n⏰ Часы: {}\n📝 Описание: {}\n📅 Дата: {}"
      (entry_cells r).

(** [confirm_delete_entry], [bot.py:1166] *)
Definition confirm_delete_entry (u : update) (data : string) : M retval :=
  entry_id ← item (Py.split "_" data) 2 ≫= int;
  entry ← select (find_entry entry_id (effective_user u));
  match (entry : option entry_row) with
  | None => emit (answer (Some NOT_FOUND));; mret RNone
  | Some r =>
      emit (edit_message_text (confirm_text r)
              (Some [ [InlineKeyboardButton (Lit "❌ Удалить")
                         ("confirm_delete_" +:+ Py.str (Bot.entry_id r))];
                      [InlineKeyboardButton (Lit "🔙 Отмена") "delete_menu"] ]));;
      mret RNone
  end.

(** [delete_entry], [bot.py:1214] *)
Definition delete_entry (u : update) (data : string) : M retval :=
  entry_id ← item (Py.split "_" data) 2 ≫= int;
  success ← delete_time_entry entry_id (effective_user u);
  (if (success : bool) then
     emit (answer (Some (Lit "✅ Запись удалена!")));;
     emit (reply_text (Lit "✅ Запись успешно удалена!") None)
   else
     emit (answer (Some (Lit "❌ Ошибка удаления")));;
     emit (reply_text (Lit "❌ Ошибка при удалении записи.") None));;
  mret RNone.

(** [show_delete_entries_from_page], [bot.py:1235] *)
Definition show_delete_entries_from_page (u : update) (data : string) : M retval :=
  page ← item (Py.split "_" data) 3 ≫= int;
  entries ← get_user_entries_paginated (effective_user u) 5 (page * 5);
  match (entries : list entry_row) with
  | [] => emit (answer (Some (Lit "❌ Нет записей для удаления")));; mret RNone
  | _ =>
      emit (edit_message_text (Lit "🗑 Выберите запись для удаления:")
              (Some (map (entry_button "delete_entry_from_page_" ("_" +:+ Py.str page)) entries
                     ++ [[InlineKeyboardButton (Lit "🔙 Назад к записям")
                            ("entries_page_" +:+ Py.str page)]])));;
      mret RNone
  end.

(** [confirm_delete_entry_from_page], [bot.py:1282] *)
Definition confirm_delete_entry_from_page (u : update) (data : string) : M retval :=
  let data_parts := Py.split "_" data in
  entry_id ← item data_parts 4 ≫= int;
  page ← item data_parts 5 ≫= int;
  entry ← select (find_entry entry_id (effective_user u));
  match (entry : option entry_row) with
  | None => emit (answer (Some NOT_FOUND));; mret RNone
  | Some r =>
      emit (edit_message_text (confirm_text r)
              (Some [ [InlineKeyboardButton (Lit "❌ Удалить")
                         ("confirm_delete_from_page_" +:+ Py.str (Bot.entry_id r)
                          +:+ "_" +:+ Py.str page)];
                      [InlineKeyboardButton (Lit "🔙 Отмена")
                         ("delete_entries_page_" +:+ Py.str page)] ]));;
      mret RNone
  end.

(** [delete_entry_from_page], [bot.py:1332] *)
Definition delete_entry_from_page (u : update) (data : string) : M retval :=
  let data_parts := Py.split "_" data in
  entry_id ← item data_parts 4 ≫= int;
  page ← item data_parts 5 ≫= int;
  success ← delete_time_entry entry_id (effective_user u);
  (if (success : bool) then emit (answer (Some (Lit "✅ Запись удалена!")))
   else emit (answer (Some (Lit "❌ Ошибка удаления"))));;
  show_my_entries_page u page.

(** *** Reports *)

Definition reports_menu : keyboard :=
  [ [InlineKeyboardButton (Lit "📅 Сегодня") "report_today"];
    [InlineKeyboardButton (Lit "📊 Неделя") "report_week"];
    [InlineKeyboardButton (Lit "📅 Выбрать даты") "report_custom"];
    [InlineKeyboardButton (Lit "📋 По проектам") "report_projects"];
    [InlineKeyboardButton (Lit "📈 Недельная сводка") "report_weekly_summary"];
    [InlineKeyboardButton (Lit "🚀 Продуктивность") "report_productivity"];
    [InlineKeyboardButton (Lit "💾 Экспорт CSV") "export_csv"] ].

(** [show_reports_menu], [bot.py:682] *)
Definition show_reports_menu (u : update) : M retval :=
  respond u (Lit "📈 Выберите тип отчета:") (Some reports_menu);;
  mret RNone.

(** [show_user_reports_menu], [bot.py:702] *)
Definition show_user_reports_menu (u : update) (target : Z) : M retval :=
  ud_set "admin_target_user_id" (VInt target);;
  known ← select (fun d => bool_decide (is_Some (find_user target d)));
  respond u (Fmt "📈 Отчеты для: {}\n\nВыберите тип отчета:"
                 [VInt target; VInt (if (known : bool) then 1 else 0)])
    (Some (reports_menu
           ++ [[InlineKeyboardButton (Lit "🔙 К пользователю")
                  ("admin_user_" +:+ Py.str target)]]));;
  mret RNone.

(** A text produced by [ReportsManager], [analytics_manager] or
    [AdminManager] out of the database. *)
Definition collaborator (name : string) (args : list pyval) : M text :=
  select (fun _ => Lit (report E name args)).

Definition REPORT_START_PROMPT : text :=
  Lit "📅 Выберите период для отчета:\n\nСначала выберите дату НАЧАЛА периода:".

Definition report_end_prompt (start : pyval) : text :=
  Fmt "📅 Период для отчета:\n\nДата начала: {}\n\nТеперь выберите дату ОКОНЧАНИЯ периода:"
      [start].

(** [show_custom_date_selection], [bot.py:1500] *)
Definition show_custom_date_selection : M retval :=
  calendar_markup ← lift_option ValueError
                      (generate_report_calendar (Cal.year (today E)) (Cal.month (today E)));
  emit (edit_message_text REPORT_START_PROMPT (Some calendar_markup));;
  mret RNone.

(** [context.user_data.get('admin_target_user_id', user_id)] *)
Definition target_user (uid : Z) : M pyval :=
  t ← ud_get "admin_target_user_id";
  mret (default (VInt uid) t).

(** [handle_report], [bot.py:737] *)
Definition handle_report (u : update) (data : string) : M retval :=
  let parts := Py.split "_" data in
  report_type ← item parts 1;
  target_user_id ← target_user (effective_user u);
  let send (report_text : text) : M retval :=
    emit (answer None);; emit (reply_text report_text None);; mret RNone in
  if String.eqb report_type "today" then
    collaborator "get_today_report" [target_user_id] ≫= send
  else if String.eqb report_type "week" then
    collaborator "get_week_report" [target_user_id] ≫= send
  else if String.eqb report_type "projects" then
    collaborator "get_projects_report" [target_user_id] ≫= send
  else if String.eqb report_type "weekly" then
    if match parts !! 2%nat with
       | Some part => String.eqb part "summary"
       | None => false
       end
    then collaborator "get_weekly_summary" [target_user_id] ≫= send
    else collaborator "get_week_report" [target_user_id] ≫= send
  else if String.eqb report_type "custom" then show_custom_date_selection
  else if String.eqb report_type "productivity" then
    collaborator "get_user_productivity_trend" [target_user_id] ≫= send
  else send (Lit "❌ Неизвестный тип отчета").

(** The caption of the exported file, [bot.py:818]. *)
Definition csv_caption (target_user_id : pyval) (uid : Z) : text :=
  match target_user_id with
  | VInt t => if t =? uid
              then Lit "📊 Ваши данные экспортированы в CSV"
              else Fmt "📊 Данные пользователя {} экспортированы в CSV" [target_user_id]
  | _ => Fmt "📊 Данные пользователя {} экспортированы в CSV" [target_user_id]
  end.

(** [export_user_csv], [bot.py:805] *)
Definition export_user_csv (u : update) : M retval :=
  target_user_id ← target_user (effective_user u);
  try_except
    (csv_data ← collaborator "export_to_csv" [target_user_id];
     emit (send_document (Fmt "timetrack_{}_{}.csv" [target_user_id])
             (csv_caption target_user_id (effective_user u)));;
     emit (answer (Some (Lit "✅ CSV файл отправлен!"))))
    (emit (answer (Some (Lit "❌ Ошибка экспорта: {}"))));;
  mret RNone.

Definition END_BEFORE_START : text :=
  Lit "❌ Дата окончания не может быть раньше даты начала!".
Definition PERIOD_TOO_LONG : text := Lit "❌ Период не может быть больше 365 дней!".
Definition DATE_ERROR : text := Lit "❌ Ошибка в датах".

(** The outcome of the range validation, [bot.py:1632-1647]. *)
Inductive range_check :=
  | RangeOk
  | RangeRejected (notice : text).

Definition check_range (start_date date_str : string) : range_check :=
  match Cal.strptime start_date, Cal.strptime date_str with
  | Some start_obj, Some end_obj =>
      if Cal.date_ltb end_obj start_obj then RangeRejected END_BEFORE_START
      else if 365 <? Cal.days_between end_obj start_obj then RangeRejected PERIOD_TOO_LONG
      else RangeOk
  | _, _ => RangeRejected DATE_ERROR
  end.

(** [strptime] of a value read from the context: a value that is not a
    string raises [TypeError]. *)
Definition as_str (v : pyval) : M string :=
  match v with VStr s => mret s | _ => raise TypeError end.

(** [handle_report_calendar], [bot.py:1563] *)
Definition handle_report_calendar (u : update) (data : string) : M retval :=
  if String.eqb data "report_cal_ignore" then
    emit (answer None);; mret RNone
  else if Py.startswith data "report_cal_prev_" || Py.startswith data "report_cal_next_" then
    let parts := Py.split "_" data in
    year ← item parts 3 ≫= int;
    month ← item parts 4 ≫= int;
    let '(year, month) := shift_month (Py.startswith data "report_cal_prev_") year month in
    if (year <? Cal.year (today E) - 2) || (Cal.year (today E) + 1 <? year) then
      emit (answer (Some PERIOD_UNAVAILABLE));; mret RNone
    else
      calendar_markup ← lift_option ValueError (generate_report_calendar year month);
      start ← ud_get "report_start_date";
      (if truthy start
       then emit (edit_message_text (report_end_prompt (default VNone start))
                    (Some calendar_markup))
       else emit (edit_message_text REPORT_START_PROMPT (Some calendar_markup)));;
      mret RNone
  else if Py.startswith data "report_cal_select_" then
    let parts := Py.split "_" data in
    year ← item parts 3 ≫= int;
    month ← item parts 4 ≫= int;
    day ← item parts 5 ≫= int;
    let date_str := Cal.iso year month day in
    let formatted_date := Py.fmt02d day +:+ "." +:+ Py.fmt02d month +:+ "." +:+ Py.str year in
    start ← ud_get "report_start_date";
    if negb (truthy start) then
      ud_set "report_start_date" (VStr date_str);;
      ud_set "report_start_date_formatted" (VStr formatted_date);;
      calendar_markup ← lift_option ValueError (generate_report_calendar year month);
      emit (edit_message_text (report_end_prompt (VStr formatted_date))
              (Some calendar_markup));;
      mret RNone
    else
      start_date ← ud_item "report_start_date";
      start_date_formatted ← ud_item "report_start_date_formatted";
      start_str ← as_str start_date;
      match check_range start_str date_str with
      | RangeRejected notice => emit (answer (Some notice));; mret RNone
      | RangeOk =>
          target_user_id ← target_user (effective_user u);
          report_text ← collaborator "get_custom_period_report"
                          [target_user_id; start_date; VStr date_str];
          ud_pop "report_start_date";;
          ud_pop "report_start_date_formatted";;
          emit (answer None);;
          emit (reply_text report_text None);;
          mret RNone
      end
  else mret RNone.

(** *** Administration *)

Definition ACCESS_DENIED : text := Lit "❌ Доступ запрещен".

Definition admin_keyboard : keyboard :=
  [ [ InlineKeyboardButton (Lit "👥 Пользователи") "admin_users";
      InlineKeyboardButton (Lit "📋 Проекты") "admin_projects" ];
    [ InlineKeyboardButton (Lit "📊 Статистика") "admin_stats";
      InlineKeyboardButton (Lit "💾 Экспорт всех") "admin_export" ] ].

(** [show_admin_menu], [bot.py:832] *)
Definition show_admin_menu (u : update) : M retval :=
  admin ← is_admin (effective_user u);
  if (admin : bool) then
    respond u (Lit "👑 Административная панель:") (Some admin_keyboard);;
    mret RNone
  else
    (if is_callback u then emit (answer (Some ACCESS_DENIED))
     else emit (reply_text ACCESS_DENIED None));;
    mret RNone.

Definition user_button (r : user_row) : list button :=
  [ InlineKeyboardButton
      (Fmt "{admin_mark}{ban_mark}{name} ({hours}ч)"
           [VStr (if is_admin_flag r then "👑" else "");
            VStr (if is_banned_flag r then "❌" else ""); VInt (user_id r)])
      ("admin_user_" +:+ Py.str (user_id r)) ].

(** [AdminManager.get_users_keyboard], [admin.py:146], at its default
    page size; rows in stored order. *)
Definition get_users_keyboard (page : Z) : M keyboard :=
  rows ← select users;
  let page_size := 5 in
  total_pages ← lift_option ZeroDivisionError
                  (total_pages_of (Z.of_nat (length (rows : list user_row))) page_size);
  let nav_buttons :=
    (if 0 <? page
     then [InlineKeyboardButton (Lit "⬅️") ("admin_users_page_" +:+ Py.str (page - 1))]
     else [])
    ++ (if page <? total_pages - 1
        then [InlineKeyboardButton (Lit "➡️") ("admin_users_page_" +:+ Py.str (page + 1))]
        else []) in
  mret (map user_button (Py.slice rows (page * page_size) (page * page_size + page_size))
        ++ nav_rows nav_buttons
        ++ [[InlineKeyboardButton (Lit "🔙 Админ меню") "admin_menu"]]).

(** [AdminManager.get_user_detail_keyboard], [admin.py:222] *)
Definition get_user_detail_keyboard (target : Z) : M keyboard :=
  banned ← is_banned target;
  mret [ [InlineKeyboardButton (Lit "👑 Переключить админа")
            ("admin_toggle_user_" +:+ Py.str target)];
         [InlineKeyboardButton (Lit "📊 Отчеты") ("admin_user_reports_" +:+ Py.str target)];
         (if (banned : bool)
          then [InlineKeyboardButton (Lit "✅ Разбанить") ("admin_unban_user_" +:+ Py.str target)]
          else [InlineKeyboardButton (Lit "🚫 Забанить") ("admin_ban_user_" +:+ Py.str target)]);
         [InlineKeyboardButton (Lit "🔙 Назад") "admin_users"] ].

(** [AdminManager.get_project_detail_keyboard], [admin.py:242] *)
Definition get_project_detail_keyboard (pid : Z) : keyboard :=
  [ [InlineKeyboardButton (Lit "🔄 Переключить статус")
       ("admin_toggle_project_" +:+ Py.str pid)];
    [InlineKeyboardButton (Lit "🗑 Удалить") ("admin_delete_project_" +:+ Py.str pid)];
    [InlineKeyboardButton (Lit "🔙 Назад") "admin_projects"] ].

Definition update_user (target : Z) (f : user_row -> user_row) (d : database) : database :=
  {| users := map (fun r => if user_id r =? target then f r else r) (users d);
     projects := projects d; time_entries := time_entries d;
     next_project_id := next_project_id d; next_entry_id := next_entry_id d |}.

(** An [UPDATE users ... WHERE user_id = target]; the result is
    [cursor.rowcount > 0]. *)
Definition update_user_row (target : Z) (f : user_row -> user_row) : M bool :=
  found ← select (fun d => bool_decide (is_Some (find_user target d)));
  execute (update_user target f);;
  mret found.

(** [toggle_user_admin], [ban_user], [unban_user], [admin.py:112-144] *)
Definition toggle_user_admin (target : Z) : M bool :=
  update_user_row target (fun r => {| user_id := user_id r;
                                      is_admin_flag := negb (is_admin_flag r);
                                      is_banned_flag := is_banned_flag r |}).
Definition ban_user (target : Z) : M bool :=
  update_user_row target (fun r => {| user_id := user_id r;
                                      is_admin_flag := is_admin_flag r;
                                      is_banned_flag := true |}).
Definition unban_user (target : Z) : M bool :=
  update_user_row target (fun r => {| user_id := user_id r;
                                      is_admin_flag := is_admin_flag r;
                                      is_banned_flag := false |}).

(** [toggle_project_status], [admin.py:92] *)
Definition toggle_project_status (pid : Z) : M bool :=
  found ← select (fun d => bool_decide (is_Some (find_project pid d)));
  execute (fun d =>
    {| users := users d;
       projects := map (fun r => if project_id r =? pid
                                 then {| project_id := project_id r;
                                         project_name := project_name r;
                                         is_active := negb (is_active r) |}
                                 else r) (projects d);
       time_entries := time_entries d;
       next_project_id := next_project_id d; next_entry_id := next_entry_id d |});;
  mret found.

(** The user card shown after an administrative action on a user. *)
Definition show_user_card (target : Z) : M unit :=
  brief_text ← collaborator "get_user_brief_info" [VInt target];
  reply_markup ← get_user_detail_keyboard target;
  emit (edit_message_text brief_text (Some reply_markup)).

(** The project card shown after an administrative action on a project. *)
Definition show_project_card (pid : Z) : M unit :=
  stats_text ← collaborator "get_project_stats" [VInt pid];
  emit (edit_message_text stats_text (Some (get_project_detail_keyboard pid))).

Definition entries_of_project (pid : Z) (d : database) : list entry_row :=
  List.filter (fun r => match entry_project r with VInt p => p =? pid | _ => false end)
              (time_entries d).

(** [confirm_delete_project], [bot.py:1350]; [arg] is the optional
    [project_id] parameter. *)
Definition confirm_delete_project (u : update) (data : string) (arg : option Z) : M retval :=
  pid ← match arg with
        | Some p => mret p
        | None => item (Py.split "_" data) 3 ≫= int
        end;
  admin ← is_admin (effective_user u);
  if negb admin then emit (answer (Some ACCESS_DENIED));; mret RNone
  else
    result ← select (find_project pid);
    match (result : option project_row) with
    | None => emit (answer (Some (Lit "❌ Проект не найден")));; mret RNone
    | Some r =>
        entry_count ← select (fun d => Z.of_nat (length (entries_of_project pid d)));
        (if 0 <? entry_count then
           emit (edit_message_text
                   (Fmt "⚠️ Внимание! Проект '{}' содержит данные!\n\n📊 По нему есть {} записей о времени."
                        [VStr (project_name r); VInt entry_count])
                   (Some [ [InlineKeyboardButton (Lit "🔄 Деактивировать (рекомендуется)")
                              ("admin_toggle_project_" +:+ Py.str pid)];
                           [InlineKeyboardButton (Lit "❌ Всё равно удалить")
                              ("final_delete_project_" +:+ Py.str pid)];
                           [InlineKeyboardButton (Lit "🔙 Отмена")
                              ("admin_project_" +:+ Py.str pid)] ]))
         else
           emit (edit_message_text
                   (Fmt "⚠️ Подтвердите удаление проекта:\n\n📋 Проект: {}" [VStr (project_name r)])
                   (Some [ [InlineKeyboardButton (Lit "❌ Удалить")
                              ("final_delete_project_" +:+ Py.str pid)];
                           [InlineKeyboardButton (Lit "🔙 Отмена")
                              ("admin_project_" +:+ Py.str pid)] ])));;
        mret RNone
    end.

(** [confirm_ban_user], [bot.py:1403], called with an explicit user id. *)
Definition confirm_ban_user (u : update) (target : Z) : M retval :=
  admin ← is_admin (effective_user u);
  if negb admin then emit (answer (Some ACCESS_DENIED));; mret RNone
  else
    result ← select (find_user target);
    match (result : option user_row) with
    | None => emit (answer (Some (Lit "❌ Пользователь не найден")));; mret RNone
    | Some _ =>
        emit (edit_message_text
                (Fmt "⚠️ Подтвердите блокировку пользователя:\n\n👤 Пользователь: {}"
                     [VInt target])
                (Some [ [InlineKeyboardButton (Lit "❌ Забанить")
                           ("admin_confirm_ban_user_" +:+ Py.str target)];
                        [InlineKeyboardButton (Lit "🔙 Отмена")
                           ("admin_user_" +:+ Py.str target)] ]));;
        mret RNone
    end.

Definition ERROR_DELETING : text := Lit "❌ Ошибка удаления".

(** [delete_project], [bot.py:1444] *)
Definition delete_project (u : update) (data : string) : M retval :=
  pid ← item (Py.split "_" data) 3 ≫= int;
  admin ← is_admin (effective_user u);
  if negb admin then emit (answer (Some ACCESS_DENIED));; mret RNone
  else
    try_except
      (deleted_entries ← select (fun d => Z.of_nat (length (entries_of_project pid d)));
       success ← select (fun d => bool_decide (is_Some (find_project pid d)));
       execute (fun d =>
         {| users := users d;
            projects := List.filter (fun r => negb (project_id r =? pid)) (projects d);
            time_entries :=
              List.filter (fun r => match entry_project r with
                                    | VInt p => negb (p =? pid)
                                    | _ => true
                                    end) (time_entries d);
            next_project_id := next_project_id d; next_entry_id := next_entry_id d |});;
       if (success : bool) then
         (if 0 <? deleted_entries
          then emit (answer (Some (Fmt "✅ Проект удалён! ({} записей удалено)"
                                       [VInt deleted_entries])))
          else emit (answer (Some (Lit "✅ Проект удалён!"))));;
         kb ← get_projects_keyboard 0 5;
         emit (edit_message_text PROJECTS_MENU (Some kb))
       else
         emit (answer (Some ERROR_DELETING));;
         show_project_card pid)
      (emit (answer (Some ERROR_DELETING));;
       try_except
         (show_project_card pid)
         (kb ← get_projects_keyboard 0 5;
          emit (edit_message_text PROJECTS_MENU (Some kb))));;
    mret RNone.

Definition back_to_stats : keyboard :=
  [[InlineKeyboardButton (Lit "🔙 К статистике") "admin_stats"]].

(** [int(action.split("_")[i])] *)
Definition int_arg (action : string) (i : nat) : M Z :=
  item (Py.split "_" action) i ≫= int.

(** [handle_admin], [bot.py:852] *)
Definition handle_admin (u : update) (data : string) : M retval :=
  admin ← is_admin (effective_user u);
  if negb admin then emit (answer (Some ACCESS_DENIED));; mret RNone
  else
    let action := Py.join "_" (tail (Py.split "_" data)) in
    if String.eqb action "users" then
      kb ← get_users_keyboard 0;
      emit (edit_message_text (Lit "👥 Управление пользователями:") (Some kb));; mret RNone
    else if String.eqb action "projects" then
      kb ← get_projects_keyboard 0 5;
      emit (edit_message_text PROJECTS_MENU (Some kb));; mret RNone
    else if Py.startswith action "projects_page_" then
      page ← int_arg action 2;
      kb ← get_projects_keyboard page 5;
      emit (edit_message_text PROJECTS_MENU (Some kb));; mret RNone
    else if String.eqb action "stats" then
      emit (edit_message_text (Lit "📊 Выберите тип отчета:")
              (Some [ [InlineKeyboardButton (Lit "📈 Основная статистика") "admin_basic_stats"];
                      [InlineKeyboardButton (Lit "🚀 Продуктивность команды")
                         "admin_team_efficiency"];
                      [InlineKeyboardButton (Lit "📅 Недельная сводка команды")
                         "admin_team_weekly"];
                      [InlineKeyboardButton (Lit "🔙 Админ меню") "admin_menu"] ]));;
      mret RNone
    else if Py.startswith action "user_stats_" then
      target ← int_arg action 2; show_user_reports_menu u target
    else if Py.startswith action "user_reports_" then
      target ← int_arg action 2; show_user_reports_menu u target
    else if Py.startswith action "user_" then
      target ← int_arg action 1; show_user_card target;; mret RNone
    else if Py.startswith action "project_stats_" then
      pid ← int_arg action 2;
      stats_text ← collaborator "get_project_stats" [VInt pid];
      emit (edit_message_text stats_text (Some (get_project_detail_keyboard pid)));;
      mret RNone
    else if Py.startswith action "project_"
            && match Py.split "_" action !! 1%nat with
               | Some s => Py.isdigit s
               | None => false
               end then
      pid ← int_arg action 1; show_project_card pid;; mret RNone
    else if Py.startswith action "toggle_user_" then
      target ← int_arg action 2;
      success ← toggle_user_admin target;
      (if (success : bool) then emit (answer (Some (Lit "✅ Статус администратора изменен")))
       else emit (answer (Some (Lit "❌ Ошибка изменения статуса"))));;
      show_user_card target;; mret RNone
    else if Py.startswith action "ban_user_" then
      target ← int_arg action 2; confirm_ban_user u target
    else if Py.startswith action "confirm_ban_user_" then
      target ← int_arg action 3;
      success ← ban_user target;
      (if (success : bool) then emit (answer (Some (Lit "✅ Пользователь заблокирован!")))
       else emit (answer (Some (Lit "❌ Ошибка блокировки"))));;
      show_user_card target;; mret RNone
    else if Py.startswith action "unban_user_" then
      target ← int_arg action 2;
      success ← unban_user target;
      (if (success : bool) then emit (answer (Some (Lit "✅ Пользователь разблокирован!")))
       else emit (answer (Some (Lit "❌ Ошибка разблокировки"))));;
      show_user_card target;; mret RNone
    else if Py.startswith action "toggle_project_" then
      pid ← int_arg action 2;
      success ← toggle_project_status pid;
      (if (success : bool) then emit (answer (Some (Lit "✅ Статус проекта изменен")))
       else emit (answer (Some (Lit "❌ Ошибка изменения статуса"))));;
      show_project_card pid;; mret RNone
    else if Py.startswith action "delete_project_" then
      pid ← int_arg action 2; confirm_delete_project u data (Some pid)
    else if String.eqb action "add_project" then
      emit (edit_message_text (Lit "➕ Введите название нового проекта:") None);;
      ud_set "admin_action" (VStr "add_project");;
      mret (RState ENTERING_DESCRIPTION)
    else if String.eqb action "basic_stats" then
      t ← collaborator "get_admin_report" [];
      emit (edit_message_text t (Some back_to_stats));; mret RNone
    else if String.eqb action "team_efficiency" then
      t ← collaborator "get_team_efficiency_report" [];
      emit (edit_message_text t (Some back_to_stats));; mret RNone
    else if String.eqb action "project_health" then
      t ← collaborator "get_project_health_report" [];
      emit (edit_message_text t (Some back_to_stats));; mret RNone
    else if String.eqb action "team_weekly" then
      t ← collaborator "get_weekly_summary" [];
      emit (edit_message_text t (Some back_to_stats));; mret RNone
    else emit (answer (Some (Lit "❌ Неизвестное действие")));; mret RNone.

(** *** Menus and dispatch *)

Definition ADD_HOURS_LABEL : string := "➕ Добавить часы".
Definition MY_ENTRIES_LABEL : string := "📊 Мои записи".
Definition REPORTS_LABEL : string := "📈 Отчеты".
Definition HELP_LABEL : string := "ℹ️ Помощь".
Definition DELETE_LABEL : string := "🗑 Удалить записи".
Definition ADMIN_LABEL : string := "👑 Админ".

(** The persistent reply keyboard, [bot.py:189-196] and [bot.py:1097-1104]. *)
Definition main_menu (admin : bool) : list (list string) :=
  [ [ADD_HOURS_LABEL; MY_ENTRIES_LABEL]; [REPORTS_LABEL; DELETE_LABEL] ]
  ++ (if admin then [[ADMIN_LABEL]] else []).

(** [start], [bot.py:175] *)
Definition start (u : update) : M retval :=
  banned ← check_user_ban (effective_user u);
  if (banned : bool) then emit (reply_text BANNED None);; mret RNone
  else
    register_user (effective_user u);;
    admin ← is_admin (effective_user u);
    emit (reply_menu (Lit "👋 Привет, {}!") (main_menu admin));;
    mret RNone.

(** [show_help], [bot.py:1022] *)
Definition show_help (u : update) : M retval :=
  (if is_callback u then emit (answer None) else mret tt);;
  emit (reply_text (Lit "📝 **Как пользоваться ботом:**") None);;
  mret RNone.

(** [back_to_main], [bot.py:1092] *)
Definition back_to_main (u : update) : M retval :=
  ud_clear;;
  admin ← is_admin (effective_user u);
  (if is_callback u then emit (answer None) else mret tt);;
  emit (reply_menu (Lit "🏠 Главное меню:") (main_menu admin));;
  mret REND.

(** [handle_text_message], [bot.py:1056] *)
Definition handle_text_message (u : update) (msg : string) : M retval :=
  banned ← check_user_ban (effective_user u);
  if (banned : bool) then emit (reply_text BANNED None);; mret RNone
  else
    action ← ud_get "admin_action";
    if is_str "add_project" action then handle_description_input u msg
    else
        if String.eqb msg ADD_HOURS_LABEL then start_add_hours u
        else if String.eqb msg MY_ENTRIES_LABEL then show_my_entries u
        else if String.eqb msg REPORTS_LABEL then show_reports_menu u
        else if String.eqb msg HELP_LABEL then show_help u
        else if String.eqb msg DELETE_LABEL then show_delete_menu u
        else if String.eqb msg ADMIN_LABEL then
          admin ← is_admin (effective_user u);
          if (admin : bool) then show_admin_menu u
          else emit (reply_text ACCESS_DENIED None);; mret RNone
        else
          emit (reply_text (Lit "❓ Неизвестная команда. Используйте кнопки меню внизу экрана.")
                  None);;
          mret RNone.

(** [button_handler], [bot.py:210] *)
Definition button_handler (u : update) (data : string) : M retval :=
  banned ← (if negb (Py.startswith data "admin_")
            then check_user_ban (effective_user u) else mret false);
  if (banned : bool) then
    emit (answer (Some BANNED_SHORT));;
    emit (edit_message_text BANNED None);;
    mret RNone
  else
    emit (answer None);;
    if String.eqb data "add_hours" then start_add_hours u
    else if String.eqb data "my_entries" then show_my_entries u
    else if String.eqb data "reports" then show_reports_menu u
    else if String.eqb data "help" then show_help u
    else if String.eqb data "admin_menu" then show_admin_menu u
    else if Py.startswith data "report_cal_" then handle_report_calendar u data
    else if Py.startswith data "report_" then handle_report u data
    else if Py.startswith data "admin_" then handle_admin u data
    else if String.eqb data "export_csv" then export_user_csv u
    else if Py.startswith data "project_" then select_project data
    else if Py.startswith data "hours_" then select_hours data
    else if Py.startswith data "date_" then select_date u data
    else if String.eqb data "skip_description" then skip_description u
    else if String.eqb data "back_to_main" then back_to_main u
    else if Py.startswith data "delete_entry_from_page_" then
      confirm_delete_entry_from_page u data
    else if Py.startswith data "confirm_delete_from_page_" then delete_entry_from_page u data
    else if Py.startswith data "delete_entry_" then confirm_delete_entry u data
    else if Py.startswith data "confirm_delete_" then delete_entry u data
    else if String.eqb data "delete_menu" then show_delete_menu u
    else if Py.startswith data "entries_page_" then handle_entries_pagination u data
    else if Py.startswith data "delete_entries_page_" then show_delete_entries_from_page u data
    else if Py.startswith data "confirm_delete_project_" then
      confirm_delete_project u data None
    else if Py.startswith data "final_delete_project_" then delete_project u data
    else if Py.startswith data "cal_" then handle_calendar u data
    else mret RNone.

(** *** The application: handlers registered in [main], [bot.py:1663]

    python-telegram-bot runs, for one update, the first handler of the
    group that accepts it.  A [ConversationHandler] accepts an update when
    an entry point (no conversation running), a handler of the current
    state, or a fallback matches; the value returned by the callback
    becomes the new state ([END] closes the conversation, [None] keeps the
    state).  A callback that raises leaves the state as it was.  Values
    returned by handlers registered outside the conversation are
    discarded. *)

Definition LF : string := String (ascii_of_nat 10) EmptyString.

(** [re.match("^" + p + "$", s)]: [$] also matches before a final newline. *)
Definition re_exact (p s : string) : bool :=
  String.eqb s p || String.eqb s (p +:+ LF).

(** [re.match("^" + p, s)] *)
Definition re_prefix (p s : string) : bool := Py.startswith s p.

(** The callback run by [add_hours_handler] for an update, if it accepts
    it, [bot.py:1675-1700]. *)
Definition wizard (st : option state) (u : update) : option (M retval) :=
  match st, body u with
  | None, Callback data =>
      if re_exact "add_hours" data then Some (start_add_hours u) else None
  | None, Message msg =>
      if re_exact ADD_HOURS_LABEL msg then Some (start_add_hours u) else None
  | None, Command _ => None
  | Some SELECTING_PROJECT, Callback data =>
      if re_prefix "project_" data then Some (select_project data)
      else if re_exact "back_to_main" data then Some (back_to_main u) else None
  | Some ENTERING_HOURS, Callback data =>
      if re_prefix "hours_" data then Some (select_hours data)
      else if re_exact "back_to_main" data then Some (back_to_main u) else None
  | Some ENTERING_HOURS, Message msg => Some (handle_hours_input msg)
  | Some ENTERING_DESCRIPTION, Callback data =>
      if re_exact "skip_description" data then Some (skip_description u)
      else if re_exact "back_to_main" data then Some (back_to_main u) else None
  | Some ENTERING_DESCRIPTION, Message msg => Some (handle_description_input u msg)
  | Some SELECTING_DATE, Callback data =>
      if re_prefix "date_" data then Some (select_date u data)
      else if re_prefix "cal_" data then Some (handle_calendar u data)
      else if re_exact "back_to_main" data then Some (back_to_main u) else None
  | Some SELECTING_DATE, Message msg => Some handle_date_input
  | Some _, Message _ => None
  | Some _, Command name => if String.eqb name "start" then Some (start u) else None
  end.

(** The conversation state after a callback returned [r]. *)
Definition next_state (st : option state) (r : res retval) : option state :=
  match r with
  | Ok REND => None
  | Ok (RState s) => Some s
  | Ok RNone | Raise _ => st
  end.

(** The outcome of one update. [by_wizard] holds what the conversation
    handler's callback returned, when it was the one to take the update. *)
Record outcome := {
  conversation : option state;
  after : world;
  by_wizard : option (res retval) }.

(** [Application.process_update] over the handlers of [main]. *)
Definition process_update (st : option state) (u : update) (w : world) : outcome :=
  let outside (h : M retval) :=
    {| conversation := st; after := snd (h w); by_wizard := None |} in
  if is_command "start" u then outside (start u)
  else if is_command "help" u then outside (show_help u)
  else
    match wizard st u with
    | Some h =>
        let '(r, w') := h w in
        {| conversation := next_state st r; after := w'; by_wizard := Some r |}
    | None =>
        match body u with
        | Callback data => outside (button_handler u data)
        | Message msg => outside (handle_text_message u msg)
        | Command _ => {| conversation := st; after := w; by_wizard := None |}
        end
    end.

End Handlers.

(** A run of the application: each update comes with its surroundings. *)
Fixpoint run (st : option state) (w : world) (l : list (env * update))
  : option state * world :=
  match l with
  | [] => (st, w)
  | (E, u) :: l' =>
      let o := process_update E st u w in
      run (conversation o) (after o) l'
  end.

End Bot.

Import Bot.

(** * Vocabulary of the properties *)

(** What [show_my_entries_page] sends, given the text and the keyboard. *)
Definition page_rendering (u : update) (t : text) (kb : keyboard) : list call :=
  if is_callback u then
    [answer None;
     match kb with [] => reply_text t None | _ => edit_message_text t (Some kb) end]
  else [reply_text t (match kb with [] => None | _ => Some kb end)].

Definition entries_header : string := "📊 Ваши последние записи (страница {} из {}):".

Definition delete_row (page : Z) : list button :=
  [InlineKeyboardButton (Lit "🗑 Удалить запись") ("delete_entries_page_" +:+ Py.str page)].

Definition projects_footer : list button :=
  [ InlineKeyboardButton (Lit "➕ Добавить проект") "admin_add_project";
    InlineKeyboardButton (Lit "🔙 Админ меню") "admin_menu" ].

(** The items of page [page] when pages hold [ps] items. *)
Definition visible_items {A} (l : list A) (page ps : Z) : list A :=
  firstn (Z.to_nat ps) (skipn (Z.to_nat (page * ps)) l).

(** A keyboard carries a token starting with [prefix]. *)
Definition has_token (prefix : string) (kb : keyboard) : bool :=
  existsb (existsb (fun b => Py.startswith (callback_data b) prefix)) kb.

(** A string made of digits and minus signs only, as printed by [str]. *)
Fixpoint numeral (s : string) : bool :=
  match s with
  | EmptyString => true
  | String c s' => (Py.is_digit c || Ascii.eqb c "-") && numeral s'
  end.

(** How [generate_calendar] renders the cell of [day] in month
    [(year, month)]: padding and days after today are placeholders bound to
    the token [cal_ignore]; the other days carry a [cal_select] token. *)
Definition renders (E : env) (year month day : Z) (b : button) : Prop :=
  if day =? 0 then b = InlineKeyboardButton (Lit " ") "cal_ignore"
  else if Cal.date_ltb (today E) (Cal.mkdate year month day)
       then b = InlineKeyboardButton (Lit ("(" +:+ Py.str day +:+ ")")) "cal_ignore"
       else b = InlineKeyboardButton (Lit (Py.str day))
                  ("cal_select_" +:+ Py.str year +:+ "_" +:+ Py.str month
                   +:+ "_" +:+ Py.str day).

(** The numeric arguments of a token, read as the handlers do:
    [int(data.split("_")[i])] for each position [i]. *)
Definition token_args (data : string) (positions : list nat) : option (list Z) :=
  mapM (fun i => Py.split "_" data !! i ≫= Py.int) positions.

(** *** Sample data *)

(** The day number of a date written as [YYYY-MM-DD]. *)
Definition iso_day (s : string) : Z :=
  match Cal.strptime s with
  | Some d => Cal.toordinal d
  | None => 0
  end.

Definition sample_env : env :=
  {| today := Cal.mkdate 2024 6 15;
     db_up := true;
     row_ok := fun _ => true;
     date_value := iso_day;
     ADMIN_USER_ID := 1;
     report := fun name _ => name |}.

Definition sample_entry (i : Z) : entry_row :=
  {| entry_id := i; entry_user := 7; entry_project := VInt 1;
     entry_hours := VFloat (Py.float_of_Z 2); entry_description := VNone;
     entry_date := "2024-06-01" |}.

Definition sample_db : database :=
  {| users := [ {| user_id := 7; is_admin_flag := false; is_banned_flag := false |};
                {| user_id := 1; is_admin_flag := true; is_banned_flag := false |};
                {| user_id := 9; is_admin_flag := false; is_banned_flag := true |} ];
     projects := [ {| project_id := 1; project_name := "Dev"; is_active := true |};
                   {| project_id := 2; project_name := "QA"; is_active := true |};
                   {| project_id := 3; project_name := "Old"; is_active := false |} ];
     time_entries := map sample_entry [1; 2; 3; 4; 5; 6; 7; 8; 9; 10; 11; 12];
     next_project_id := 4;
     next_entry_id := 13 |}.

Definition sample_world (ud : gmap string pyval) : world := World ud sample_db [].

Definition button_press (uid : Z) (data : string) : update :=
  {| effective_user := uid; body := Callback data |}.

Definition text_message (uid : Z) (msg : string) : update :=
  {| effective_user := uid; body := Message msg |}.

(** The calendar page of the add-entry wizard for a month,
    [bot.py:494-502]. *)
Definition calendar_page (E : env) (year month : Z) : M retval :=
  calendar_markup ← lift_option ValueError (generate_calendar E year month);
  name ← ud_item "selected_project_name";
  hours ← ud_item "selected_hours";
  description ← ud_get "description";
  emit (edit_message_text (date_prompt name hours (default NOT_SPECIFIED description))
          (Some calendar_markup));;
  mret (RState SELECTING_DATE).

(** The calendar page of the report range selection, [bot.py:1595-1605]. *)
Definition report_calendar_page (E : env) (year month : Z) : M retval :=
  calendar_markup ← lift_option ValueError (generate_report_calendar year month);
  start ← ud_get "report_start_date";
  (if truthy start
   then emit (edit_message_text (report_end_prompt (default VNone start))
                (Some calendar_markup))
   else emit (edit_message_text REPORT_START_PROMPT (Some calendar_markup)));;
  mret RNone.

(** A navigation is refused: the notice is the only effect. *)
Definition refused (w : world) : res retval * world :=
  (Ok RNone, World (user_data w) (db w) (calls w ++ [answer (Some PERIOD_UNAVAILABLE)])).

Definition nav_token (domain : string) (prev : bool) (year month : Z) : string :=
  domain +:+ (if prev then "prev_" else "next_") +:+ Py.str year +:+ "_" +:+ Py.str month.

Definition select_token (domain : string) (year month day : Z) : string :=
  domain +:+ "select_" +:+ Py.str year +:+ "_" +:+ Py.str month +:+ "_" +:+ Py.str day.

(** An end date is rejected: the notice is the only effect. *)
Definition range_rejected (w : world) (notice : text) : res retval * world :=
  (Ok RNone, World (user_data w) (db w) (calls w ++ [answer (Some notice)])).

(** The user whose data a report is about, for the acting user [uid]. *)
Definition effective_target (w : world) (uid : Z) : pyval :=
  default (VInt uid) (user_data w !! "admin_target_user_id").

(** The report for [start .. end_date] is sent and the two range keys are
    removed from the context. *)
Definition report_sent (E : env) (u : update) (w : world) (start : pyval)
    (end_date : string) : res retval * world :=
  (Ok RNone,
   World (delete "report_start_date_formatted"
            (delete "report_start_date" (user_data w)))
         (db w)
         (calls w ++ [answer None;
                      reply_text (Lit (report E "get_custom_period_report"
                                         [effective_target w (effective_user u);
                                          start; VStr end_date])) None])).

(** The report buttons that produce a text at once, with the collaborator
    function each one calls, [bot.py:746-760]. *)
Definition direct_reports : list (string * string) :=
  [ ("report_today", "get_today_report");
    ("report_week", "get_week_report");
    ("report_projects", "get_projects_report");
    ("report_weekly_summary", "get_weekly_summary");
    ("report_productivity", "get_user_productivity_trend") ].

Definition range_start_world : world :=
  sample_world (<["report_start_date" := VStr "2024-01-01"]>
                  (<["report_start_date_formatted" := VStr "01.01.2024"]>
                     (<["admin_target_user_id" := VInt 9]> ∅))).

(** The hours prompt is answered: the value is stored and the description
    is asked for. *)
Definition hours_stored (w : world) (name : pyval) (hours : spec_float)
  : res retval * world :=
  (Ok (RState ENTERING_DESCRIPTION),
   World (<["selected_hours" := VFloat hours]> (user_data w)) (db w)
         (calls w ++ [reply_text (description_prompt name hours) (Some skip_keyboard)])).

(** The hours prompt is asked again after a validation notice. *)
Definition hours_retry (w : world) (notice : text) : res retval * world :=
  (Ok (RState ENTERING_HOURS),
   World (user_data w) (db w) (calls w ++ [reply_text notice None])).

(** A number in (0, 24]. *)
Definition hours_in_range (h : spec_float) : bool :=
  Py.float_gt h (Py.float_of_Z 0) && Py.float_le h (Py.float_of_Z 24).

Definition wizard_world : world :=
  sample_world (<["selected_project_id" := VInt 1]>
                  (<["selected_project_name" := VStr "Dev"]> ∅)).

(** The entry is saved, the confirmation is sent and the context is
    cleared. *)
Definition entry_saved (E : env) (u : update) (w : world) (name : pyval)
    (date shown : string) : res retval * world :=
  let hours := default VNone (user_data w !! "selected_hours") in
  let description := user_data w !! "description" in
  let row := new_entry (db w) (effective_user u)
               (default VNone (user_data w !! "selected_project_id"))
               hours (default VNone description) date in
  (Ok REND,
   World ∅ (insert_entry row (db w))
         (calls w ++ [answer None;
                      reply_text (entry_added name hours (or_not_specified description) shown)
                        None])).

Definition date_world : world :=
  sample_world (<["selected_project_id" := VInt 1]>
                  (<["selected_project_name" := VStr "Dev"]>
                     (<["selected_hours" := VFloat (Py.float_of_Z 2)]>
                        (<["description" := VStr "x"]> ∅)))).

Definition offline_env : env :=
  {| today := Cal.mkdate 2024 6 15;
     db_up := false;
     row_ok := fun _ => true;
     date_value := iso_day;
     ADMIN_USER_ID := 1;
     report := fun name _ => name |}.

(** The ban flag of a user, as [AdminManager.is_banned] reads it. *)
Definition banned_in (d : database) (uid : Z) : bool :=
  match find_user uid d with
  | Some r => is_banned_flag r
  | None => false
  end.

(** Only [sent] is added to the chat; context and database are untouched. *)
Definition only_sends (w : world) (r : retval) (sent : list call) : res retval * world :=
  (Ok r, World (user_data w) (db w) (calls w ++ sent)).

Definition leftover_world : world :=
  sample_world (<["selected_project_id" := VInt 1]> ∅).

(** *** Context invariants of the wizard *)

Definition has (k : string) (m : gmap string pyval) : Prop := is_Some (m !! k).

(** A project name in the context comes with the project id. *)
Definition named_has_id (m : gmap string pyval) : Prop :=
  has "selected_project_name" m -> has "selected_project_id" m.

(** [m'] still satisfies [named_has_id] if [m] did. *)
Definition keeps_id (m m' : gmap string pyval) : Prop :=
  named_has_id m -> named_has_id m'.

(** The context after a computation is related by [P] to the one before,
    whatever the outcome. *)
Definition rel (P : gmap string pyval -> gmap string pyval -> Prop) {A} (m : M A) : Prop :=
  forall w, P (user_data w) (user_data (snd (m w))).

(** The fields the description and date steps rely on. *)
Definition wizard_fields (w : world) : Prop :=
  has "selected_hours" (user_data w) /\ has "selected_project_id" (user_data w).

Definition late_state (st : option state) : Prop :=
  st = Some ENTERING_DESCRIPTION \/ st = Some SELECTING_DATE.

(** Runs made of updates that the wizard accepts and whose callback
    returns: the sequences of transitions of the add-entry wizard. *)
Inductive wizard_run (w0 : world) : option state -> world -> Prop :=
  | wizard_run_start : wizard_run w0 None w0
  | wizard_run_step E u st w h r w' :
      wizard_run w0 st w ->
      wizard E st u = Some h ->
      h w = (Ok r, w') ->
      wizard_run w0 (next_state st (Ok r)) w'.

(** The values a handler can return are all in [S]. *)
Definition returns (S : retval -> Prop) (h : M retval) : Prop :=
  forall w, match fst (h w) with Ok r => S r | Raise _ => True end.

(** The handler never answers with one of the two late states, nor with
    [None]. *)
Definition early (r : retval) : Prop :=
  r = REND \/ r = RState SELECTING_PROJECT \/ r = RState ENTERING_HOURS.

(** What a wizard callback guarantees when it returns: a late state comes
    with the hours and the project name in the context, and [None] comes
    with an unchanged context. *)
Definition guard_post (w : world) (o : res retval * world) : Prop :=
  match fst o with
  | Ok (RState ENTERING_DESCRIPTION) | Ok (RState SELECTING_DATE) =>
      has "selected_hours" (user_data (snd o))
      /\ has "selected_project_name" (user_data (snd o))
  | Ok RNone => user_data (snd o) = user_data w
  | _ => True
  end.

Definition guarded (h : M retval) : Prop := forall w, guard_post w (h w).

(** ** Further vocabulary and functions of the sources *)

(** *** What an update of a user who is no administrator may change *)

(** The admin and ban columns of a user, [False] for an unknown user. *)
Definition flags (uid : Z) (d : database) : bool * bool :=
  match find_user uid d with
  | Some r => (is_admin_flag r, is_banned_flag r)
  | None => (false, false)
  end.

(** The answer of [AdminManager.is_admin] on a database. *)
Definition administrator (E : env) (uid : Z) (d : database) : bool :=
  (uid =? ADMIN_USER_ID E) || fst (flags uid d).

(** The projects, the flags of every user and the entries of the other
    users are the same in [d'] as in [d]. *)
Definition untouched_by (uid : Z) (d d' : database) : Prop :=
  projects d' = projects d /\
  (forall t, flags t d' = flags t d) /\
  (forall t, t <> uid -> entries_of t d' = entries_of t d).

Definition confined (E : env) (uid : Z) (w w' : world) : Prop :=
  administrator E uid (db w) = false -> untouched_by uid (db w) (db w').

(** Whatever the world it starts in, [m] changes nothing else when the
    user is no administrator. *)
Definition confines (E : env) (uid : Z) {A} (m : M A) : Prop :=
  forall w, confined E uid w (snd (m w)).

(** *** Deleting an entry *)

(** What [delete_entry] sends after a deletion that did / did not remove a
    row, [bot.py:1222-1227]. *)
Definition deletion_notice (success : bool) : list call :=
  if success then
    [answer (Some (Lit "✅ Запись удалена!"));
     reply_text (Lit "✅ Запись успешно удалена!") None]
  else
    [answer (Some (Lit "❌ Ошибка удаления"));
     reply_text (Lit "❌ Ошибка при удалении записи.") None].

(** The row [eid] exists and belongs to [uid]. *)
Definition owns (uid eid : Z) (d : database) : bool :=
  existsb (fun r => (entry_id r =? eid) && (entry_user r =? uid)) (time_entries d).

(** The keyboard of the confirmation step, [bot.py:1196-1199]. *)
Definition confirm_keyboard (eid : Z) : keyboard :=
  [ [InlineKeyboardButton (Lit "❌ Удалить") ("confirm_delete_" +:+ Py.str eid)];
    [InlineKeyboardButton (Lit "🔙 Отмена") "delete_menu"] ].

(** *** Choosing a project *)

(** The button [start_add_hours] shows for a project, [bot.py:296-299]. *)
Definition project_choice (p : Z * string) : list button :=
  [InlineKeyboardButton (Lit (snd p)) ("project_" +:+ Py.str (fst p))].

(** The hours prompt sent once a project is chosen, [bot.py:326-343]. *)
Definition hours_prompt (name : string) : call :=
  edit_message_text (Fmt "⏱ Проект: {}\nСколько часов добавить?" [VStr name])
    (Some hours_keyboard).

(** What [respond] sends: the message is edited for a callback query and
    sent as a reply otherwise. *)
Definition prompt_call (u : update) (t : text) (kb : option keyboard) : call :=
  if is_callback u then edit_message_text t kb else reply_text t kb.

(** *** The description step *)

(** The keyboard of the date step, [bot.py:441-445]. *)
Definition date_keyboard (E : env) : keyboard :=
  [ [ InlineKeyboardButton (Lit "📅 Сегодня")
        ("date_" +:+ Cal.strftime_iso (today E)) ];
    [ InlineKeyboardButton (Lit "📅 Вчера")
        ("date_" +:+ Cal.strftime_iso (Cal.yesterday (today E))) ];
    [ InlineKeyboardButton (Lit "🗓 Календарь") "date_custom" ] ].

(** *** Registration *)

(** The database after [register_user]: a row without flags is added for
    a user who has none. *)
Definition registered (uid : Z) (d : database) : database :=
  match find_user uid d with
  | Some _ => d
  | None => {| users := users d ++ [{| user_id := uid; is_admin_flag := false;
                                       is_banned_flag := false |}];
               projects := projects d; time_entries := time_entries d;
               next_project_id := next_project_id d;
               next_entry_id := next_entry_id d |}
  end.

(** *** The report calendar *)

(** The token of the cell of [day] on the report calendar: padding is
    inert, every day of the month can be selected. *)
Definition report_cell_token (year month day : Z) : string :=
  if day =? 0 then "report_cal_ignore" else select_token "report_cal_" year month day.

(** *** Deleting a project *)

(** The database after the two [DELETE] statements of [delete_project],
    [bot.py:1462-1468]. *)
Definition without_project (pid : Z) (d : database) : database :=
  {| users := users d;
     projects := List.filter (fun r => negb (project_id r =? pid)) (projects d);
     time_entries :=
       List.filter (fun r => match entry_project r with
                             | VInt p => negb (p =? pid)
                             | _ => true
                             end) (time_entries d);
     next_project_id := next_project_id d; next_entry_id := next_entry_id d |}.

(** [AdminManager.delete_project], [admin.py:101]: the project is deleted
    only when no time entry refers to it. *)
Definition admin_delete_project (E : env) (pid : Z) : M bool :=
  count ← select E (fun d => Z.of_nat (length (entries_of_project pid d)));
  if 0 <? count then mret false
  else
    found ← select E (fun d => bool_decide (is_Some (find_project pid d)));
    execute E (fun d =>
      {| users := users d;
         projects := List.filter (fun r => negb (project_id r =? pid)) (projects d);
         time_entries := time_entries d;
         next_project_id := next_project_id d; next_entry_id := next_entry_id d |});;
    mret found.

(** Every time entry refers to a project of the database:
    [project_id INTEGER REFERENCES projects(id)], [database.py:104]. *)
Definition references_ok (d : database) : Prop :=
  forall e p, In e (time_entries d) -> entry_project e = VInt p ->
              is_Some (find_project p d).

(** *** [DatabaseManager.init_database], [database.py:58] *)

(** The names of the projects inserted into an empty [projects] table. *)
Definition default_projects : list string :=
  ["Разработка"; "Тестирование"; "Документация"; "Встречи"; "Обучение"].

(** [init_database] on a database whose tables exist: the
    [CREATE ... IF NOT EXISTS] statements change nothing, and the default
    projects are inserted when the table of projects is empty.  An error
    is logged and raised again. *)
Definition init_database (E : env) : M unit :=
  count ← select E (fun d => Z.of_nat (length (projects d)));
  if count =? 0 then execute E (fun d => fold_left insert_project default_projects d)
  else mret tt.

(** * Properties *)

(** ** Running handlers *)

Lemma bind_unfold {A B} (m : M A) (k : A -> M B) (w : world) :
  (m ≫= k) w = match m w with
               | (Ok a, w') => k a w'
               | (Raise e, w') => (Raise e, w')
               end.
Proof. reflexivity. Qed.

Lemma bind_ok {A B} (m : M A) (k : A -> M B) w a w' :
  m w = (Ok a, w') -> (m ≫= k) w = k a w'.
Proof. intros H. rewrite bind_unfold, H. reflexivity. Qed.

Lemma bind_raise {A B} (m : M A) (k : A -> M B) w e w' :
  m w = (Raise e, w') -> (m ≫= k) w = (Raise e, w').
Proof. intros H. rewrite bind_unfold, H. reflexivity. Qed.

Lemma select_up E {A} (f : database -> A) w :
  db_up E = true -> select E f w = (Ok (f (db w)), w).
Proof. intros H. unfold select. rewrite H. reflexivity. Qed.

Lemma select_down E {A} (f : database -> A) w :
  db_up E = false -> select E f w = (Raise DatabaseError, w).
Proof. intros H. unfold select. rewrite H. reflexivity. Qed.

(** Equations that run one primitive in front of a continuation. *)

Lemma run_mret {A B} (a : A) (k : A -> M B) w : (mret a ≫= k) w = k a w.
Proof. reflexivity. Qed.

Lemma run_raise {A B} e (k : A -> M B) w : (raise e ≫= k) w = (Raise e, w).
Proof. reflexivity. Qed.

Lemma run_assoc {A B C} (m : M A) (f : A -> M B) (g : B -> M C) w :
  ((m ≫= f) ≫= g) w = (m ≫= (fun a => f a ≫= g)) w.
Proof. rewrite !bind_unfold. destruct (m w) as [[a | e] w']; reflexivity. Qed.

Lemma run_emit {B} c (k : unit -> M B) w :
  (emit c ≫= k) w = k tt (World (user_data w) (db w) (calls w ++ [c])).
Proof. reflexivity. Qed.

Lemma run_ud_get {B} key (k : option pyval -> M B) w :
  (ud_get key ≫= k) w = k (user_data w !! key) w.
Proof. reflexivity. Qed.

Lemma run_ud_item {B} key (k : pyval -> M B) w :
  (ud_item key ≫= k) w
  = match user_data w !! key with
    | Some v => k v w
    | None => (Raise (KeyError key), w)
    end.
Proof. rewrite bind_unfold. unfold ud_item. destruct (user_data w !! key); reflexivity. Qed.

Lemma run_ud_set {B} key v (k : unit -> M B) w :
  (ud_set key v ≫= k) w = k tt (World (<[key := v]> (user_data w)) (db w) (calls w)).
Proof. reflexivity. Qed.

Lemma run_ud_clear {B} (k : unit -> M B) w :
  (ud_clear ≫= k) w = k tt (World ∅ (db w) (calls w)).
Proof. reflexivity. Qed.

Lemma run_ud_pop {B} key (k : unit -> M B) w :
  (ud_pop key ≫= k) w = k tt (World (delete key (user_data w)) (db w) (calls w)).
Proof. reflexivity. Qed.

Lemma run_lift {A B} e (o : option A) (k : A -> M B) w :
  (lift_option e o ≫= k) w
  = match o with Some a => k a w | None => (Raise e, w) end.
Proof. destruct o; reflexivity. Qed.

Lemma run_select E {A B} (f : database -> A) (k : A -> M B) w :
  (select E f ≫= k) w = if db_up E then k (f (db w)) w else (Raise DatabaseError, w).
Proof. rewrite bind_unfold. unfold select. destruct (db_up E); reflexivity. Qed.

Lemma run_item {A B} (l : list A) i (k : A -> M B) w :
  (item l i ≫= k) w = match l !! i with Some a => k a w | None => (Raise IndexError, w) end.
Proof. apply run_lift. Qed.

Lemma run_int {B} s (k : Z -> M B) w :
  (int s ≫= k) w = match Py.int s with Some z => k z w | None => (Raise ValueError, w) end.
Proof. apply run_lift. Qed.

Lemma run_float {B} s (k : spec_float -> M B) w :
  (float s ≫= k) w
  = match Py.float s with Some f => k f w | None => (Raise ValueError, w) end.
Proof. apply run_lift. Qed.

Lemma end_mret {A} (a : A) (w : world) : (mret a : M A) w = (Ok a, w).
Proof. reflexivity. Qed.

Lemma end_raise {A} e (w : world) : @raise A e w = (Raise e, w).
Proof. reflexivity. Qed.

Lemma end_emit c w : emit c w = (Ok tt, World (user_data w) (db w) (calls w ++ [c])).
Proof. reflexivity. Qed.

Lemma end_ud_clear w : ud_clear w = (Ok tt, World ∅ (db w) (calls w)).
Proof. reflexivity. Qed.

Lemma run_try {A B} (m h : M A) (k : A -> M B) w :
  (try_except m h ≫= k) w
  = match m w with
    | (Ok a, w') => k a w'
    | (Raise _, w') => (h ≫= k) w'
    end.
Proof.
  rewrite bind_unfold. unfold try_except.
  destruct (m w) as [[a | e] w']; [reflexivity |].
  rewrite bind_unfold. reflexivity.
Qed.

Lemma run_try_ValueError {A B} (m h : M A) (k : A -> M B) w :
  (try_except_ValueError m h ≫= k) w
  = match m w with
    | (Ok a, w') => k a w'
    | (Raise ValueError, w') => (h ≫= k) w'
    | (Raise e, w') => (Raise e, w')
    end.
Proof.
  rewrite bind_unfold. unfold try_except_ValueError.
  destruct (m w) as [[a | []] w']; reflexivity.
Qed.

Ltac mrun :=
  repeat first
    [ rewrite run_assoc
    | rewrite run_mret
    | rewrite run_raise
    | rewrite run_emit
    | rewrite run_ud_get
    | rewrite run_ud_item
    | rewrite run_ud_set
    | rewrite run_ud_clear
    | rewrite run_ud_pop
    | rewrite run_item
    | rewrite run_int
    | rewrite run_float
    | rewrite run_lift
    | rewrite run_select
    | rewrite run_try
    | rewrite run_try_ValueError
    | rewrite end_mret
    | rewrite end_raise
    | rewrite end_emit
    | rewrite end_ud_clear
    | progress cbv beta iota
    | progress cbn [user_data db calls] ].

(** ** Pagination *)

Lemma total_pages_of_ceil n ps :
  0 <= n -> 0 < ps ->
  exists tp, total_pages_of n ps = Some tp
             /\ 1 <= tp /\ n <= tp * ps /\ (tp - 1) * ps < Z.max n 1.
Proof.
  intros Hn Hps. unfold total_pages_of.
  destruct (Z.eqb_spec n 0) as [-> | Hn0].
  - exists 1. repeat split; lia.
  - destruct (Z.eqb_spec ps 0) as [-> | _]; [lia |].
    exists ((n - 1) / ps + 1). split; [reflexivity |].
    pose proof (Z.div_mod (n - 1) ps ltac:(lia)) as Hdm.
    pose proof (Z.mod_pos_bound (n - 1) ps Hps) as Hmod.
    assert (0 <= (n - 1) / ps) by (apply Z.div_pos; lia).
    repeat split; nia.
Qed.

Lemma entries_total_pages_ceil total :
  0 < total ->
  let tp := (total + 5 - 1) / 5 in
  1 <= tp /\ total <= tp * 5 /\ (tp - 1) * 5 < total.
Proof.
  intros Ht tp. subst tp.
  pose proof (Z.div_mod (total + 5 - 1) 5 ltac:(lia)) as Hdm.
  pose proof (Z.mod_pos_bound (total + 5 - 1) 5 ltac:(lia)) as Hmod.
  repeat split; lia.
Qed.

Lemma place_length E r l : length (place E r l) = S (length l).
Proof.
  induction l as [| x l IH]; [reflexivity |].
  cbn [place]. destruct (_ <? _); cbn [length]; [rewrite IH |]; reflexivity.
Qed.

(** The listing holds the rows of the user, each one once. *)
Lemma recent_first_length E l : length (recent_first E l) = length l.
Proof.
  unfold recent_first. rewrite <- (length_rev l).
  induction (rev l) as [| r t IH]; [reflexivity |].
  cbn [fold_right]. rewrite place_length, IH. reflexivity.
Qed.

Lemma bigint_spec z : bigint z = true <-> - 2 ^ 63 <= z < 2 ^ 63.
Proof. unfold bigint. rewrite andb_true_iff, Z.leb_le, Z.ltb_lt. reflexivity. Qed.

Lemma limit_offset_run E {A B} limit offset (rows : database -> list A)
    (k : list A -> M B) w :
  db_up E = true -> 0 <= limit < 2 ^ 63 -> 0 <= offset < 2 ^ 63 ->
  (limit_offset E limit offset rows ≫= k) w
  = k (firstn (Z.to_nat limit) (skipn (Z.to_nat offset) (rows (db w)))) w.
Proof.
  intros Hup Hl Ho. unfold limit_offset.
  assert (Hb1 : bigint limit = true) by (apply bigint_spec; lia).
  assert (Hb2 : bigint offset = true) by (apply bigint_spec; lia).
  rewrite Hb1, Hb2.
  replace (0 <=? limit) with true by (symmetry; apply Z.leb_le; lia).
  replace (0 <=? offset) with true by (symmetry; apply Z.leb_le; lia).
  cbn [andb]. rewrite (bind_ok _ _ w _ w (select_up E _ w Hup)). reflexivity.
Qed.

Lemma limit_offset_refused E {A} limit offset (rows : database -> list A) w :
  offset < 0 \/ 2 ^ 63 <= offset ->
  limit_offset E limit offset rows w = (Raise DatabaseError, w).
Proof.
  intros Ho. unfold limit_offset.
  assert (Hb : (0 <=? offset) && bigint offset = false).
  { destruct Ho as [Ho | Ho].
    - replace (0 <=? offset) with false by (symmetry; apply Z.leb_gt; lia). reflexivity.
    - destruct (bigint offset) eqn:Hb; [| apply andb_false_r].
      apply bigint_spec in Hb. lia. }
  rewrite <- andb_assoc, Hb, andb_false_r.
  unfold select. rewrite bind_unfold. destruct (db_up E); reflexivity.
Qed.

Lemma show_my_entries_page_run E u page w :
  db_up E = true -> 0 <= page -> page * 5 < 2 ^ 63 ->
  let mine := entries_of (effective_user u) (db w) in
  let visible := firstn 5 (skipn (Z.to_nat (page * 5)) (recent_first E mine)) in
  let view := entries_page_view (Z.of_nat (length mine)) visible page in
  show_my_entries_page E u page w
  = (Ok RNone, World (user_data w) (db w)
                 (calls w ++ page_rendering u (fst view) (snd view))).
Proof.
  intros Hup Hpage Hbig mine visible view.
  unfold show_my_entries_page.
  rewrite (bind_ok _ _ w _ w (select_up E _ w Hup)).
  unfold get_user_entries_paginated.
  rewrite (limit_offset_run E 5 (page * 5) _ _ w Hup); [| split; [lia | reflexivity] | lia].
  fold mine. change (Z.to_nat 5) with 5%nat. fold visible. fold view.
  destruct view as [t kb] eqn:Hv. cbn [fst snd].
  unfold page_rendering.
  destruct (is_callback u); destruct kb;
    unfold mbind, M_bind, emit, mret, M_ret; cbn;
    rewrite <- ?app_assoc; reflexivity.
Qed.

(** A page whose offset does not fit [bigint] is an error of the query. *)
Lemma show_my_entries_page_overflow E u page w :
  db_up E = true -> 2 ^ 63 <= page * 5 ->
  show_my_entries_page E u page w = (Raise DatabaseError, w).
Proof.
  intros Hup Hbig. unfold show_my_entries_page.
  rewrite (bind_ok _ _ w _ w (select_up E _ w Hup)).
  unfold get_user_entries_paginated.
  rewrite bind_unfold, limit_offset_refused by (right; exact Hbig). reflexivity.
Qed.

Lemma entries_page_view_empty total page :
  entries_page_view total [] page = (Lit "📊 У вас пока нет записей о времени.", []).
Proof. reflexivity. Qed.

Lemma entries_page_view_rows total (entries : list entry_row) page :
  entries <> [] ->
  entries_page_view total entries page
  = (Table "📊 Ваши последние записи (страница {} из {}):"
           [VInt (page + 1); VInt ((total + 5 - 1) / 5)] (map entry_cells entries),
     nav_rows (entries_nav page ((total + 5 - 1) / 5))
     ++ [[InlineKeyboardButton (Lit "🗑 Удалить запись")
            ("delete_entries_page_" +:+ Py.str page)]]).
Proof. destruct entries; [congruence | reflexivity]. Qed.

(** A "next" button is rendered exactly when the next page has an entry,
    a "previous" button exactly when the page is not the first. *)
Lemma entries_nav_next total page :
  0 < total -> 0 <= page ->
  (page <? (total + 5 - 1) / 5 - 1) = ((page + 1) * 5 <? total).
Proof.
  intros Ht Hp.
  pose proof (entries_total_pages_ceil total Ht) as (H1 & H2 & H3). cbv zeta in *.
  destruct (Z.ltb_spec page ((total + 5 - 1) / 5 - 1));
    destruct (Z.ltb_spec ((page + 1) * 5) total); try reflexivity; nia.
Qed.

Lemma slice_page {A} (l : list A) (page ps : Z) :
  0 <= page -> 0 < ps ->
  Py.slice l (page * ps) (page * ps + ps)
  = firstn (Z.to_nat ps) (skipn (Z.to_nat (page * ps)) l).
Proof.
  intros Hp Hps. unfold Py.slice.
  assert (Hs : 0 <= page * ps) by nia.
  replace (page * ps <? 0) with false by (symmetry; apply Z.ltb_ge; lia).
  replace (page * ps + ps <? 0) with false by (symmetry; apply Z.ltb_ge; lia).
  set (n := Z.of_nat (length l)).
  destruct (Z.le_gt_cases n (page * ps)) as [Hle | Hgt].
  - rewrite (Z.max_r 0 (page * ps)) by lia. rewrite (Z.min_l n (page * ps)) by lia.
    rewrite (Z.max_r 0 (page * ps + ps)) by lia. rewrite (Z.min_l n) by lia.
    rewrite Z.sub_diag. cbn [Z.to_nat firstn].
    rewrite (skipn_all2 (n := Z.to_nat (page * ps)) l) by lia.
    symmetry. apply firstn_nil.
  - rewrite (Z.max_r 0 (page * ps)) by lia. rewrite (Z.min_r n (page * ps)) by lia.
    rewrite (Z.max_r 0 (page * ps + ps)) by lia.
    destruct (Z.le_gt_cases n (page * ps + ps)) as [Hle2 | Hgt2].
    + rewrite (Z.min_l n) by lia.
      rewrite !firstn_all2; try reflexivity; rewrite length_skipn; lia.
    + rewrite (Z.min_r n) by lia. f_equal. lia.
Qed.

Lemma visible_items_length {A} (l : list A) page ps :
  0 <= page -> 0 < ps ->
  Z.of_nat (length (visible_items l page ps))
  = Z.min ps (Z.max 0 (Z.of_nat (length l) - page * ps)).
Proof.
  intros Hp Hps. unfold visible_items.
  rewrite length_firstn, length_skipn. nia.
Qed.

Lemma projects_keyboard_shape (rows : list project_row) page ps :
  0 <= page -> 0 < ps ->
  exists tp,
    total_pages_of (Z.of_nat (length rows)) ps = Some tp
    /\ projects_keyboard rows page ps
       = Some (map project_button (visible_items rows page ps)
               ++ nav_rows (projects_nav page tp) ++ [projects_footer]).
Proof.
  intros Hp Hps.
  destruct (total_pages_of_ceil (Z.of_nat (length rows)) ps) as (tp & Htp & _); [lia | lia |].
  exists tp. split; [exact Htp |].
  unfold projects_keyboard. rewrite Htp. cbn [mbind option_bind].
  rewrite slice_page by assumption. reflexivity.
Qed.

Lemma show_my_entries_page_shape E u page w :
  db_up E = true -> 0 <= page -> page * 5 < 2 ^ 63 ->
  let mine := entries_of (effective_user u) (db w) in
  let total := Z.of_nat (length mine) in
  let visible := visible_items (recent_first E mine) page 5 in
  exists t kb,
    show_my_entries_page E u page w
    = (Ok RNone, World (user_data w) (db w) (calls w ++ page_rendering u t kb))
    /\ (visible = [] -> kb = [])
    /\ (visible <> [] ->
        exists tp, 1 <= tp /\ total <= tp * 5 /\ (tp - 1) * 5 < total
                   /\ t = Table entries_header [VInt (page + 1); VInt tp]
                                (map entry_cells visible)
                   /\ kb = nav_rows (entries_nav page tp) ++ [delete_row page]).
Proof.
  intros Hup Hp Hbig mine total visible.
  pose proof (show_my_entries_page_run E u page w Hup Hp Hbig) as Hrun. cbv zeta in Hrun.
  fold mine in Hrun.
  change (firstn 5 (skipn (Z.to_nat (page * 5)) (recent_first E mine))) with visible in Hrun.
  fold total in Hrun.
  eexists _, _. split; [exact Hrun |]. split.
  - intros ->. reflexivity.
  - intros Hne. exists ((total + 5 - 1) / 5).
    assert (Htot : 0 < total).
    { subst total. rewrite <- (recent_first_length E mine).
      destruct (recent_first E mine); [| cbn; lia].
      exfalso. apply Hne. unfold visible, visible_items.
      rewrite skipn_nil. apply firstn_nil. }
    pose proof (entries_total_pages_ceil total Htot) as (H1 & H2 & H3). cbv zeta in *.
    rewrite (entries_page_view_rows total visible page Hne). cbn [fst snd].
    repeat split; assumption.
Qed.

(** C7. Pagination: the number of pages is the ceiling of total / page size,
    with one page for an empty list (admin.py).  The entry listing counts
    pages the same way whenever the page shows an entry (bot.py): the page
    shows its slice of the user's rows taken latest date first, and a page
    whose offset the database cannot take as a [bigint] is an error of the
    query.  An empty listing renders no navigation token, and for 12 items
    in pages of 5 there are 3 pages, page 2 starts at offset 10, shows 2
    items and offers a previous-page token but no next-page token. *)
Theorem pagination_contract :
  (forall n ps, 0 <= n -> 0 < ps ->
     exists tp, total_pages_of n ps = Some tp
                /\ 1 <= tp /\ n <= tp * ps /\ (tp - 1) * ps < Z.max n 1)
  /\ (forall (rows : list project_row) page ps, 0 <= page -> 0 < ps ->
        exists tp, total_pages_of (Z.of_nat (length rows)) ps = Some tp
                   /\ projects_keyboard rows page ps
                      = Some (map project_button (visible_items rows page ps)
                              ++ nav_rows (projects_nav page tp) ++ [projects_footer]))
  /\ (forall E u page w, db_up E = true -> 0 <= page ->
        let mine := entries_of (effective_user u) (db w) in
        let total := Z.of_nat (length mine) in
        let visible := visible_items (recent_first E mine) page 5 in
        (page * 5 < 2 ^ 63 ->
         exists t kb,
           show_my_entries_page E u page w
           = (Ok RNone, World (user_data w) (db w) (calls w ++ page_rendering u t kb))
           /\ (visible = [] -> kb = [])
           /\ (visible <> [] ->
               exists tp, 1 <= tp /\ total <= tp * 5 /\ (tp - 1) * 5 < total
                          /\ t = Table entries_header [VInt (page + 1); VInt tp]
                                       (map entry_cells visible)
                          /\ kb = nav_rows (entries_nav page tp) ++ [delete_row page]))
        /\ (2 ^ 63 <= page * 5 ->
            show_my_entries_page E u page w = (Raise DatabaseError, w)))
  /\ (forall (A : Type) (l : list A) page ps, 0 <= page -> 0 < ps ->
        Z.of_nat (length (visible_items l page ps))
        = Z.min ps (Z.max 0 (Z.of_nat (length l) - page * ps)))
  /\ (forall ps, 0 < ps ->
        total_pages_of 0 ps = Some 1
        /\ projects_keyboard [] 0 ps = Some [projects_footer]
        /\ nav_rows (projects_nav 0 1) = []
        /\ forall page, snd (entries_page_view 0 [] page) = [])
  /\ (total_pages_of 12 5 = Some 3
      /\ (12 + 5 - 1) / 5 = 3
      /\ 2 * 5 = 10
      /\ Z.min 5 (Z.max 0 (12 - 2 * 5)) = 2
      /\ has_token "entries_page_1" (nav_rows (entries_nav 2 3)) = true
      /\ has_token "entries_page_3" (nav_rows (entries_nav 2 3)) = false
      /\ length (entries_nav 2 3) = 1%nat
      /\ has_token "admin_projects_page_1" (nav_rows (projects_nav 2 3)) = true
      /\ has_token "admin_projects_page_3" (nav_rows (projects_nav 2 3)) = false
      /\ length (projects_nav 2 3) = 1%nat).
Proof.
  split; [exact total_pages_of_ceil |].
  split; [exact projects_keyboard_shape |].
  split.
  { intros E u page w Hup Hp mine total visible. split.
    - intros Hbig. exact (show_my_entries_page_shape E u page w Hup Hp Hbig).
    - intros Hbig. exact (show_my_entries_page_overflow E u page w Hup Hbig). }
  split; [intros A l page ps; apply visible_items_length |].
  split.
  - intros ps Hps. repeat split.
    + unfold projects_keyboard, total_pages_of. cbn.
      unfold Py.slice. cbn. destruct (Z.to_nat _); reflexivity.
  - repeat split; vm_compute; reflexivity.
Qed.

(** ** Printing and reading integers *)

Lemma digit_char_spec d :
  0 <= d < 10 ->
  Py.is_digit (Py.digit_char d) = true /\ Py.digit_val (Py.digit_char d) = d
  /\ Ascii.eqb (Py.digit_char d) "-" = false.
Proof.
  intros Hd.
  assert (Hcases : d = 0 \/ d = 1 \/ d = 2 \/ d = 3 \/ d = 4 \/ d = 5 \/ d = 6
                   \/ d = 7 \/ d = 8 \/ d = 9) by lia.
  repeat (destruct Hcases as [-> | Hcases]; [repeat split; reflexivity |]).
  subst d. repeat split; reflexivity.
Qed.

Lemma str_nonneg_read fuel : forall n acc,
  0 <= n -> (Z.to_nat n < fuel)%nat ->
  exists k, Py.digitpart_acc 0 0 false (Py.str_nonneg fuel n acc)
            = Py.digitpart_acc n k true acc.
Proof.
  induction fuel as [| fuel IH]; intros n acc Hn Hfuel; [lia |].
  cbn [Py.str_nonneg].
  pose proof (Z.mod_pos_bound n 10 ltac:(lia)) as Hmod.
  destruct (digit_char_spec (n mod 10) Hmod) as (Hdig & Hval & _).
  destruct (Z.ltb_spec n 10) as [Hlt | Hge].
  - exists 1. cbn [Py.digitpart_acc]. rewrite Hdig, Hval.
    rewrite Z.mod_small by lia. reflexivity.
  - destruct (IH (n / 10) (String (Py.digit_char (n mod 10)) acc)) as (k & Hk).
    + apply Z.div_pos; lia.
    + assert (n / 10 < n) by (apply Z.div_lt; lia). lia.
    + exists (k + 1). rewrite Hk. cbn [Py.digitpart_acc]. rewrite Hdig, Hval.
      f_equal. pose proof (Z.div_mod n 10 ltac:(lia)). lia.
Qed.

Lemma str_nonneg_numeral fuel : forall n acc,
  0 <= n -> numeral acc = true -> numeral (Py.str_nonneg fuel n acc) = true.
Proof.
  induction fuel as [| fuel IH]; intros n acc Hn Hacc; [exact Hacc |].
  cbn [Py.str_nonneg].
  pose proof (Z.mod_pos_bound n 10 ltac:(lia)) as Hmod.
  destruct (digit_char_spec (n mod 10) Hmod) as (Hdig & _ & _).
  assert (Hacc' : numeral (String (Py.digit_char (n mod 10)) acc) = true).
  { cbn [numeral]. rewrite Hdig, Hacc. reflexivity. }
  destruct (n <? 10); [exact Hacc' |].
  apply IH; [apply Z.div_pos; lia | exact Hacc'].
Qed.

Lemma str_nonneg_head fuel : forall n acc,
  0 <= n -> (0 < fuel)%nat ->
  exists c s, Py.str_nonneg fuel n acc = String c s /\ Py.is_digit c = true.
Proof.
  induction fuel as [| fuel IH]; intros n acc Hn Hfuel; [lia |].
  cbn [Py.str_nonneg].
  pose proof (Z.mod_pos_bound n 10 ltac:(lia)) as Hmod.
  destruct (digit_char_spec (n mod 10) Hmod) as (Hdig & _ & _).
  destruct (Z.ltb_spec n 10) as [Hlt | Hge].
  - eauto.
  - destruct fuel as [| fuel'].
    + cbn [Py.str_nonneg]. eauto.
    + apply IH; [apply Z.div_pos; lia | lia].
Qed.

Lemma str_numeral z : numeral (Py.str z) = true.
Proof.
  unfold Py.str. destruct (Z.ltb_spec z 0).
  - cbn [numeral]. apply str_nonneg_numeral; [lia | reflexivity].
  - apply str_nonneg_numeral; [lia | reflexivity].
Qed.

Lemma numeral_is_space c :
  (Py.is_digit c || Ascii.eqb c "-") = true -> Py.is_space c = false.
Proof.
  unfold Py.is_digit, Py.is_space. intros H.
  destruct (Ascii.eqb_spec c "-") as [Heq | _]; [rewrite Heq; reflexivity |].
  rewrite orb_false_r in H. apply andb_true_iff in H as [H1 H2].
  apply Z.leb_le in H1. apply Z.leb_le in H2.
  apply orb_false_iff. split.
  - apply andb_false_iff. right. apply Z.leb_gt. lia.
  - apply Z.eqb_neq. lia.
Qed.

Lemma numeral_trim s : numeral s = true -> Py.trim s = s.
Proof.
  intros H. unfold Py.trim.
  assert (Hl : Py.ltrim s = s).
  { destruct s as [| c s]; [reflexivity |]. cbn [numeral] in H.
    apply andb_true_iff in H as [Hc _]. cbn [Py.ltrim].
    rewrite (numeral_is_space c Hc). reflexivity. }
  rewrite Hl. clear Hl.
  induction s as [| c s IH]; [reflexivity |].
  cbn [numeral] in H. apply andb_true_iff in H as [Hc Hs].
  cbn [Py.rtrim]. rewrite (IH Hs). rewrite (numeral_is_space c Hc).
  destruct s; reflexivity.
Qed.

(** What [str] prints is ASCII, and [int] and [float] read it as it is. *)
Lemma numeral_ascii s : numeral s = true -> Py.is_ascii s = true.
Proof.
  induction s as [| c s IH]; intros H; [reflexivity |].
  cbn [numeral] in H. apply andb_true_iff in H as [Hc Hs].
  cbn [Py.is_ascii]. rewrite (IH Hs), andb_true_r.
  apply Z.ltb_lt. unfold Unicode.byte.
  destruct (Ascii.eqb_spec c "-") as [-> | _]; [reflexivity |].
  rewrite orb_false_r in Hc. unfold Py.is_digit in Hc.
  apply andb_true_iff in Hc as [_ Hc]. apply Z.leb_le in Hc. lia.
Qed.

Lemma numeral_to_ascii s : numeral s = true -> Py.to_ascii s = s.
Proof. intros H. unfold Py.to_ascii. rewrite (numeral_ascii s H). reflexivity. Qed.

(** [int(str(z)) == z] *)
Lemma int_str z : Py.int (Py.str z) = Some z.
Proof.
  unfold Py.int.
  rewrite (numeral_to_ascii _ (str_numeral z)), (numeral_trim _ (str_numeral z)).
  unfold Py.str. destruct (Z.ltb_spec z 0) as [Hneg | Hpos].
  - cbn [Py.signed]. unfold Py.digitpart.
    destruct (str_nonneg_read (S (Z.to_nat (- z))) (- z) EmptyString) as (k & Hk);
      [lia | lia |].
    rewrite Hk. cbn [Py.digitpart_acc]. f_equal. lia.
  - destruct (str_nonneg_head (S (Z.to_nat z)) z EmptyString) as (c & s & Hs & Hc);
      [lia | lia |].
    assert (Hsigned : Py.signed (Py.str_nonneg (S (Z.to_nat z)) z EmptyString)
                      = (false, Py.str_nonneg (S (Z.to_nat z)) z EmptyString)).
    { rewrite Hs. unfold Py.signed.
      destruct (Ascii.eqb_spec c "-") as [Heq | Hm]; [rewrite Heq in Hc; discriminate |].
      destruct (Ascii.eqb_spec c "+") as [Heq | Hp]; [rewrite Heq in Hc; discriminate |].
      destruct c as [[] [] [] [] [] [] [] []]; try reflexivity; congruence. }
    rewrite Hsigned. unfold Py.digitpart.
    destruct (str_nonneg_read (S (Z.to_nat z)) z EmptyString) as (k & Hk); [lia | lia |].
    rewrite Hk. reflexivity.
Qed.

Lemma numeral_no_sep c :
  (Py.is_digit c || Ascii.eqb c "-") = true -> Ascii.eqb c "_" = false.
Proof.
  intros H. destruct (Ascii.eqb_spec c "_") as [Heq | _]; [| reflexivity].
  rewrite Heq in H. discriminate.
Qed.

Lemma split_numeral s : numeral s = true -> Py.split "_" s = [s].
Proof.
  induction s as [| c s IH]; intros H; [reflexivity |].
  cbn [numeral] in H. apply andb_true_iff in H as [Hc Hs].
  cbn [Py.split]. rewrite (numeral_no_sep c Hc), (IH Hs). reflexivity.
Qed.

Lemma split_numeral_app s rest :
  numeral s = true ->
  Py.split "_" (s +:+ String "_" rest) = s :: Py.split "_" rest.
Proof.
  induction s as [| c s IH]; intros H; [reflexivity |].
  cbn [numeral] in H. apply andb_true_iff in H as [Hc Hs].
  simpl. rewrite (numeral_no_sep c Hc), (IH Hs). reflexivity.
Qed.

Lemma pagination_contract_witness :
  (exists tp, total_pages_of 12 5 = Some tp
              /\ 1 <= tp /\ 12 <= tp * 5 /\ (tp - 1) * 5 < Z.max 12 1)
  /\ (exists kb,
        show_my_entries_page sample_env (button_press 7 "entries_page_2") 2
          (sample_world ∅)
        = (Ok RNone,
           World ∅ sample_db
             ([] ++ page_rendering (button_press 7 "entries_page_2")
                      (Table entries_header [VInt 3; VInt 3]
                             (map entry_cells [sample_entry 2; sample_entry 1]))
                      kb))).
Proof.
  destruct pagination_contract as (H1 & _ & H3 & _).
  split.
  - apply H1; lia.
  - destruct (H3 sample_env (button_press 7 "entries_page_2") 2 (sample_world ∅))
      as [Hpage _]; [reflexivity | lia |].
    destruct Hpage as (t & kb & Hrun & _ & Hrows); [vm_compute; reflexivity |].
    destruct Hrows as (tp & Hlo & Hhi & Hlast & Ht & _); [vm_compute; discriminate |].
    assert (Htp : tp = 3).
    { change (Z.of_nat (length (entries_of (effective_user (button_press 7 "entries_page_2"))
                                  (db (sample_world ∅))))) with 12 in Hhi, Hlast. lia. }
    exists kb. rewrite Hrun, Ht, Htp. reflexivity.
Defined.

(** ** Tokens *)

Lemma numeral_append a b : numeral a = true -> numeral b = true -> numeral (a +:+ b) = true.
Proof.
  induction a as [| c a IH]; intros Ha Hb; [exact Hb |].
  cbn [numeral] in Ha. apply andb_true_iff in Ha as [Hc Ha].
  simpl. rewrite Hc. apply IH; assumption.
Qed.

Lemma split_segment (seg rest : string) :
  forallb (fun c => negb (Ascii.eqb c "_")) (list_ascii_of_string seg) = true ->
  Py.split "_" (seg +:+ String "_" rest) = seg :: Py.split "_" rest.
Proof.
  induction seg as [| c seg IH]; intros H; [reflexivity |].
  cbn [list_ascii_of_string forallb] in H. apply andb_true_iff in H as [Hc Hs].
  simpl. apply negb_true_iff in Hc. rewrite Hc, (IH Hs). reflexivity.
Qed.

Lemma split_two a b :
  Py.split "_" (Py.str a +:+ String "_" (Py.str b)) = [Py.str a; Py.str b].
Proof.
  rewrite split_numeral_app by apply str_numeral.
  rewrite split_numeral by apply str_numeral. reflexivity.
Qed.

Lemma split_three a b c :
  Py.split "_" (Py.str a +:+ String "_" (Py.str b +:+ String "_" (Py.str c)))
  = [Py.str a; Py.str b; Py.str c].
Proof.
  rewrite split_numeral_app by apply str_numeral.
  rewrite split_numeral_app by apply str_numeral.
  rewrite split_numeral by apply str_numeral. reflexivity.
Qed.

(** The tokens emitted by the calendars are read back as the numbers
    they were built from. *)
Lemma cal_select_args y m d :
  token_args ("cal_select_" +:+ Py.str y +:+ "_" +:+ Py.str m +:+ "_" +:+ Py.str d)
             [2; 3; 4]%nat = Some [y; m; d].
Proof.
  unfold token_args.
  change (Py.split "_" _)
    with (Py.split "_" ("cal" +:+ String "_" ("select" +:+ String "_"
            (Py.str y +:+ String "_" (Py.str m +:+ String "_" (Py.str d)))))).
  rewrite !split_segment by reflexivity. rewrite split_three.
  cbn [mapM lookup list_lookup mbind option_bind]. rewrite !int_str. reflexivity.
Qed.

Lemma cal_nav_args (prev : bool) y m :
  token_args ((if prev then "cal_prev_" else "cal_next_") +:+ Py.str y +:+ "_" +:+ Py.str m)
             [2; 3]%nat = Some [y; m].
Proof.
  unfold token_args.
  assert (Hs : Py.split "_" ((if prev then "cal_prev_" else "cal_next_")
                              +:+ Py.str y +:+ "_" +:+ Py.str m)
               = ["cal"; if prev then "prev" else "next"; Py.str y; Py.str m]).
  { destruct prev.
    - change (Py.split "_" _)
        with (Py.split "_" ("cal" +:+ String "_" ("prev" +:+ String "_"
                (Py.str y +:+ String "_" (Py.str m))))).
      rewrite !split_segment by reflexivity. rewrite split_two. reflexivity.
    - change (Py.split "_" _)
        with (Py.split "_" ("cal" +:+ String "_" ("next" +:+ String "_"
                (Py.str y +:+ String "_" (Py.str m))))).
      rewrite !split_segment by reflexivity. rewrite split_two. reflexivity. }
  rewrite Hs. cbn [mapM lookup list_lookup mbind option_bind]. rewrite !int_str. reflexivity.
Qed.

(** ** The past-only calendar *)

Lemma chunks_elem {A} fuel : forall (l : list A) week x,
  In week (Cal.chunks fuel l) -> In x week -> In x l.
Proof.
  induction fuel as [| fuel IH]; intros l week x Hw Hx; [destruct Hw |].
  destruct l as [| a l]; [destruct Hw |].
  cbn [Cal.chunks] in Hw. destruct Hw as [<- | Hw].
  - rewrite <- (firstn_skipn 7 (a :: l)). apply in_or_app. left. exact Hx.
  - rewrite <- (firstn_skipn 7 (a :: l)). apply in_or_app. right.
    eapply IH; eassumption.
Qed.

Lemma concat_chunks {A} fuel : forall (l : list A),
  (length l <= fuel)%nat -> concat (Cal.chunks fuel l) = l.
Proof.
  induction fuel as [| fuel IH]; intros l Hl.
  - destruct l; [reflexivity | cbn in Hl; lia].
  - destruct l as [| a l]; [reflexivity |].
    cbn [Cal.chunks concat]. rewrite IH.
    + apply firstn_skipn.
    + rewrite length_skipn. cbn [length] in *. lia.
Qed.

Lemma itermonthdays_elem y m d :
  In d (Cal.itermonthdays y m) -> d = 0 \/ 1 <= d <= Cal.days_in_month y m.
Proof.
  unfold Cal.itermonthdays. intros H.
  apply in_app_or in H as [H | H]; [left; eapply repeat_spec; exact H |].
  apply in_app_or in H as [H | H]; [| left; eapply repeat_spec; exact H].
  right. apply in_map_iff in H as (i & <- & Hi). apply in_seq in Hi. lia.
Qed.

Lemma calendar_cell_renders E y m day b :
  calendar_cell E y m day = Some b -> renders E y m day b.
Proof.
  unfold calendar_cell, renders, mkdate.
  destruct (day =? 0); [congruence |].
  destruct (Cal.valid_date y m day); cbn [mbind option_bind]; [| discriminate].
  destruct (Cal.date_ltb _ _); congruence.
Qed.

Lemma calendar_cell_total E y m day :
  Cal.MINYEAR <= y <= Cal.MAXYEAR -> 1 <= m <= 12 ->
  day = 0 \/ 1 <= day <= Cal.days_in_month y m ->
  is_Some (calendar_cell E y m day).
Proof.
  intros Hy Hm Hd. unfold calendar_cell, mkdate.
  destruct (Z.eqb_spec day 0) as [| Hne]; [eauto |].
  destruct Hd as [| Hd]; [contradiction |].
  assert (Hv : Cal.valid_date y m day = true).
  { unfold Cal.valid_date. repeat (apply andb_true_iff; split); apply Z.leb_le; lia. }
  rewrite Hv. cbn [mbind option_bind]. destruct (Cal.date_ltb _ _); eauto.
Qed.

Lemma generate_calendar_rows E y m kb :
  generate_calendar E y m = Some kb ->
  exists cal header week_header rows,
    Cal.monthcalendar y m = Some cal
    /\ kb = header :: week_header :: rows
    /\ Forall2 (Forall2 (renders E y m)) cal rows.
Proof.
  unfold generate_calendar. intros H.
  destruct (Cal.monthcalendar y m) as [cal |]; [| discriminate].
  cbn [mbind option_bind] in H.
  destruct (russian_months !! Z.to_nat m) as [name |]; [| discriminate].
  cbn [mbind option_bind] in H.
  destruct (mapM _ cal) as [rows |] eqn:Hrows; [| discriminate].
  cbn [mbind option_bind] in H. injection H as <-.
  eexists cal, _, _, rows. split; [reflexivity |]. split; [reflexivity |].
  apply mapM_Some in Hrows.
  eapply Forall2_impl; [exact Hrows |].
  intros week row Hweek. cbn beta in Hweek. apply mapM_Some in Hweek.
  eapply Forall2_impl; [exact Hweek |].
  intros day b Hb. apply calendar_cell_renders. exact Hb.
Qed.

Lemma generate_calendar_total E y m :
  Cal.MINYEAR <= y <= Cal.MAXYEAR -> 1 <= m <= 12 ->
  exists kb cal, generate_calendar E y m = Some kb
                 /\ Cal.monthcalendar y m = Some cal
                 /\ concat cal = Cal.itermonthdays y m.
Proof.
  intros Hy Hm. unfold generate_calendar, Cal.monthcalendar.
  assert (Hmb : (1 <=? m) && (m <=? 12) = true)
    by (apply andb_true_iff; split; apply Z.leb_le; lia).
  rewrite Hmb. cbn [mbind option_bind].
  assert (Hname : is_Some (russian_months !! Z.to_nat m)).
  { apply lookup_lt_is_Some. cbn. lia. }
  destruct Hname as [name ->]. cbn [mbind option_bind].
  set (days := Cal.itermonthdays y m).
  assert (Hrows : is_Some (mapM (fun week => mapM (calendar_cell E y m) week)
                             (Cal.chunks (length days) days))).
  { apply mapM_is_Some. apply Forall_forall. intros week Hweek.
    apply mapM_is_Some. apply Forall_forall. intros d Hd.
    apply calendar_cell_total; [assumption | assumption |].
    apply itermonthdays_elem.
    apply list_elem_of_In in Hweek. apply list_elem_of_In in Hd.
    eapply chunks_elem; eassumption. }
  destruct Hrows as [rows ->]. cbn [mbind option_bind].
  eexists _, _. split; [reflexivity |]. split; [reflexivity |].
  apply concat_chunks. lia.
Qed.

Lemma generate_calendar_today E E' y m :
  today E = today E' -> generate_calendar E y m = generate_calendar E' y m.
Proof.
  intros H. unfold generate_calendar, calendar_cell. rewrite H. reflexivity.
Qed.

Lemma handle_calendar_ignore E u w :
  handle_calendar E u "cal_ignore" w
  = (Ok RNone, World (user_data w) (db w) (calls w ++ [answer None])).
Proof. reflexivity. Qed.

(** C6. In every grid produced by the past-only calendar, a padding cell
    (day 0) and a day after today are placeholders bound to the inert token
    [cal_ignore], and a day up to today is a selectable cell whose token is
    read back as the literal (year, month, day); the grid exists for every
    month of the years 1..9999 and lists the month's days in order.  With
    today = 2024-06-15, day 16 of June 2024 is a placeholder and day 15 is
    selectable. *)
Theorem calendar_grid :
  (forall E year month kb,
     generate_calendar E year month = Some kb ->
     exists cal header week_header rows,
       Cal.monthcalendar year month = Some cal
       /\ kb = header :: week_header :: rows
       /\ Forall2 (Forall2 (renders E year month)) cal rows)
  /\ (forall E year month,
        Cal.MINYEAR <= year <= Cal.MAXYEAR -> 1 <= month <= 12 ->
        exists kb cal, generate_calendar E year month = Some kb
                       /\ Cal.monthcalendar year month = Some cal
                       /\ concat cal = Cal.itermonthdays year month)
  /\ (forall year month day,
        token_args ("cal_select_" +:+ Py.str year +:+ "_" +:+ Py.str month
                    +:+ "_" +:+ Py.str day) [2; 3; 4]%nat
        = Some [year; month; day])
  /\ (forall E u w,
        handle_calendar E u "cal_ignore" w
        = (Ok RNone, World (user_data w) (db w) (calls w ++ [answer None])))
  /\ (forall E, today E = Cal.mkdate 2024 6 15 ->
        exists kb, generate_calendar E 2024 6 = Some kb
                   /\ In (InlineKeyboardButton (Lit "(16)") "cal_ignore") (concat kb)
                   /\ In (InlineKeyboardButton (Lit "15") "cal_select_2024_6_15") (concat kb)
                   /\ has_token "cal_select_2024_6_16" kb = false).
Proof.
  split; [exact generate_calendar_rows |].
  split; [exact generate_calendar_total |].
  split; [exact cal_select_args |].
  split; [exact handle_calendar_ignore |].
  intros E Htoday.
  rewrite (generate_calendar_today E sample_env 2024 6 Htoday).
  destruct (generate_calendar sample_env 2024 6) as [kb |] eqn:Hkb;
    [| vm_compute in Hkb; discriminate].
  exists kb. split; [reflexivity |].
  vm_compute in Hkb. injection Hkb as <-.
  split; [| split].
  - cbn [concat app]. do 30 right. left. reflexivity.
  - cbn [concat app]. do 29 right. left. reflexivity.
  - vm_compute. reflexivity.
Qed.

Lemma calendar_grid_witness :
  (exists cal header week_header rows,
     Cal.monthcalendar 2024 6 = Some cal
     /\ default [] (generate_calendar sample_env 2024 6) = header :: week_header :: rows
     /\ Forall2 (Forall2 (renders sample_env 2024 6)) cal rows)
  /\ (exists kb, generate_calendar sample_env 2024 6 = Some kb
                 /\ In (InlineKeyboardButton (Lit "(16)") "cal_ignore") (concat kb)
                 /\ In (InlineKeyboardButton (Lit "15") "cal_select_2024_6_15") (concat kb)
                 /\ has_token "cal_select_2024_6_16" kb = false).
Proof.
  destruct calendar_grid as (H1 & H2 & _ & _ & H5).
  split.
  - destruct (H2 sample_env 2024 6) as (kb & cal0 & Hkb & _); [unfold Cal.MINYEAR, Cal.MAXYEAR; lia | lia |].
    destruct (H1 sample_env 2024 6 kb Hkb) as (cal & h & wh & rows & Hc & Hk & Hr).
    exists cal, h, wh, rows. rewrite Hkb. cbn [default]. auto.
  - apply (H5 sample_env). reflexivity.
Defined.

(** ** Calendar navigation *)

Lemma item_int_run {A} (l : list string) i s z (k : Z -> M A) w :
  l !! i = Some s -> Py.int s = Some z ->
  ((item l i ≫= int) ≫= k) w = k z w.
Proof.
  intros Hl Hs. unfold item, int. rewrite Hl. cbn [lift_option].
  rewrite !bind_unfold. cbn. rewrite Hs. reflexivity.
Qed.

Lemma cal_nav_split prev y m :
  Py.split "_" (nav_token "cal_" prev y m)
  = ["cal"; if prev then "prev" else "next"; Py.str y; Py.str m].
Proof.
  unfold nav_token. destruct prev.
  - change (Py.split "_" _)
      with (Py.split "_" ("cal" +:+ String "_" ("prev" +:+ String "_"
              (Py.str y +:+ String "_" (Py.str m))))).
    rewrite !split_segment by reflexivity. rewrite split_two. reflexivity.
  - change (Py.split "_" _)
      with (Py.split "_" ("cal" +:+ String "_" ("next" +:+ String "_"
              (Py.str y +:+ String "_" (Py.str m))))).
    rewrite !split_segment by reflexivity. rewrite split_two. reflexivity.
Qed.

Lemma report_nav_split prev y m :
  Py.split "_" (nav_token "report_cal_" prev y m)
  = ["report"; "cal"; if prev then "prev" else "next"; Py.str y; Py.str m].
Proof.
  unfold nav_token. destruct prev.
  - change (Py.split "_" _)
      with (Py.split "_" ("report" +:+ String "_" ("cal" +:+ String "_"
              ("prev" +:+ String "_" (Py.str y +:+ String "_" (Py.str m)))))).
    rewrite !split_segment by reflexivity. rewrite split_two. reflexivity.
  - change (Py.split "_" _)
      with (Py.split "_" ("report" +:+ String "_" ("cal" +:+ String "_"
              ("next" +:+ String "_" (Py.str y +:+ String "_" (Py.str m)))))).
    rewrite !split_segment by reflexivity. rewrite split_two. reflexivity.
Qed.

Lemma handle_calendar_nav E u w prev y m :
  handle_calendar E u (nav_token "cal_" prev y m) w
  = let '(y', m') := shift_month prev y m in
    if (y' <? Cal.year (today E) - 1) || (Cal.year (today E) <? y') then refused w
    else calendar_page E y' m' w.
Proof.
  unfold handle_calendar.
  replace (String.eqb (nav_token "cal_" prev y m) "cal_ignore") with false
    by (destruct prev; reflexivity).
  replace (Py.startswith (nav_token "cal_" prev y m) "cal_prev_") with prev
    by (destruct prev; reflexivity).
  replace (Py.startswith (nav_token "cal_" prev y m) "cal_next_") with (negb prev)
    by (destruct prev; reflexivity).
  replace (prev || negb prev) with true by (destruct prev; reflexivity).
  rewrite cal_nav_split.
  rewrite (item_int_run _ 2 (Py.str y) y) by (reflexivity || apply int_str).
  rewrite (item_int_run _ 3 (Py.str m) m) by (reflexivity || apply int_str).
  destruct (shift_month prev y m) as [y' m'].
  destruct ((y' <? Cal.year (today E) - 1) || (Cal.year (today E) <? y')); reflexivity.
Qed.

Lemma handle_report_calendar_nav E u w prev y m :
  handle_report_calendar E u (nav_token "report_cal_" prev y m) w
  = let '(y', m') := shift_month prev y m in
    if (y' <? Cal.year (today E) - 2) || (Cal.year (today E) + 1 <? y') then refused w
    else report_calendar_page E y' m' w.
Proof.
  unfold handle_report_calendar.
  replace (String.eqb (nav_token "report_cal_" prev y m) "report_cal_ignore") with false
    by (destruct prev; reflexivity).
  replace (Py.startswith (nav_token "report_cal_" prev y m) "report_cal_prev_") with prev
    by (destruct prev; reflexivity).
  replace (Py.startswith (nav_token "report_cal_" prev y m) "report_cal_next_")
    with (negb prev) by (destruct prev; reflexivity).
  replace (prev || negb prev) with true by (destruct prev; reflexivity).
  rewrite report_nav_split.
  rewrite (item_int_run _ 3 (Py.str y) y) by (reflexivity || apply int_str).
  rewrite (item_int_run _ 4 (Py.str m) m) by (reflexivity || apply int_str).
  destruct (shift_month prev y m) as [y' m'].
  destruct ((y' <? Cal.year (today E) - 2) || (Cal.year (today E) + 1 <? y')); reflexivity.
Qed.

Lemma shift_month_adjacent prev y m :
  1 <= m <= 12 ->
  let '(y', m') := shift_month prev y m in
  1 <= m' <= 12 /\ 12 * y' + m' = 12 * y + m + (if prev then -1 else 1).
Proof.
  intros Hm. unfold shift_month. destruct prev.
  - destruct (Z.eqb_spec (m - 1) 0); lia.
  - destruct (Z.eqb_spec (m + 1) 13); lia.
Qed.

Lemma calendar_page_run E y m w kb name hours :
  generate_calendar E y m = Some kb ->
  user_data w !! "selected_project_name" = Some name ->
  user_data w !! "selected_hours" = Some hours ->
  calendar_page E y m w
  = (Ok (RState SELECTING_DATE),
     World (user_data w) (db w)
       (calls w ++ [edit_message_text
                      (date_prompt name hours
                         (default NOT_SPECIFIED (user_data w !! "description")))
                      (Some kb)])).
Proof.
  intros Hkb Hname Hhours. unfold calendar_page. rewrite Hkb.
  mrun. rewrite Hname. mrun. rewrite Hhours. mrun. reflexivity.
Qed.

Lemma calendar_page_result E y m w : fst (calendar_page E y m w) <> Ok RNone.
Proof.
  unfold calendar_page. mrun.
  destruct (generate_calendar E y m); cbn [fst]; [| discriminate].
  mrun.
  destruct (user_data w !! "selected_project_name"); [| discriminate].
  mrun.
  destruct (user_data w !! "selected_hours"); [| discriminate].
  mrun. discriminate.
Qed.

Lemma report_calendar_page_run E y m w kb :
  generate_report_calendar y m = Some kb ->
  report_calendar_page E y m w
  = (Ok RNone,
     World (user_data w) (db w)
       (calls w ++ [edit_message_text
                      (if truthy (user_data w !! "report_start_date")
                       then report_end_prompt
                              (default VNone (user_data w !! "report_start_date"))
                       else REPORT_START_PROMPT)
                      (Some kb)])).
Proof.
  intros Hkb. unfold report_calendar_page. rewrite Hkb. mrun.
  destruct (truthy _); reflexivity.
Qed.

Lemma report_calendar_page_result E y m w : report_calendar_page E y m w <> refused w.
Proof.
  unfold report_calendar_page, refused. mrun.
  destruct (generate_report_calendar y m); [| discriminate].
  mrun.
  destruct (truthy _); mrun; intros H; injection H as H;
    apply app_inv_head in H; discriminate.
Qed.

(** C5. A previous/next navigation moves the cursor to the adjacent month
    (January wraps to December of the year before, December to January of
    the year after) and is refused, with a notice and nothing else changed,
    exactly when the year reached lies outside [currentYear-1, currentYear]
    in the add-entry calendar and outside [currentYear-2, currentYear+1] in
    the report calendar; otherwise the calendar of the month reached is
    rendered.  "Previous" from January of currentYear-1 is refused in the
    add-entry calendar. *)
Theorem calendar_navigation :
  (forall prev y m, 1 <= m <= 12 ->
     let '(y', m') := shift_month prev y m in
     1 <= m' <= 12 /\ 12 * y' + m' = 12 * y + m + (if prev then -1 else 1))
  /\ (forall y, shift_month true y 1 = (y - 1, 12) /\ shift_month false y 12 = (y + 1, 1))
  /\ (forall E u w prev y m,
        let '(y', m') := shift_month prev y m in
        let out := y' < Cal.year (today E) - 1 \/ Cal.year (today E) < y' in
        (handle_calendar E u (nav_token "cal_" prev y m) w = refused w <-> out)
        /\ (~ out -> handle_calendar E u (nav_token "cal_" prev y m) w
                     = calendar_page E y' m' w))
  /\ (forall E u w prev y m,
        let '(y', m') := shift_month prev y m in
        let out := y' < Cal.year (today E) - 2 \/ Cal.year (today E) + 1 < y' in
        (handle_report_calendar E u (nav_token "report_cal_" prev y m) w = refused w <-> out)
        /\ (~ out -> handle_report_calendar E u (nav_token "report_cal_" prev y m) w
                     = report_calendar_page E y' m' w))
  /\ (forall w st,
        user_data (snd (refused w)) = user_data w /\ db (snd (refused w)) = db w
        /\ next_state st (fst (refused w)) = st)
  /\ (forall E u w,
        handle_calendar E u (nav_token "cal_" true (Cal.year (today E) - 1) 1) w = refused w).
Proof.
  split; [exact shift_month_adjacent |].
  split; [intros y; split; reflexivity |].
  split; [| split; [| split]].
  - intros E u w prev y m.
    pose proof (handle_calendar_nav E u w prev y m) as Hnav.
    destruct (shift_month prev y m) as [y' m']. cbv zeta.
    destruct (Z.ltb_spec y' (Cal.year (today E) - 1));
      destruct (Z.ltb_spec (Cal.year (today E)) y'); cbn [orb] in Hnav.
    1-3: split; [split; [intros _; lia | intros _; exact Hnav] | intros Hn; lia].
    split; [split |].
    + intros Href. rewrite Hnav in Href.
      exfalso. apply (calendar_page_result E y' m' w). rewrite Href. reflexivity.
    + intros [? | ?]; lia.
    + intros _. exact Hnav.
  - intros E u w prev y m.
    pose proof (handle_report_calendar_nav E u w prev y m) as Hnav.
    destruct (shift_month prev y m) as [y' m']. cbv zeta.
    destruct (Z.ltb_spec y' (Cal.year (today E) - 2));
      destruct (Z.ltb_spec (Cal.year (today E) + 1) y'); cbn [orb] in Hnav.
    1-3: split; [split; [intros _; lia | intros _; exact Hnav] | intros Hn; lia].
    split; [split |].
    + intros Href. rewrite Hnav in Href.
      exfalso. exact (report_calendar_page_result E y' m' w Href).
    + intros [? | ?]; lia.
    + intros _. exact Hnav.
  - intros w st. repeat split.
  - intros E u w. rewrite handle_calendar_nav. cbn [shift_month Z.eqb Z.sub].
    replace (1 - 1 =? 0) with true by reflexivity.
    replace (Cal.year (today E) - 1 - 1 <? Cal.year (today E) - 1) with true
      by (symmetry; apply Z.ltb_lt; lia).
    reflexivity.
Qed.

Lemma calendar_navigation_witness :
  (1 <= 12 <= 12 /\ 12 * 2023 + 12 = 12 * 2024 + 1 + -1)
  /\ handle_calendar sample_env (button_press 7 (nav_token "cal_" true 2024 1))
       (nav_token "cal_" true 2024 1)
       (sample_world (<["selected_project_name" := VStr "Dev"]>
                        (<["selected_hours" := VFloat (Py.float_of_Z 2)]> ∅)))
     = calendar_page sample_env 2023 12
         (sample_world (<["selected_project_name" := VStr "Dev"]>
                          (<["selected_hours" := VFloat (Py.float_of_Z 2)]> ∅))).
Proof.
  destruct calendar_navigation as (H1 & _ & H3 & _).
  split.
  - apply (H1 true 2024 1). lia.
  - apply (H3 sample_env (button_press 7 (nav_token "cal_" true 2024 1))
              (sample_world (<["selected_project_name" := VStr "Dev"]>
                               (<["selected_hours" := VFloat (Py.float_of_Z 2)]> ∅)))
              true 2024 1).
    cbn. lia.
Defined.

(** ** Dates written and read back *)

Lemma str_four_digits y :
  1000 <= y <= 9999 ->
  Py.str y = String (Py.digit_char (y / 1000))
               (String (Py.digit_char (y / 100 mod 10))
                  (String (Py.digit_char (y / 10 mod 10))
                     (String (Py.digit_char (y mod 10)) EmptyString))).
Proof.
  intros Hy. unfold Py.str.
  replace (y <? 0) with false by (symmetry; apply Z.ltb_ge; lia).
  replace (S (Z.to_nat y)) with (4 + (Z.to_nat y - 3))%nat by lia.
  cbn [Nat.add Py.str_nonneg].
  replace (y <? 10) with false by (symmetry; apply Z.ltb_ge; lia).
  replace (y / 10 <? 10) with false
    by (symmetry; apply Z.ltb_ge; Z.div_mod_to_equations; lia).
  replace (y / 10 / 10 <? 10) with false
    by (symmetry; apply Z.ltb_ge; Z.div_mod_to_equations; lia).
  replace (y / 10 / 10 / 10 <? 10) with true
    by (symmetry; apply Z.ltb_lt; Z.div_mod_to_equations; lia).
  replace (y / 10 / 10 / 10 mod 10) with (y / 1000) by (Z.div_mod_to_equations; lia).
  replace (y / 10 / 10 mod 10) with (y / 100 mod 10) by (Z.div_mod_to_equations; lia).
  reflexivity.
Qed.

Lemma month_field_fmt m rest :
  1 <= m <= 12 -> Cal.month_field (Py.fmt02d m +:+ String "-" rest) = Some (m, rest).
Proof.
  intros Hm.
  assert (Hcases : m = 1 \/ m = 2 \/ m = 3 \/ m = 4 \/ m = 5 \/ m = 6 \/ m = 7
                   \/ m = 8 \/ m = 9 \/ m = 10 \/ m = 11 \/ m = 12) by lia.
  repeat (destruct Hcases as [-> | Hcases]; [reflexivity |]).
  subst m. reflexivity.
Qed.

Lemma day_field_fmt d : 1 <= d <= 31 -> Cal.day_field (Py.fmt02d d) = Some d.
Proof.
  intros Hd.
  assert (Hcases : d = 1 \/ d = 2 \/ d = 3 \/ d = 4 \/ d = 5 \/ d = 6 \/ d = 7
                   \/ d = 8 \/ d = 9 \/ d = 10 \/ d = 11 \/ d = 12 \/ d = 13
                   \/ d = 14 \/ d = 15 \/ d = 16 \/ d = 17 \/ d = 18 \/ d = 19
                   \/ d = 20 \/ d = 21 \/ d = 22 \/ d = 23 \/ d = 24 \/ d = 25
                   \/ d = 26 \/ d = 27 \/ d = 28 \/ d = 29 \/ d = 30 \/ d = 31) by lia.
  repeat (destruct Hcases as [-> | Hcases]; [reflexivity |]).
  subst d. reflexivity.
Qed.

Lemma days_in_month_bound y m : Cal.days_in_month y m <= 31.
Proof.
  unfold Cal.days_in_month, Cal.mdays.
  destruct (Z.eqb_spec m 2) as [-> | Hm].
  - destruct (Cal.isleap y); cbn; lia.
  - cbn [andb]. destruct m as [| p | p]; try lia.
    do 4 (destruct p as [p | p |]; try lia).
Qed.

Lemma concat_cons_empty (x : string) l :
  String.concat EmptyString (x :: l) = x +:+ String.concat EmptyString l.
Proof.
  destruct l as [| y l]; cbn [String.concat].
  - induction x as [| c x IH]; [reflexivity |].
    change (String c x +:+ "") with (String c (x +:+ "")). f_equal. exact IH.
  - reflexivity.
Qed.

(** The characters of a string, put together again, are the string. *)
Lemma chars_concat s : String.concat EmptyString (Unicode.chars s) = s.
Proof.
  induction s as [| c s IH]; [reflexivity |].
  cbn [Unicode.chars].
  destruct (Unicode.chars s) as [| [| c' x] rest] eqn:Hcs.
  - cbn in IH. subst s. reflexivity.
  - rewrite concat_cons_empty. rewrite IH. reflexivity.
  - destruct (Unicode.is_continuation c').
    + rewrite concat_cons_empty in *.
      change (String c (String c' x) +:+ String.concat "" rest)
        with (String c (String c' x +:+ String.concat "" rest)).
      rewrite IH. reflexivity.
    + rewrite concat_cons_empty. rewrite IH. reflexivity.
Qed.

Lemma chars_head c x : exists k rest, Unicode.chars (String c x) = String c k :: rest.
Proof.
  cbn [Unicode.chars]. destruct (Unicode.chars x) as [| [| c' y] rest]; eauto.
  destruct (Unicode.is_continuation c'); eauto.
Qed.

(** A byte that continues no character begins one. *)
Lemma chars_cons c c' x :
  Unicode.is_continuation c' = false ->
  Unicode.chars (String c (String c' x))
  = String c EmptyString :: Unicode.chars (String c' x).
Proof.
  intros Hc. destruct (chars_head c' x) as (k & rest & Hk).
  change (Unicode.chars (String c (String c' x)))
    with (match Unicode.chars (String c' x) with
          | String c0 x0 :: rest0 =>
              if Unicode.is_continuation c0 then String c (String c0 x0) :: rest0
              else String c EmptyString :: String c0 x0 :: rest0
          | l => String c EmptyString :: l
          end).
  rewrite Hk, Hc. reflexivity.
Qed.

Lemma digit_not_continuation a :
  (Py.is_digit a || Ascii.eqb a "-") = true -> Unicode.is_continuation a = false.
Proof.
  intros H. unfold Unicode.is_continuation, Unicode.byte.
  apply andb_false_iff. left. apply Z.leb_gt.
  destruct (Ascii.eqb_spec a "-") as [Heq | _]; [rewrite Heq; reflexivity |].
  rewrite orb_false_r in H. unfold Py.is_digit in H.
  apply andb_true_iff in H as [_ H]. apply Z.leb_le in H. lia.
Qed.

Lemma re_digit_ascii a :
  Py.is_digit a = true -> Cal.re_digit (String a EmptyString) = Some (Py.digit_val a).
Proof.
  destruct a as [[] [] [] [] [] [] [] []]; intros H; try discriminate H; reflexivity.
Qed.

(** Four ASCII digits and a hyphen are read as the year. *)
Lemma year_field_digits a b c d r :
  Py.is_digit a = true -> Py.is_digit b = true -> Py.is_digit c = true ->
  Py.is_digit d = true ->
  Cal.year_field (String a (String b (String c (String d (String "-" r)))))
  = Some (1000 * Py.digit_val a + 100 * Py.digit_val b + 10 * Py.digit_val c
          + Py.digit_val d, r).
Proof.
  intros Ha Hb Hc Hd. unfold Cal.year_field.
  rewrite (chars_cons a b) by (apply digit_not_continuation; rewrite Hb; reflexivity).
  rewrite (chars_cons b c) by (apply digit_not_continuation; rewrite Hc; reflexivity).
  rewrite (chars_cons c d) by (apply digit_not_continuation; rewrite Hd; reflexivity).
  rewrite (chars_cons d "-") by reflexivity.
  rewrite !re_digit_ascii by assumption. rewrite chars_concat. reflexivity.
Qed.

(** [strptime(f"{y}-{m:02d}-{d:02d}", '%Y-%m-%d')] gives the date back, for
    a date with a four-digit year. *)
Lemma strptime_iso y m d :
  Cal.valid_date y m d = true -> 1000 <= y ->
  Cal.strptime (Cal.iso y m d) = Some (Cal.mkdate y m d).
Proof.
  intros Hv Hy.
  pose proof Hv as Hv'. unfold Cal.valid_date, Cal.MINYEAR, Cal.MAXYEAR in Hv'.
  repeat (apply andb_true_iff in Hv' as [Hv' ?]).
  repeat match goal with H : (_ <=? _) = true |- _ => apply Z.leb_le in H end.
  pose proof (days_in_month_bound y m).
  unfold Cal.iso. rewrite (str_four_digits y) by lia.
  assert (Hq3 : 0 <= y / 1000 < 10) by (Z.div_mod_to_equations; lia).
  assert (Hq2 : 0 <= y / 100 mod 10 < 10) by (apply Z.mod_pos_bound; lia).
  assert (Hq1 : 0 <= y / 10 mod 10 < 10) by (apply Z.mod_pos_bound; lia).
  assert (Hq0 : 0 <= y mod 10 < 10) by (apply Z.mod_pos_bound; lia).
  destruct (digit_char_spec _ Hq3) as (D3 & V3 & _).
  destruct (digit_char_spec _ Hq2) as (D2 & V2 & _).
  destruct (digit_char_spec _ Hq1) as (D1 & V1 & _).
  destruct (digit_char_spec _ Hq0) as (D0 & V0 & _).
  unfold Cal.strptime.
  change (String (Py.digit_char (y / 1000))
            (String (Py.digit_char (y / 100 mod 10))
               (String (Py.digit_char (y / 10 mod 10))
                  (String (Py.digit_char (y mod 10)) EmptyString)))
          +:+ "-" +:+ Py.fmt02d m +:+ "-" +:+ Py.fmt02d d)
    with (String (Py.digit_char (y / 1000))
            (String (Py.digit_char (y / 100 mod 10))
               (String (Py.digit_char (y / 10 mod 10))
                  (String (Py.digit_char (y mod 10))
                     (String "-" (Py.fmt02d m +:+ String "-" (Py.fmt02d d))))))).
  rewrite year_field_digits by assumption. rewrite V3, V2, V1, V0.
  rewrite month_field_fmt by lia. rewrite day_field_fmt by lia.
  assert (Hyear : 1000 * (y / 1000) + 100 * (y / 100 mod 10) + 10 * (y / 10 mod 10)
                  + y mod 10 = y) by (Z.div_mod_to_equations; lia).
  rewrite Hyear, Hv. reflexivity.
Qed.

(** ** The custom report range *)

Lemma report_select_split y m d :
  Py.split "_" (select_token "report_cal_" y m d)
  = ["report"; "cal"; "select"; Py.str y; Py.str m; Py.str d].
Proof.
  unfold select_token.
  change (Py.split "_" _)
    with (Py.split "_" ("report" +:+ String "_" ("cal" +:+ String "_"
            ("select" +:+ String "_"
               (Py.str y +:+ String "_" (Py.str m +:+ String "_" (Py.str d))))))).
  rewrite !split_segment by reflexivity. rewrite split_three. reflexivity.
Qed.

Lemma iso_nonempty y m d : String.eqb (Cal.iso y m d) EmptyString = false.
Proof. unfold Cal.iso. destruct (Py.str y); reflexivity. Qed.

Lemma check_range_iso ys ms ds y m d :
  Cal.valid_date ys ms ds = true -> 1000 <= ys ->
  Cal.valid_date y m d = true -> 1000 <= y ->
  check_range (Cal.iso ys ms ds) (Cal.iso y m d)
  = if Cal.date_ltb (Cal.mkdate y m d) (Cal.mkdate ys ms ds)
    then RangeRejected END_BEFORE_START
    else if 365 <? Cal.days_between (Cal.mkdate y m d) (Cal.mkdate ys ms ds)
         then RangeRejected PERIOD_TOO_LONG
         else RangeOk.
Proof.
  intros Hs Hys He Hy. unfold check_range.
  rewrite (strptime_iso ys ms ds Hs Hys), (strptime_iso y m d He Hy). reflexivity.
Qed.

Lemma handle_report_calendar_end E u w ys ms ds y m d fmt :
  db_up E = true ->
  Cal.valid_date ys ms ds = true -> 1000 <= ys ->
  Cal.valid_date y m d = true -> 1000 <= y ->
  user_data w !! "report_start_date" = Some (VStr (Cal.iso ys ms ds)) ->
  user_data w !! "report_start_date_formatted" = Some fmt ->
  handle_report_calendar E u (select_token "report_cal_" y m d) w
  = if Cal.date_ltb (Cal.mkdate y m d) (Cal.mkdate ys ms ds)
    then range_rejected w END_BEFORE_START
    else if 365 <? Cal.days_between (Cal.mkdate y m d) (Cal.mkdate ys ms ds)
         then range_rejected w PERIOD_TOO_LONG
         else report_sent E u w (VStr (Cal.iso ys ms ds)) (Cal.iso y m d).
Proof.
  intros Hup Hs Hys He Hy Hstart Hfmt.
  unfold handle_report_calendar.
  change (String.eqb (select_token "report_cal_" y m d) "report_cal_ignore") with false.
  change (Py.startswith (select_token "report_cal_" y m d) "report_cal_prev_") with false.
  change (Py.startswith (select_token "report_cal_" y m d) "report_cal_next_") with false.
  change (Py.startswith (select_token "report_cal_" y m d) "report_cal_select_") with true.
  cbn [orb]. rewrite report_select_split.
  rewrite (item_int_run _ 3 (Py.str y) y) by (reflexivity || apply int_str).
  rewrite (item_int_run _ 4 (Py.str m) m) by (reflexivity || apply int_str).
  rewrite (item_int_run _ 5 (Py.str d) d) by (reflexivity || apply int_str).
  mrun. rewrite Hstart.
  change (truthy (Some (VStr (Cal.iso ys ms ds))))
    with (negb (String.eqb (Cal.iso ys ms ds) EmptyString)).
  rewrite iso_nonempty. cbn [negb].
  mrun. rewrite Hstart. mrun. rewrite Hfmt. unfold as_str. mrun.
  fold (Cal.iso y m d).
  rewrite (check_range_iso ys ms ds y m d Hs Hys He Hy).
  destruct (Cal.date_ltb _ _); [reflexivity |].
  destruct (365 <? _); [reflexivity |].
  unfold target_user, collaborator. mrun. rewrite Hup. mrun.
  unfold report_sent, effective_target. rewrite <- app_assoc. reflexivity.
Qed.

Lemma range_rejected_not_sent E u w notice start end_date :
  report_sent E u w start end_date <> range_rejected w notice.
Proof.
  unfold report_sent, range_rejected. intros H. injection H as _ H.
  apply app_inv_head in H. discriminate.
Qed.

(** C4. With a start date stored, selecting an end date is rejected with a
    notice and nothing else changed exactly when it is before the start or
    more than 365 days after it; otherwise the report for (start, end) is
    sent and the two range keys leave the context.  2024-06-10..2024-06-01
    and 2024-01-01..2025-06-01 are rejected, 2024-01-01..2024-06-01 (152
    days) is accepted. *)
Theorem report_range_end E u w ys ms ds y m d fmt :
  db_up E = true ->
  Cal.valid_date ys ms ds = true -> 1000 <= ys ->
  Cal.valid_date y m d = true -> 1000 <= y ->
  user_data w !! "report_start_date" = Some (VStr (Cal.iso ys ms ds)) ->
  user_data w !! "report_start_date_formatted" = Some fmt ->
  let start := Cal.mkdate ys ms ds in
  let end_date := Cal.mkdate y m d in
  let r := handle_report_calendar E u (select_token "report_cal_" y m d) w in
  let before := Cal.date_ltb end_date start = true in
  let too_long := 365 < Cal.days_between end_date start in
  (before -> r = range_rejected w END_BEFORE_START)
  /\ (~ before -> too_long -> r = range_rejected w PERIOD_TOO_LONG)
  /\ (~ before -> ~ too_long ->
      r = report_sent E u w (VStr (Cal.iso ys ms ds)) (Cal.iso y m d))
  /\ ((exists notice, r = range_rejected w notice) <-> before \/ too_long)
  /\ (check_range "2024-06-10" "2024-06-01" = RangeRejected END_BEFORE_START
      /\ check_range "2024-01-01" "2025-06-01" = RangeRejected PERIOD_TOO_LONG
      /\ check_range "2024-01-01" "2024-06-01" = RangeOk
      /\ Cal.days_between (Cal.mkdate 2024 6 1) (Cal.mkdate 2024 1 1) = 152).
Proof.
  intros Hup Hs Hys He Hy Hstart Hfmt start end_date r before too_long.
  pose proof (handle_report_calendar_end E u w ys ms ds y m d fmt
                Hup Hs Hys He Hy Hstart Hfmt) as Hr.
  fold start end_date r in Hr. subst before too_long.
  assert (Hex : check_range "2024-06-10" "2024-06-01" = RangeRejected END_BEFORE_START
                /\ check_range "2024-01-01" "2025-06-01" = RangeRejected PERIOD_TOO_LONG
                /\ check_range "2024-01-01" "2024-06-01" = RangeOk
                /\ Cal.days_between (Cal.mkdate 2024 6 1) (Cal.mkdate 2024 1 1) = 152)
    by (repeat split; vm_compute; reflexivity).
  destruct (Cal.date_ltb end_date start) eqn:Hlt.
  - split; [intros _; exact Hr |].
    split; [intros Hn; exfalso; apply Hn; reflexivity |].
    split; [intros Hn; exfalso; apply Hn; reflexivity |].
    split; [| exact Hex].
    split; [intros _; left; reflexivity | intros _; eexists; exact Hr].
  - destruct (Z.ltb_spec 365 (Cal.days_between end_date start)) as [Hlong | Hshort].
    + split; [intros Hb; discriminate |].
      split; [intros _ _; exact Hr |].
      split; [intros _ Hn; contradiction |].
      split; [| exact Hex].
      split; [intros _; right; exact Hlong | intros _; eexists; exact Hr].
    + split; [intros Hb; discriminate |].
      split; [intros _ Hl; lia |].
      split; [intros _ _; exact Hr |].
      split; [| exact Hex].
      split.
      * intros (notice & Hn). rewrite Hr in Hn.
        exfalso. exact (range_rejected_not_sent _ _ _ _ _ _ Hn).
      * intros [Hb | Hl]; [discriminate | lia].
Qed.

Lemma report_range_end_witness :
  handle_report_calendar sample_env (button_press 7 "x")
    (select_token "report_cal_" 2024 6 1) range_start_world
  = report_sent sample_env (button_press 7 "x") range_start_world
      (VStr (Cal.iso 2024 1 1)) (Cal.iso 2024 6 1).
Proof.
  apply (report_range_end sample_env (button_press 7 "x") range_start_world
           2024 1 1 2024 6 1 (VStr "01.01.2024")
           eq_refl eq_refl ltac:(lia) eq_refl ltac:(lia) eq_refl eq_refl).
  - vm_compute. discriminate.
  - vm_compute. discriminate.
Defined.

(** ** Reports on behalf of another user *)

Lemma handle_report_direct E u w data name :
  In (data, name) direct_reports -> db_up E = true ->
  handle_report E u data w
  = (Ok RNone,
     World (user_data w) (db w)
       (calls w ++ [answer None;
                    reply_text (Lit (report E name [effective_target w (effective_user u)]))
                      None])).
Proof.
  intros Hin Hup. unfold direct_reports in Hin. cbn [In] in Hin.
  unfold effective_target.
  destruct Hin as [H | [H | [H | [H | [H | []]]]]]; injection H as <- <-;
    unfold handle_report, target_user, collaborator;
    match goal with
    | |- context [Py.split "_" ?s] =>
        let l := eval vm_compute in (Py.split "_" s) in
        change (Py.split "_" s) with l
    end;
    mrun; cbn [lookup list_lookup]; mrun;
    repeat match goal with
           | |- context [String.eqb ?a ?b] =>
               let v := eval vm_compute in (String.eqb a b) in
               change (String.eqb a b) with v
           end;
    mrun; rewrite Hup; mrun; rewrite <- app_assoc; reflexivity.
Qed.

Lemma export_user_csv_run E u w :
  db_up E = true ->
  export_user_csv E u w
  = (Ok RNone,
     World (user_data w) (db w)
       (calls w ++ [send_document
                      (Fmt "timetrack_{}_{}.csv" [effective_target w (effective_user u)])
                      (csv_caption (effective_target w (effective_user u))
                                   (effective_user u));
                    answer (Some (Lit "✅ CSV файл отправлен!"))])).
Proof.
  intros Hup. unfold export_user_csv, target_user, collaborator, effective_target.
  mrun. rewrite Hup. mrun.
  rewrite <- app_assoc. reflexivity.
Qed.

(** C10. When a custom-range report completes, the context loses exactly
    the keys [report_start_date] and [report_start_date_formatted]; every
    other key keeps its value.  In particular [admin_target_user_id]
    survives, and the reports and the CSV export requested next are made for
    that user and not for the acting one. *)
Theorem report_completion_frame E u w ys ms ds y m d fmt :
  db_up E = true ->
  Cal.valid_date ys ms ds = true -> 1000 <= ys ->
  Cal.valid_date y m d = true -> 1000 <= y ->
  user_data w !! "report_start_date" = Some (VStr (Cal.iso ys ms ds)) ->
  user_data w !! "report_start_date_formatted" = Some fmt ->
  Cal.date_ltb (Cal.mkdate y m d) (Cal.mkdate ys ms ds) = false ->
  Cal.days_between (Cal.mkdate y m d) (Cal.mkdate ys ms ds) <= 365 ->
  let w' := snd (handle_report_calendar E u (select_token "report_cal_" y m d) w) in
  user_data w' !! "report_start_date" = None
  /\ user_data w' !! "report_start_date_formatted" = None
  /\ (forall k, k <> "report_start_date" -> k <> "report_start_date_formatted" ->
                user_data w' !! k = user_data w !! k)
  /\ db w' = db w
  /\ (forall t, user_data w !! "admin_target_user_id" = Some t ->
        user_data w' !! "admin_target_user_id" = Some t
        /\ (forall E' u' data name,
              In (data, name) direct_reports -> db_up E' = true ->
              handle_report E' u' data w'
              = (Ok RNone,
                 World (user_data w') (db w')
                   (calls w' ++ [answer None;
                                 reply_text (Lit (report E' name [t])) None])))
        /\ (forall E' u', db_up E' = true ->
              export_user_csv E' u' w'
              = (Ok RNone,
                 World (user_data w') (db w')
                   (calls w' ++ [send_document (Fmt "timetrack_{}_{}.csv" [t])
                                   (csv_caption t (effective_user u'));
                                 answer (Some (Lit "✅ CSV файл отправлен!"))])))).
Proof.
  intros Hup Hs Hys He Hy Hstart Hfmt Hlt Hspan w'.
  pose proof (handle_report_calendar_end E u w ys ms ds y m d fmt
                Hup Hs Hys He Hy Hstart Hfmt) as Hr.
  rewrite Hlt in Hr.
  replace (365 <? Cal.days_between (Cal.mkdate y m d) (Cal.mkdate ys ms ds)) with false in Hr
    by (symmetry; apply Z.ltb_ge; exact Hspan).
  assert (Hud : user_data w' = delete "report_start_date_formatted"
                                 (delete "report_start_date" (user_data w))).
  { subst w'. rewrite Hr. reflexivity. }
  assert (Hdb : db w' = db w) by (subst w'; rewrite Hr; reflexivity).
  assert (Hkeep : forall k, k <> "report_start_date" -> k <> "report_start_date_formatted" ->
                            user_data w' !! k = user_data w !! k).
  { intros k H1 H2. rewrite Hud.
    rewrite lookup_delete_ne by congruence. rewrite lookup_delete_ne by congruence.
    reflexivity. }
  split; [rewrite Hud; rewrite lookup_delete_ne by discriminate; apply lookup_delete_eq |].
  split; [rewrite Hud; apply lookup_delete_eq |].
  split; [exact Hkeep |].
  split; [exact Hdb |].
  intros t Ht.
  assert (Ht' : user_data w' !! "admin_target_user_id" = Some t)
    by (rewrite Hkeep by discriminate; exact Ht).
  split; [exact Ht' |]. split.
  - intros E' u' data name Hin Hup'.
    rewrite (handle_report_direct E' u' w' data name Hin Hup').
    unfold effective_target. rewrite Ht'. reflexivity.
  - intros E' u' Hup'. rewrite (export_user_csv_run E' u' w' Hup').
    unfold effective_target. rewrite Ht'. reflexivity.
Qed.

Lemma report_completion_frame_witness :
  user_data (snd (handle_report_calendar sample_env (button_press 1 "x")
                    (select_token "report_cal_" 2024 6 1) range_start_world))
    !! "admin_target_user_id" = Some (VInt 9).
Proof.
  apply (report_completion_frame sample_env (button_press 1 "x") range_start_world
           2024 1 1 2024 6 1 (VStr "01.01.2024")
           eq_refl eq_refl ltac:(lia) eq_refl ltac:(lia) eq_refl eq_refl eq_refl
           ltac:(vm_compute; discriminate)).
  reflexivity.
Defined.

(** ** Hours typed by hand *)

Lemma handle_hours_input_run msg w :
  handle_hours_input msg w
  = match Py.float (Py.replace "," "." msg) with
    | None => hours_retry w HOURS_BAD_FORMAT
    | Some h =>
        if Py.float_le h (Py.float_of_Z 0) || Py.float_gt h (Py.float_of_Z 24)
        then hours_retry w HOURS_OUT_OF_RANGE
        else match user_data w !! "selected_project_name" with
             | Some name => hours_stored w name h
             | None => (Raise (KeyError "selected_project_name"),
                        World (<["selected_hours" := VFloat h]> (user_data w))
                              (db w) (calls w))
             end
    end.
Proof.
  unfold handle_hours_input, try_except_ValueError. mrun.
  destruct (Py.float _) as [h |]; [| mrun; reflexivity].
  destruct (Py.float_le h _ || Py.float_gt h _); mrun; [reflexivity |].
  rewrite lookup_insert_ne by discriminate.
  destruct (user_data w !! "selected_project_name"); mrun; reflexivity.
Qed.

(** A float compares as a number in (0, 24] or fails one of the two tests
    of the handler, unless it is a NaN, which passes both tests. *)
Lemma hours_tests h :
  (Py.float_le h (Py.float_of_Z 0) || Py.float_gt h (Py.float_of_Z 24))
  = negb (hours_in_range h) && negb (match h with S754_nan => true | _ => false end).
Proof.
  unfold hours_in_range, Py.float_le, Py.float_gt, SFleb, SFltb.
  destruct h as [s | s | | s mh eh]; try (destruct s; reflexivity).
  - reflexivity.
  - change (Py.float_of_Z 0) with (S754_zero false).
    change (Py.float_of_Z 24) with (S754_finite false 6755399441055744 (-48)).
    destruct s; cbn [SFcompare]; [reflexivity |].
    rewrite (Z.compare_antisym (-48) eh).
    destruct (-48 ?= eh) eqn:He; cbn [CompOpp]; try reflexivity.
    replace (Pos.compare_cont Eq mh 6755399441055744)
      with (CompOpp (Pos.compare_cont Eq 6755399441055744 mh))
      by (rewrite Pos.compare_cont_antisym; reflexivity).
    destruct (Pos.compare_cont Eq 6755399441055744 mh); reflexivity.
Qed.

(** C8 (the code departs from the claim). The text [nan] parses to a float
    that is no number in (0, 24], yet both range tests of the handler are
    false on it: it is stored as [selected_hours] and the wizard moves on to
    the description step. *)
Theorem hours_input_accepts_nan w name :
  user_data w !! "selected_project_name" = Some name ->
  Py.float (Py.replace "," "." "nan") = Some S754_nan
  /\ hours_in_range S754_nan = false
  /\ handle_hours_input "nan" w = hours_stored w name S754_nan.
Proof.
  intros Hname. split; [reflexivity |]. split; [reflexivity |].
  rewrite handle_hours_input_run.
  change (Py.float (Py.replace "," "." "nan")) with (Some S754_nan).
  cbv iota. change (Py.float_le S754_nan (Py.float_of_Z 0)) with false.
  change (Py.float_gt S754_nan (Py.float_of_Z 24)) with false.
  cbn [orb]. rewrite Hname. reflexivity.
Qed.

Lemma hours_input_accepts_nan_witness :
  handle_hours_input "nan" wizard_world = hours_stored wizard_world (VStr "Dev") S754_nan.
Proof.
  apply (hours_input_accepts_nan wizard_world (VStr "Dev")). reflexivity.
Defined.

(** What the handler does on every other input: a text that [float()]
    refuses, or a number outside (0, 24], gets a notice and leaves the
    context alone; a number in (0, 24] is stored. *)
Lemma hours_input_numbers msg w :
  match Py.float (Py.replace "," "." msg) with
  | None => handle_hours_input msg w = hours_retry w HOURS_BAD_FORMAT
  | Some S754_nan => True
  | Some h =>
      if hours_in_range h
      then forall name, user_data w !! "selected_project_name" = Some name ->
                        handle_hours_input msg w = hours_stored w name h
      else handle_hours_input msg w = hours_retry w HOURS_OUT_OF_RANGE
  end.
Proof.
  rewrite handle_hours_input_run.
  destruct (Py.float _) as [h |]; [| reflexivity].
  rewrite hours_tests.
  destruct h as [s | s | | s mh eh]; try exact I;
    (destruct (hours_in_range _); cbn [negb andb];
     [intros name Hname; rewrite Hname; reflexivity | reflexivity]).
Qed.

(** ** Saving the entry *)

Lemma run_add_time_entry E {B} uid pid hours description date (k : unit -> M B) w :
  (add_time_entry E uid pid hours description date ≫= k) w
  = let row := new_entry (db w) uid pid hours description date in
    if db_up E && row_ok E row
    then k tt (World (user_data w) (insert_entry row (db w)) (calls w))
    else (Raise DatabaseError, w).
Proof.
  rewrite bind_unfold. unfold add_time_entry. cbv zeta.
  destruct (db_up E && row_ok E _); reflexivity.
Qed.

Lemma date_token_split s : Py.split1 "_" ("date_" +:+ s) = ["date"; s].
Proof. reflexivity. Qed.

Lemma date_token_custom s :
  s <> "custom" -> String.eqb ("date_" +:+ s) "date_custom" = false.
Proof.
  intros Hs. change (String.eqb ("date_" +:+ s) "date_custom") with (String.eqb s "custom").
  apply String.eqb_neq. exact Hs.
Qed.

Lemma select_date_commit E u w s pid hours :
  s <> "custom" ->
  user_data w !! "selected_project_id" = Some pid ->
  user_data w !! "selected_hours" = Some hours ->
  select_date E u ("date_" +:+ s) w
  = let row := new_entry (db w) (effective_user u) pid hours
                 (default VNone (user_data w !! "description")) s in
    if db_up E && row_ok E row then
      let saved := World (user_data w) (insert_entry row (db w)) (calls w) in
      match Cal.strptime s with
      | None => (Raise ValueError, saved)
      | Some date_obj =>
          match user_data w !! "selected_project_name" with
          | None => (Raise (KeyError "selected_project_name"), saved)
          | Some name => entry_saved E u w name s (dmy date_obj)
          end
      end
    else (Raise DatabaseError, w).
Proof.
  intros Hs Hpid Hhours. unfold select_date.
  rewrite (date_token_custom s Hs), date_token_split.
  mrun. cbn [lookup list_lookup]. mrun. rewrite Hpid. mrun. rewrite Hhours. mrun.
  rewrite run_add_time_entry. cbv zeta.
  destruct (db_up E && row_ok E _); [| reflexivity].
  mrun. destruct (Cal.strptime s); [| reflexivity].
  mrun. destruct (user_data w !! "selected_project_name"); [| reflexivity].
  mrun. unfold entry_saved. rewrite Hpid, Hhours. cbn [default].
  rewrite <- app_assoc. reflexivity.
Qed.

Lemma cal_select_split y m d :
  Py.split "_" (select_token "cal_" y m d)
  = ["cal"; "select"; Py.str y; Py.str m; Py.str d].
Proof.
  unfold select_token.
  change (Py.split "_" _)
    with (Py.split "_" ("cal" +:+ String "_" ("select" +:+ String "_"
            (Py.str y +:+ String "_" (Py.str m +:+ String "_" (Py.str d)))))).
  rewrite !split_segment by reflexivity. rewrite split_three. reflexivity.
Qed.

Lemma handle_calendar_commit E u w y m d pid hours :
  user_data w !! "selected_project_id" = Some pid ->
  user_data w !! "selected_hours" = Some hours ->
  handle_calendar E u (select_token "cal_" y m d) w
  = let row := new_entry (db w) (effective_user u) pid hours
                 (default VNone (user_data w !! "description")) (Cal.iso y m d) in
    if db_up E && row_ok E row then
      match user_data w !! "selected_project_name" with
      | None => (Raise (KeyError "selected_project_name"),
                 World (user_data w) (insert_entry row (db w)) (calls w))
      | Some name =>
          entry_saved E u w name (Cal.iso y m d)
            (Py.fmt02d d +:+ "." +:+ Py.fmt02d m +:+ "." +:+ Py.str y)
      end
    else (Raise DatabaseError, w).
Proof.
  intros Hpid Hhours. unfold handle_calendar.
  change (String.eqb (select_token "cal_" y m d) "cal_ignore") with false.
  change (Py.startswith (select_token "cal_" y m d) "cal_prev_") with false.
  change (Py.startswith (select_token "cal_" y m d) "cal_next_") with false.
  change (Py.startswith (select_token "cal_" y m d) "cal_select_") with true.
  cbn [orb]. rewrite cal_select_split.
  rewrite (item_int_run _ 2 (Py.str y) y) by (reflexivity || apply int_str).
  rewrite (item_int_run _ 3 (Py.str m) m) by (reflexivity || apply int_str).
  rewrite (item_int_run _ 4 (Py.str d) d) by (reflexivity || apply int_str).
  mrun. rewrite Hpid. mrun. rewrite Hhours. mrun.
  rewrite run_add_time_entry. cbv zeta.
  destruct (db_up E && row_ok E _); [| reflexivity].
  mrun. destruct (user_data w !! "selected_project_name"); [| reflexivity].
  mrun. unfold entry_saved. rewrite Hpid, Hhours. cbn [default].
  rewrite <- app_assoc. reflexivity.
Qed.

(** C2 (the code departs from the claim). When the insert of the entry
    fails, neither commit transition catches the failure: the exception
    leaves the handler, nothing is rendered, the context keeps every wizard
    field and the conversation stays in SELECTING_DATE.  (When the insert
    succeeds the context is cleared, see [select_date_commit] and
    [handle_calendar_commit].) *)
Theorem commit_failure_propagates E uid w s y m d pid hours :
  db_up E = false ->
  s <> "custom" ->
  user_data w !! "selected_project_id" = Some pid ->
  user_data w !! "selected_hours" = Some hours ->
  select_date E (button_press uid ("date_" +:+ s)) ("date_" +:+ s) w
  = (Raise DatabaseError, w)
  /\ handle_calendar E (button_press uid (select_token "cal_" y m d))
       (select_token "cal_" y m d) w
     = (Raise DatabaseError, w)
  /\ process_update E (Some SELECTING_DATE) (button_press uid ("date_" +:+ s)) w
     = {| conversation := Some SELECTING_DATE; after := w;
          by_wizard := Some (Raise DatabaseError) |}
  /\ process_update E (Some SELECTING_DATE)
       (button_press uid (select_token "cal_" y m d)) w
     = {| conversation := Some SELECTING_DATE; after := w;
          by_wizard := Some (Raise DatabaseError) |}.
Proof.
  intros Hdown Hs Hpid Hhours.
  assert (H1 : select_date E (button_press uid ("date_" +:+ s)) ("date_" +:+ s) w
               = (Raise DatabaseError, w)).
  { rewrite (select_date_commit E _ w s pid hours Hs Hpid Hhours).
    cbv zeta. rewrite Hdown. reflexivity. }
  assert (H2 : handle_calendar E (button_press uid (select_token "cal_" y m d))
                 (select_token "cal_" y m d) w
               = (Raise DatabaseError, w)).
  { rewrite (handle_calendar_commit E _ w y m d pid hours Hpid Hhours).
    cbv zeta. rewrite Hdown. reflexivity. }
  split; [exact H1 |]. split; [exact H2 |]. split.
  - unfold process_update, is_command.
    change (body (button_press uid ("date_" +:+ s))) with (Callback ("date_" +:+ s)).
    cbv iota.
    change (wizard E (Some SELECTING_DATE) (button_press uid ("date_" +:+ s)))
      with (Some (select_date E (button_press uid ("date_" +:+ s)) ("date_" +:+ s))).
    cbv iota. rewrite H1. reflexivity.
  - unfold process_update, is_command.
    change (body (button_press uid (select_token "cal_" y m d)))
      with (Callback (select_token "cal_" y m d)).
    cbv iota.
    change (wizard E (Some SELECTING_DATE) (button_press uid (select_token "cal_" y m d)))
      with (Some (handle_calendar E (button_press uid (select_token "cal_" y m d))
                    (select_token "cal_" y m d))).
    cbv iota. rewrite H2. reflexivity.
Qed.

Lemma commit_failure_propagates_witness :
  select_date offline_env (button_press 7 ("date_" +:+ "2024-06-15"))
    ("date_" +:+ "2024-06-15") date_world
  = (Raise DatabaseError, date_world).
Proof.
  apply (commit_failure_propagates offline_env 7 date_world "2024-06-15" 2024 6 15
           (VInt 1) (VFloat (Py.float_of_Z 2)) eq_refl ltac:(discriminate) eq_refl eq_refl).
Defined.

(** With the database at hand the same press saves the entry and clears the
    context. *)
Lemma commit_success_example :
  select_date sample_env (button_press 7 "date_2024-06-15") "date_2024-06-15" date_world
  = entry_saved sample_env (button_press 7 "date_2024-06-15") date_world
      (VStr "Dev") "2024-06-15" "15.06.2024".
Proof.
  rewrite (select_date_commit sample_env _ date_world "2024-06-15"
             (VInt 1) (VFloat (Py.float_of_Z 2)) ltac:(discriminate) eq_refl eq_refl).
  reflexivity.
Qed.

(** ** Banned users *)

Lemma run_is_banned E {B} uid (k : bool -> M B) w :
  db_up E = true ->
  (check_user_ban E uid ≫= k) w = k (banned_in (db w) uid) w.
Proof.
  intros Hup. unfold check_user_ban, is_banned. rewrite run_select, Hup. reflexivity.
Qed.

Lemma button_handler_banned E u data w :
  db_up E = true -> banned_in (db w) (effective_user u) = true ->
  Py.startswith data "admin_" = false ->
  button_handler E u data w
  = only_sends w RNone [answer (Some BANNED_SHORT); edit_message_text BANNED None].
Proof.
  intros Hup Hban Hadm. unfold button_handler. rewrite Hadm. cbn [negb]. cbv iota.
  rewrite (run_is_banned E _ _ _ Hup), Hban. mrun.
  unfold only_sends. rewrite <- app_assoc. reflexivity.
Qed.

Lemma handle_text_message_banned E u msg w :
  db_up E = true -> banned_in (db w) (effective_user u) = true ->
  handle_text_message E u msg w = only_sends w RNone [reply_text BANNED None].
Proof.
  intros Hup Hban. unfold handle_text_message.
  rewrite (run_is_banned E _ _ _ Hup), Hban. mrun. reflexivity.
Qed.

Lemma start_add_hours_banned E u w :
  db_up E = true -> banned_in (db w) (effective_user u) = true ->
  start_add_hours E u w
  = only_sends w REND [if is_callback u then edit_message_text BANNED None
                       else reply_text BANNED None].
Proof.
  intros Hup Hban. unfold start_add_hours.
  rewrite (run_is_banned E _ _ _ Hup), Hban. unfold respond.
  destruct (is_callback u); mrun; reflexivity.
Qed.

(** C9, as the code has it. A banned user whose non-admin action reaches
    [button_handler], [handle_text_message] or [start_add_hours] gets the ban
    notice and nothing else happens: the context is left as it was, not
    cleared.  [start_add_hours] ends the conversation; the two dispatchers
    leave the conversation in its state. *)
Theorem banned_user_notice E u w :
  db_up E = true -> banned_in (db w) (effective_user u) = true ->
  (forall data, Py.startswith data "admin_" = false ->
     button_handler E u data w
     = only_sends w RNone [answer (Some BANNED_SHORT); edit_message_text BANNED None])
  /\ (forall msg, handle_text_message E u msg w = only_sends w RNone [reply_text BANNED None])
  /\ start_add_hours E u w
     = only_sends w REND [if is_callback u then edit_message_text BANNED None
                          else reply_text BANNED None]
  /\ (forall st data,
        body u = Callback data -> Py.startswith data "admin_" = false ->
        wizard E st u = None ->
        process_update E st u w
        = {| conversation := st;
             after := World (user_data w) (db w)
                        (calls w ++ [answer (Some BANNED_SHORT);
                                     edit_message_text BANNED None]);
             by_wizard := None |}).
Proof.
  intros Hup Hban.
  split; [intros data Hadm; apply button_handler_banned; assumption |].
  split; [intros msg; apply handle_text_message_banned; assumption |].
  split; [apply start_add_hours_banned; assumption |].
  intros st data Hbody Hadm Hwiz. unfold process_update, is_command.
  rewrite Hbody, Hwiz. cbv iota.
  rewrite (button_handler_banned E u data w Hup Hban Hadm).
  reflexivity.
Qed.

Lemma banned_user_notice_witness :
  button_handler sample_env (button_press 9 "my_entries") "my_entries" leftover_world
  = only_sends leftover_world RNone
      [answer (Some BANNED_SHORT); edit_message_text BANNED None].
Proof.
  apply (banned_user_notice sample_env (button_press 9 "my_entries") leftover_world
           eq_refl eq_refl).
  reflexivity.
Defined.

(** C9, as the claim has it, fails: after the ban notice the context still
    holds the wizard field, and inside the wizard a banned user's project
    choice is accepted without any ban check. *)
Lemma banned_user_counterexample :
  banned_in sample_db 9 = true
  /\ user_data (snd (button_handler sample_env (button_press 9 "my_entries") "my_entries"
                       leftover_world)) !! "selected_project_id" = Some (VInt 1)
  /\ conversation (process_update sample_env (Some SELECTING_PROJECT)
                     (button_press 9 "project_1") (sample_world ∅))
     = Some ENTERING_HOURS.
Proof.
  split; [reflexivity |]. split; vm_compute; reflexivity.
Qed.

(** ** What every handler does to the context

    [P] is any relation between contexts that is reflexive and transitive,
    holds across every assignment of a key other than the project name,
    across the removal of a range key and across [clear()], and is
    respected by [select_project].  Then it holds across every handler and
    across a whole update. *)

Create HintDb frame discriminated.

Section Frame.

Variable P : gmap string pyval -> gmap string pyval -> Prop.
Hypothesis P_refl : forall m, P m m.
Hypothesis P_trans : forall a b c, P a b -> P b c -> P a c.
Hypothesis P_set : forall m k v, k <> "selected_project_name" -> P m (<[k := v]> m).
Hypothesis P_pop : forall m k,
  k = "report_start_date" \/ k = "report_start_date_formatted" -> P m (delete k m).
Hypothesis P_clear : forall m, P m ∅.
Hypothesis P_project : forall E data, rel P (select_project E data).

Lemma rel_ret {A} (a : A) : rel P (mret a : M A).
Proof. intros w. apply P_refl. Qed.

Lemma rel_raise {A} e : rel P (raise e : M A).
Proof. intros w. apply P_refl. Qed.

Lemma rel_bind {A B} (m : M A) (k : A -> M B) :
  rel P m -> (forall a, rel P (k a)) -> rel P (m ≫= k).
Proof.
  intros Hm Hk w. rewrite bind_unfold. specialize (Hm w).
  destruct (m w) as [[a | e] w1]; cbn [snd] in *; [| exact Hm].
  eapply P_trans; [exact Hm | apply Hk].
Qed.

Lemma rel_emit c : rel P (emit c).
Proof. intros w. apply P_refl. Qed.

Lemma rel_ud_get k : rel P (ud_get k).
Proof. intros w. apply P_refl. Qed.

Lemma rel_ud_item k : rel P (ud_item k).
Proof. intros w. unfold ud_item. destruct (user_data w !! k); apply P_refl. Qed.

Lemma rel_ud_set k v : k <> "selected_project_name" -> rel P (ud_set k v).
Proof. intros Hk w. apply P_set. exact Hk. Qed.

Lemma rel_ud_pop k :
  k = "report_start_date" \/ k = "report_start_date_formatted" -> rel P (ud_pop k).
Proof. intros Hk w. apply P_pop. exact Hk. Qed.

Lemma rel_ud_clear : rel P ud_clear.
Proof. intros w. apply P_clear. Qed.

Lemma rel_lift {A} e (o : option A) : rel P (lift_option e o).
Proof. destruct o; [apply rel_ret | apply rel_raise]. Qed.

Lemma rel_select E {A} (f : database -> A) : rel P (select E f).
Proof. intros w. unfold select. destruct (db_up E); apply P_refl. Qed.

Lemma rel_execute E f : rel P (execute E f).
Proof. intros w. unfold execute. destruct (db_up E); apply P_refl. Qed.

Lemma rel_add_time_entry E uid pid hours description date :
  rel P (add_time_entry E uid pid hours description date).
Proof.
  intros w. unfold add_time_entry. cbv zeta.
  destruct (db_up E && row_ok E _); apply P_refl.
Qed.

Lemma rel_try {A} (m h : M A) : rel P m -> rel P h -> rel P (try_except m h).
Proof.
  intros Hm Hh w. unfold try_except. specialize (Hm w).
  destruct (m w) as [[a | e] w1]; cbn [snd] in *; [exact Hm |].
  eapply P_trans; [exact Hm | apply Hh].
Qed.

Lemma rel_try_ValueError {A} (m h : M A) :
  rel P m -> rel P h -> rel P (try_except_ValueError m h).
Proof.
  intros Hm Hh w. unfold try_except_ValueError. specialize (Hm w).
  destruct (m w) as [[a | []] w1]; cbn [snd] in *; try exact Hm.
  eapply P_trans; [exact Hm | apply Hh].
Qed.

Ltac frame :=
  repeat match goal with
    | |- rel P (mret _) => apply rel_ret
    | |- rel P (raise _) => apply rel_raise
    | |- rel P (_ ≫= _) => apply rel_bind; [| intros ?]
    | |- rel P (emit _) => apply rel_emit
    | |- rel P (ud_get _) => apply rel_ud_get
    | |- rel P (ud_item _) => apply rel_ud_item
    | |- rel P (ud_set _ _) => apply rel_ud_set; discriminate
    | |- rel P (ud_pop _) => apply rel_ud_pop; auto
    | |- rel P ud_clear => apply rel_ud_clear
    | |- rel P (lift_option _ _) => apply rel_lift
    | |- rel P (item _ _) => apply rel_lift
    | |- rel P (int _) => apply rel_lift
    | |- rel P (float _) => apply rel_lift
    | |- rel P (select _ _) => apply rel_select
    | |- rel P (execute _ _) => apply rel_execute
    | |- rel P (add_time_entry _ _ _ _ _ _) => apply rel_add_time_entry
    | |- rel P (try_except _ _) => apply rel_try
    | |- rel P (try_except_ValueError _ _) => apply rel_try_ValueError
    | |- rel P (select_project _ _) => apply P_project
    | |- rel P (let _ := _ in _) => cbv zeta
    | |- rel P ((fun _ => _) _) => cbv beta
    | |- rel P (match ?x with _ => _ end) => destruct x
    | |- rel P _ => solve [auto with frame]
    end.

Lemma respond_rel u t kb : rel P (respond u t kb).
Proof. unfold respond. frame. Qed.
#[local] Hint Resolve respond_rel : frame.

Lemma is_banned_rel E uid : rel P (is_banned E uid).
Proof. unfold is_banned. frame. Qed.
#[local] Hint Resolve is_banned_rel : frame.

Lemma check_user_ban_rel E uid : rel P (check_user_ban E uid).
Proof. unfold check_user_ban. frame. Qed.
#[local] Hint Resolve check_user_ban_rel : frame.

Lemma is_admin_rel E uid : rel P (is_admin E uid).
Proof. unfold is_admin. frame. Qed.
#[local] Hint Resolve is_admin_rel : frame.

Lemma register_user_rel E uid : rel P (register_user E uid).
Proof. unfold register_user. frame. Qed.
#[local] Hint Resolve register_user_rel : frame.

Lemma get_projects_rel E : rel P (get_projects E).
Proof. unfold get_projects. frame. Qed.
#[local] Hint Resolve get_projects_rel : frame.

Lemma get_user_entries_rel E uid limit : rel P (get_user_entries E uid limit).
Proof. unfold get_user_entries, limit_offset. frame. Qed.
#[local] Hint Resolve get_user_entries_rel : frame.

Lemma get_user_entries_paginated_rel E uid limit offset :
  rel P (get_user_entries_paginated E uid limit offset).
Proof. unfold get_user_entries_paginated, limit_offset. frame. Qed.
#[local] Hint Resolve get_user_entries_paginated_rel : frame.

Lemma delete_time_entry_rel E eid uid : rel P (delete_time_entry E eid uid).
Proof. unfold delete_time_entry. frame. Qed.
#[local] Hint Resolve delete_time_entry_rel : frame.

Lemma add_project_rel E name : rel P (add_project E name).
Proof. unfold add_project. frame. Qed.
#[local] Hint Resolve add_project_rel : frame.

Lemma get_projects_keyboard_rel E page ps : rel P (get_projects_keyboard E page ps).
Proof. unfold get_projects_keyboard. frame. Qed.
#[local] Hint Resolve get_projects_keyboard_rel : frame.

Lemma start_add_hours_rel E u : rel P (start_add_hours E u).
Proof. unfold start_add_hours. frame. Qed.
#[local] Hint Resolve start_add_hours_rel : frame.

Lemma select_hours_rel data : rel P (select_hours data).
Proof. unfold select_hours. frame. Qed.
#[local] Hint Resolve select_hours_rel : frame.

Lemma handle_hours_input_rel msg : rel P (handle_hours_input msg).
Proof. unfold handle_hours_input. frame. Qed.
#[local] Hint Resolve handle_hours_input_rel : frame.

Lemma show_date_selection_rel E u : rel P (show_date_selection E u).
Proof. unfold show_date_selection. frame. Qed.
#[local] Hint Resolve show_date_selection_rel : frame.

Lemma handle_description_input_rel E u msg : rel P (handle_description_input E u msg).
Proof. unfold handle_description_input. frame. Qed.
#[local] Hint Resolve handle_description_input_rel : frame.

Lemma skip_description_rel E u : rel P (skip_description E u).
Proof. unfold skip_description. frame. Qed.
#[local] Hint Resolve skip_description_rel : frame.

Lemma handle_calendar_rel E u data : rel P (handle_calendar E u data).
Proof. unfold handle_calendar. frame. Qed.
#[local] Hint Resolve handle_calendar_rel : frame.

Lemma select_date_rel E u data : rel P (select_date E u data).
Proof. unfold select_date. frame. Qed.
#[local] Hint Resolve select_date_rel : frame.

Lemma handle_date_input_rel : rel P handle_date_input.
Proof. unfold handle_date_input. frame. Qed.
#[local] Hint Resolve handle_date_input_rel : frame.

Lemma show_my_entries_page_rel E u page : rel P (show_my_entries_page E u page).
Proof. unfold show_my_entries_page. frame. Qed.
#[local] Hint Resolve show_my_entries_page_rel : frame.

Lemma show_my_entries_rel E u : rel P (show_my_entries E u).
Proof. unfold show_my_entries. frame. Qed.
#[local] Hint Resolve show_my_entries_rel : frame.

Lemma handle_entries_pagination_rel E u data : rel P (handle_entries_pagination E u data).
Proof. unfold handle_entries_pagination. frame. Qed.
#[local] Hint Resolve handle_entries_pagination_rel : frame.

Lemma show_delete_menu_rel E u : rel P (show_delete_menu E u).
Proof. unfold show_delete_menu. frame. Qed.
#[local] Hint Resolve show_delete_menu_rel : frame.

Lemma confirm_delete_entry_rel E u data : rel P (confirm_delete_entry E u data).
Proof. unfold confirm_delete_entry. frame. Qed.
#[local] Hint Resolve confirm_delete_entry_rel : frame.

Lemma delete_entry_rel E u data : rel P (delete_entry E u data).
Proof. unfold delete_entry. frame. Qed.
#[local] Hint Resolve delete_entry_rel : frame.

Lemma show_delete_entries_from_page_rel E u data :
  rel P (show_delete_entries_from_page E u data).
Proof. unfold show_delete_entries_from_page. frame. Qed.
#[local] Hint Resolve show_delete_entries_from_page_rel : frame.

Lemma confirm_delete_entry_from_page_rel E u data :
  rel P (confirm_delete_entry_from_page E u data).
Proof. unfold confirm_delete_entry_from_page. frame. Qed.
#[local] Hint Resolve confirm_delete_entry_from_page_rel : frame.

Lemma delete_entry_from_page_rel E u data : rel P (delete_entry_from_page E u data).
Proof. unfold delete_entry_from_page. frame. Qed.
#[local] Hint Resolve delete_entry_from_page_rel : frame.

Lemma show_reports_menu_rel u : rel P (show_reports_menu u).
Proof. unfold show_reports_menu. frame. Qed.
#[local] Hint Resolve show_reports_menu_rel : frame.

Lemma show_user_reports_menu_rel E u target : rel P (show_user_reports_menu E u target).
Proof. unfold show_user_reports_menu. frame. Qed.
#[local] Hint Resolve show_user_reports_menu_rel : frame.

Lemma collaborator_rel E name args : rel P (collaborator E name args).
Proof. unfold collaborator. frame. Qed.
#[local] Hint Resolve collaborator_rel : frame.

Lemma show_custom_date_selection_rel E : rel P (show_custom_date_selection E).
Proof. unfold show_custom_date_selection. frame. Qed.
#[local] Hint Resolve show_custom_date_selection_rel : frame.

Lemma target_user_rel uid : rel P (target_user uid).
Proof. unfold target_user. frame. Qed.
#[local] Hint Resolve target_user_rel : frame.

Lemma handle_report_rel E u data : rel P (handle_report E u data).
Proof. unfold handle_report. frame. Qed.
#[local] Hint Resolve handle_report_rel : frame.

Lemma export_user_csv_rel E u : rel P (export_user_csv E u).
Proof. unfold export_user_csv. frame. Qed.
#[local] Hint Resolve export_user_csv_rel : frame.

Lemma as_str_rel v : rel P (as_str v).
Proof. unfold as_str. frame. Qed.
#[local] Hint Resolve as_str_rel : frame.

Lemma handle_report_calendar_rel E u data : rel P (handle_report_calendar E u data).
Proof. unfold handle_report_calendar. frame. Qed.
#[local] Hint Resolve handle_report_calendar_rel : frame.

Lemma show_admin_menu_rel E u : rel P (show_admin_menu E u).
Proof. unfold show_admin_menu. frame. Qed.
#[local] Hint Resolve show_admin_menu_rel : frame.

Lemma get_users_keyboard_rel E page : rel P (get_users_keyboard E page).
Proof. unfold get_users_keyboard. frame. Qed.
#[local] Hint Resolve get_users_keyboard_rel : frame.

Lemma get_user_detail_keyboard_rel E target : rel P (get_user_detail_keyboard E target).
Proof. unfold get_user_detail_keyboard. frame. Qed.
#[local] Hint Resolve get_user_detail_keyboard_rel : frame.

Lemma update_user_row_rel E target f : rel P (update_user_row E target f).
Proof. unfold update_user_row. frame. Qed.
#[local] Hint Resolve update_user_row_rel : frame.

Lemma toggle_user_admin_rel E target : rel P (toggle_user_admin E target).
Proof. unfold toggle_user_admin. frame. Qed.
#[local] Hint Resolve toggle_user_admin_rel : frame.

Lemma ban_user_rel E target : rel P (ban_user E target).
Proof. unfold ban_user. frame. Qed.
#[local] Hint Resolve ban_user_rel : frame.

Lemma unban_user_rel E target : rel P (unban_user E target).
Proof. unfold unban_user. frame. Qed.
#[local] Hint Resolve unban_user_rel : frame.

Lemma toggle_project_status_rel E pid : rel P (toggle_project_status E pid).
Proof. unfold toggle_project_status. frame. Qed.
#[local] Hint Resolve toggle_project_status_rel : frame.

Lemma show_user_card_rel E target : rel P (show_user_card E target).
Proof. unfold show_user_card. frame. Qed.
#[local] Hint Resolve show_user_card_rel : frame.

Lemma show_project_card_rel E pid : rel P (show_project_card E pid).
Proof. unfold show_project_card. frame. Qed.
#[local] Hint Resolve show_project_card_rel : frame.

Lemma confirm_delete_project_rel E u data arg : rel P (confirm_delete_project E u data arg).
Proof. unfold confirm_delete_project. frame. Qed.
#[local] Hint Resolve confirm_delete_project_rel : frame.

Lemma confirm_ban_user_rel E u target : rel P (confirm_ban_user E u target).
Proof. unfold confirm_ban_user. frame. Qed.
#[local] Hint Resolve confirm_ban_user_rel : frame.

Lemma delete_project_rel E u data : rel P (delete_project E u data).
Proof. unfold delete_project. frame. Qed.
#[local] Hint Resolve delete_project_rel : frame.

Lemma int_arg_rel action i : rel P (int_arg action i).
Proof. unfold int_arg. frame. Qed.
#[local] Hint Resolve int_arg_rel : frame.

Lemma handle_admin_rel E u data : rel P (handle_admin E u data).
Proof. unfold handle_admin. frame. Qed.
#[local] Hint Resolve handle_admin_rel : frame.

Lemma start_rel E u : rel P (start E u).
Proof. unfold start. frame. Qed.
#[local] Hint Resolve start_rel : frame.

Lemma show_help_rel u : rel P (show_help u).
Proof. unfold show_help. frame. Qed.
#[local] Hint Resolve show_help_rel : frame.

Lemma back_to_main_rel E u : rel P (back_to_main E u).
Proof. unfold back_to_main. frame. Qed.
#[local] Hint Resolve back_to_main_rel : frame.

Lemma handle_text_message_rel E u msg : rel P (handle_text_message E u msg).
Proof. unfold handle_text_message. frame. Qed.
#[local] Hint Resolve handle_text_message_rel : frame.

Lemma button_handler_rel E u data : rel P (button_handler E u data).
Proof. unfold button_handler. frame. Qed.
#[local] Hint Resolve button_handler_rel : frame.

(** Every callback the wizard can run. *)
Lemma wizard_rel E st u h : wizard E st u = Some h -> rel P h.
Proof.
  unfold wizard. intros H.
  destruct st as [[] |]; destruct (body u);
    repeat match type of H with
           | (if ?b then _ else _) = _ => destruct b
           end;
    try discriminate; injection H as <-; auto with frame.
Qed.

(** One update, whoever handles it. *)
Lemma process_update_rel E st u w :
  P (user_data w) (user_data (after (process_update E st u w))).
Proof.
  unfold process_update.
  destruct (is_command "start" u); [apply start_rel |].
  destruct (is_command "help" u); [apply show_help_rel |].
  destruct (wizard E st u) as [h |] eqn:Hw.
  - pose proof (wizard_rel E st u h Hw w) as Hh.
    destruct (h w) as [r w']. exact Hh.
  - destruct (body u); cbn [after].
    + apply button_handler_rel.
    + apply handle_text_message_rel.
    + apply P_refl.
Qed.

Lemma run_rel events : forall st w,
  P (user_data w) (user_data (snd (run st w events))).
Proof.
  induction events as [| [E u] events IH]; intros st w; cbn [run snd].
  - apply P_refl.
  - eapply P_trans; [apply (process_update_rel E st u w) | apply IH].
Qed.

End Frame.

(** ** The project name comes with the project id *)

Lemma keeps_id_refl m : keeps_id m m.
Proof. intros H. exact H. Qed.

Lemma keeps_id_trans a b c : keeps_id a b -> keeps_id b c -> keeps_id a c.
Proof. unfold keeps_id. auto. Qed.

Lemma keeps_id_set m k v : k <> "selected_project_name" -> keeps_id m (<[k := v]> m).
Proof.
  intros Hk Hm. unfold named_has_id, has in *.
  rewrite lookup_insert_ne by exact Hk. intros Hname.
  destruct (decide (k = "selected_project_id")) as [-> | Hid].
  - rewrite lookup_insert_eq. eauto.
  - rewrite lookup_insert_ne by exact Hid. auto.
Qed.

Lemma keeps_id_pop m k :
  k = "report_start_date" \/ k = "report_start_date_formatted" ->
  keeps_id m (delete k m).
Proof.
  intros Hk Hm. unfold named_has_id, has in *.
  destruct Hk as [-> | ->]; rewrite !lookup_delete_ne by discriminate; exact Hm.
Qed.

Lemma keeps_id_clear m : keeps_id m ∅.
Proof.
  intros _. unfold named_has_id, has. rewrite lookup_empty.
  intros [v Hv]. discriminate.
Qed.

Lemma named_has_id_with_id m v k w :
  k <> "selected_project_id" ->
  named_has_id (<[k := w]> (<["selected_project_id" := v]> m)).
Proof.
  intros Hk _. unfold has. rewrite lookup_insert_ne by exact Hk.
  rewrite lookup_insert_eq. eauto.
Qed.

Lemma select_project_keeps_id E data : rel keeps_id (select_project E data).
Proof.
  intros w. unfold select_project. mrun.
  destruct (Py.split "_" data !! 1%nat) as [arg |]; [| apply keeps_id_refl].
  mrun. destruct (Py.int arg) as [pid |]; [| apply keeps_id_refl].
  mrun.
  assert (Hid : keeps_id (user_data w) (<["selected_project_id" := VInt pid]> (user_data w)))
    by (apply keeps_id_set; discriminate).
  destruct (db_up E); [| exact Hid].
  destruct (find_project pid (db w)) as [row |]; cbn [fmap option_fmap option_map];
    mrun; [| exact Hid].
  intros _. apply named_has_id_with_id. discriminate.
Qed.

(** Across any run of the application the invariant is kept. *)
Lemma run_keeps_id events st w :
  named_has_id (user_data w) -> named_has_id (user_data (snd (run st w events))).
Proof.
  apply (run_rel keeps_id keeps_id_refl keeps_id_trans keeps_id_set keeps_id_pop
           keeps_id_clear select_project_keeps_id events st w).
Qed.

Lemma process_update_keeps_id E st u w :
  named_has_id (user_data w) ->
  named_has_id (user_data (after (process_update E st u w))).
Proof.
  apply (process_update_rel keeps_id keeps_id_refl keeps_id_trans keeps_id_set
           keeps_id_pop keeps_id_clear select_project_keeps_id E st u w).
Qed.

Lemma wizard_keeps_id E st u h w :
  wizard E st u = Some h ->
  named_has_id (user_data w) -> named_has_id (user_data (snd (h w))).
Proof.
  intros Hw.
  apply (wizard_rel keeps_id keeps_id_refl keeps_id_trans keeps_id_set
           keeps_id_clear select_project_keeps_id E st u h Hw w).
Qed.

(** ** What the wizard callbacks return *)

Lemma returns_bind {A} (m : M A) (k : A -> M retval) S :
  (forall a, returns S (k a)) -> returns S (m ≫= k).
Proof.
  intros Hk w. rewrite bind_unfold.
  destruct (m w) as [[a | e] w1]; [apply Hk | exact I].
Qed.

Lemma returns_ret (S : retval -> Prop) r : S r -> returns S (mret r).
Proof. intros Hr w. exact Hr. Qed.

Ltac returns_tac :=
  repeat match goal with
    | |- returns _ (_ ≫= _) => apply returns_bind; intros ?
    | |- returns _ (mret _) => apply returns_ret; unfold early; auto
    | |- returns _ (match ?x with _ => _ end) => destruct x
    end.

Lemma start_add_hours_early E u : returns early (start_add_hours E u).
Proof. unfold start_add_hours. returns_tac. Qed.

Lemma select_project_early E data : returns early (select_project E data).
Proof. unfold select_project. returns_tac. Qed.

Lemma back_to_main_early E u : returns early (back_to_main E u).
Proof. unfold back_to_main. returns_tac. Qed.

Lemma early_guarded h : returns early h -> guarded h.
Proof.
  intros Hh w. specialize (Hh w). unfold guard_post.
  destruct (fst (h w)) as [r | e]; [| exact I].
  destruct Hh as [-> | [-> | ->]]; exact I.
Qed.

Ltac has_field :=
  unfold has;
  solve [ eexists; eassumption
        | rewrite lookup_insert_eq; eexists; reflexivity ].

Ltac crunch :=
  repeat (mrun;
          try rewrite run_add_time_entry;
          match goal with
          | |- guard_post _ (match ?x with _ => _ end) => destruct x eqn:?
          | |- guard_post _ ((match ?x with _ => _ end) _) => destruct x eqn:?
          | |- guard_post _ ((match ?x with _ => _ end ≫= _) _) => destruct x eqn:?
          | |- guard_post _ (let _ := _ in _) => cbv zeta
          end);
  mrun;
  unfold guard_post; cbn [fst snd user_data];
  first [exact I | reflexivity | split; has_field].

Lemma select_hours_guarded data : guarded (select_hours data).
Proof. intros w. unfold select_hours. crunch. Qed.

Lemma handle_hours_input_guarded msg : guarded (handle_hours_input msg).
Proof.
  intros w. rewrite handle_hours_input_run.
  destruct (Py.float _) as [h |]; [| exact I].
  destruct (_ || _); [exact I |].
  destruct (user_data w !! "selected_project_name") as [name |] eqn:Hname;
    [| exact I].
  split; unfold has; cbn [snd hours_stored user_data].
  - rewrite lookup_insert_eq. eexists; reflexivity.
  - rewrite lookup_insert_ne by discriminate. rewrite Hname. eexists; reflexivity.
Qed.

Lemma show_date_selection_guarded E u : guarded (show_date_selection E u).
Proof. intros w. unfold show_date_selection, respond. crunch. Qed.

Lemma skip_description_guarded E u : guarded (skip_description E u).
Proof. intros w. unfold skip_description, show_date_selection, respond. crunch. Qed.

Lemma early_post h w w' : returns early h -> guard_post w (h w').
Proof.
  intros Hh. specialize (Hh w'). unfold guard_post.
  destruct (fst (h w')) as [r | e]; [| exact I].
  destruct Hh as [-> | [-> | ->]]; exact I.
Qed.

Lemma handle_description_input_guarded E u msg :
  guarded (handle_description_input E u msg).
Proof.
  intros w. unfold handle_description_input. mrun.
  destruct (is_str _ _).
  - apply early_post. returns_tac.
  - unfold show_date_selection, respond. crunch.
Qed.

Lemma select_date_guarded E u data : guarded (select_date E u data).
Proof. intros w. unfold select_date. crunch. Qed.

Lemma handle_calendar_guarded E u data : guarded (handle_calendar E u data).
Proof. intros w. unfold handle_calendar. crunch. Qed.

Lemma same_guarded h : returns (eq RNone) h -> rel eq h -> guarded h.
Proof.
  intros Hr He w. specialize (Hr w). specialize (He w). unfold guard_post.
  destruct (fst (h w)) as [r | e]; [| exact I].
  rewrite <- Hr. symmetry. exact He.
Qed.

Lemma start_guarded E u : guarded (start E u).
Proof.
  apply same_guarded.
  - unfold start. returns_tac.
  - apply start_rel; [reflexivity | intros a b c; apply eq_trans].
Qed.

Lemma handle_date_input_run w :
  handle_date_input w
  = (Ok (RState SELECTING_DATE),
     World (user_data w) (db w)
       (calls w ++ [reply_text (Lit "📅 Пожалуйста, используйте кнопки выбора даты выше или нажмите '🗓 Календарь' для выбора конкретной даты.") None])).
Proof. reflexivity. Qed.

(** Every callback of the conversation handler checks the fields before it
    answers with one of the two late states; the only exception is the text
    reminder of SELECTING_DATE, which stays where it is. *)
Lemma wizard_guarded E st u h :
  wizard E st u = Some h ->
  guarded h \/ (st = Some SELECTING_DATE /\ h = handle_date_input).
Proof.
  unfold wizard. intros Hw.
  destruct st as [[] |], (body u) as [data | msg | name];
    repeat match type of Hw with
      | (if ?c then _ else _) = Some _ => destruct c
      end;
    try discriminate; injection Hw as <-;
    first
      [ right; split; reflexivity
      | left;
        first
          [ apply early_guarded;
            first [ apply start_add_hours_early | apply select_project_early
                  | apply back_to_main_early ]
          | apply select_hours_guarded | apply handle_hours_input_guarded
          | apply skip_description_guarded | apply handle_description_input_guarded
          | apply select_date_guarded | apply handle_calendar_guarded
          | apply start_guarded ] ].
Qed.

(** What a callback leaves behind when the conversation is, after it, in
    one of the two late states. *)
Lemma wizard_step_fields E st u h w r w' :
  wizard E st u = Some h -> h w = (Ok r, w') ->
  (late_state st ->
   has "selected_hours" (user_data w) /\ has "selected_project_name" (user_data w)) ->
  late_state (next_state st (Ok r)) ->
  has "selected_hours" (user_data w') /\ has "selected_project_name" (user_data w').
Proof.
  intros Hw Hh Hst Hlate.
  destruct (wizard_guarded E st u h Hw) as [Hg | [-> ->]].
  - specialize (Hg w). rewrite Hh in Hg. unfold guard_post in Hg.
    cbn [fst snd] in Hg.
    destruct r as [| s |]; cbn [next_state] in Hlate.
    + rewrite Hg. apply Hst, Hlate.
    + destruct Hlate as [Hs | Hs]; injection Hs as ->; exact Hg.
    + destruct Hlate; discriminate.
  - rewrite handle_date_input_run in Hh. injection Hh as <- <-.
    apply Hst. right. reflexivity.
Qed.

Lemma named_has_id_empty : named_has_id ∅.
Proof. intros [v Hv]. rewrite lookup_empty in Hv. discriminate. Qed.

(** Along the transitions of the conversation handler the project name is
    never stored without the project id, and the conversation is in one of
    the two late states only with the hours and the project name stored. *)
Lemma wizard_run_fields w0 st w :
  named_has_id (user_data w0) ->
  wizard_run w0 st w ->
  named_has_id (user_data w) /\
  (late_state st ->
   has "selected_hours" (user_data w) /\ has "selected_project_name" (user_data w)).
Proof.
  intros H0.
  induction 1 as [| E u st w h r w' Hrun [IHid IHlate] Hw Hh].
  - split; [exact H0 |].
    intros [? | ?]; discriminate.
  - split.
    + pose proof (wizard_keeps_id E st u h w Hw IHid) as Hid.
      rewrite Hh in Hid. exact Hid.
    + apply (wizard_step_fields E st u h w r w' Hw Hh IHlate).
Qed.

(** A callback that moves the conversation into one of the two late states
    read both fields. *)
Lemma wizard_entry_fields E st u h w r w' :
  wizard E st u = Some h -> h w = (Ok r, w') ->
  late_state (next_state st (Ok r)) -> next_state st (Ok r) <> st ->
  has "selected_hours" (user_data w') /\ has "selected_project_name" (user_data w').
Proof.
  intros Hw Hh Hlate Hne.
  destruct (wizard_guarded E st u h Hw) as [Hg | [-> ->]].
  - specialize (Hg w). rewrite Hh in Hg. unfold guard_post in Hg.
    cbn [fst snd] in Hg.
    destruct r as [| s |]; cbn [next_state] in Hlate, Hne.
    + exfalso. apply Hne. reflexivity.
    + destruct Hlate as [Hs | Hs]; injection Hs as ->; exact Hg.
    + destruct Hlate; discriminate.
  - rewrite handle_date_input_run in Hh. injection Hh as <- <-.
    exfalso. apply Hne. reflexivity.
Qed.

Lemma process_update_entry E st u w :
  late_state (conversation (process_update E st u w)) ->
  conversation (process_update E st u w) <> st ->
  has "selected_hours" (user_data (after (process_update E st u w))) /\
  has "selected_project_name" (user_data (after (process_update E st u w))).
Proof.
  unfold process_update.
  destruct (is_command "start" u); [intros _ Hne; exfalso; apply Hne; reflexivity |].
  destruct (is_command "help" u); [intros _ Hne; exfalso; apply Hne; reflexivity |].
  destruct (wizard E st u) as [h |] eqn:Hw.
  - destruct (h w) as [r w'] eqn:Hh. cbn [conversation after].
    intros Hlate Hne.
    destruct r as [r | e]; [| exfalso; apply Hne; reflexivity].
    apply (wizard_entry_fields E st u h w r w' Hw Hh Hlate Hne).
  - destruct (body u); intros _ Hne; exfalso; apply Hne; reflexivity.
Qed.

Lemma fields_with_id m :
  named_has_id m -> has "selected_hours" m /\ has "selected_project_name" m ->
  has "selected_hours" m /\ has "selected_project_id" m.
Proof. intros Hid [Hh Hn]. split; [exact Hh | apply Hid, Hn]. Qed.

(** The admin button that asks for a project name answers with
    ENTERING_DESCRIPTION, [bot.py:980-985], from the general callback
    handler: the answer is dropped and the conversation stays where it
    was. *)
Lemma admin_add_project_outside E st uid w :
  conversation (process_update E st (button_press uid "admin_add_project") w) = st.
Proof. destruct st as [[] |]; reflexivity. Qed.

(** C1. The add-entry conversation is in ENTERING_DESCRIPTION or
    SELECTING_DATE only with [selected_hours] and [selected_project_id] in
    the session context. A session starts with an empty context.
    First part: after any history of updates, every sequence of
    transitions accepted by the conversation handler (each one a callback
    of [add_hours_handler] that returned) that ends in one of the two
    states ends with both fields stored.
    Second part: after any history of updates whatsoever (callbacks that
    raise and updates taken by the other handlers included), an update
    that moves the conversation into one of the two states from another
    one leaves both fields stored. *)
Theorem wizard_fields_on_entry (d0 : database) :
  (forall events st w,
     wizard_run (snd (run None (World ∅ d0 []) events)) st w ->
     late_state st -> wizard_fields w) /\
  (forall events E u,
     let before := run None (World ∅ d0 []) events in
     let o := process_update E (fst before) u (snd before) in
     late_state (conversation o) -> conversation o <> fst before ->
     wizard_fields (after o)).
Proof.
  split.
  - intros events st w Hrun Hlate.
    destruct (wizard_run_fields _ st w
                (run_keeps_id events None (World ∅ d0 []) named_has_id_empty) Hrun)
      as [Hid Hf].
    apply fields_with_id; [exact Hid | apply Hf, Hlate].
  - intros events E u before o Hlate Hne.
    apply fields_with_id.
    + apply process_update_keeps_id, run_keeps_id, named_has_id_empty.
    + apply process_update_entry; assumption.
Qed.

Lemma wizard_fields_on_entry_witness :
  let trace := [(sample_env, button_press 7 "add_hours");
                (sample_env, button_press 7 "project_1")] in
  let before := run None (World ∅ sample_db []) trace in
  let o := process_update sample_env (fst before) (button_press 7 "hours_2") (snd before) in
  (wizard_run (World ∅ sample_db []) (Some ENTERING_DESCRIPTION) (after o) /\
   late_state (Some ENTERING_DESCRIPTION) /\
   wizard_fields (after o)) /\
  (late_state (conversation o) /\ conversation o <> fst before /\
   has "selected_project_id" (user_data (after o))).
Proof.
  intros trace before o.
  assert (Hlate : late_state (conversation o)) by (left; reflexivity).
  assert (Hne : conversation o <> fst before) by (vm_compute; discriminate).
  assert (Hrun : wizard_run (World ∅ sample_db []) (Some ENTERING_DESCRIPTION) (after o)).
  { apply (wizard_run_step _ sample_env (button_press 7 "hours_2")
             (Some ENTERING_HOURS) (snd before)
             (select_hours "hours_2") (RState ENTERING_DESCRIPTION));
      [| reflexivity | vm_compute; reflexivity].
    apply (wizard_run_step _ sample_env (button_press 7 "project_1")
             (Some SELECTING_PROJECT)
             (snd (run None (World ∅ sample_db [])
                     [(sample_env, button_press 7 "add_hours")]))
             (select_project sample_env "project_1") (RState ENTERING_HOURS));
      [| reflexivity | vm_compute; reflexivity].
    apply (wizard_run_step _ sample_env (button_press 7 "add_hours") None
             (World ∅ sample_db [])
             (start_add_hours sample_env (button_press 7 "add_hours"))
             (RState SELECTING_PROJECT));
      [| reflexivity | vm_compute; reflexivity].
    apply wizard_run_start. }
  destruct (wizard_fields_on_entry sample_db) as [Hrunning Hentering].
  split; [split; [exact Hrun | split; [left; reflexivity |]] |
          split; [exact Hlate | split; [exact Hne |]]].
  - exact (Hrunning [] (Some ENTERING_DESCRIPTION) (after o) Hrun
             (or_introl eq_refl)).
  - exact (proj2 (Hentering trace sample_env (button_press 7 "hours_2") Hlate Hne)).
Defined.

(** ** Updates of users who are no administrators *)

Lemma untouched_refl uid d : untouched_by uid d d.
Proof. repeat split. Qed.

Lemma untouched_trans uid a b c :
  untouched_by uid a b -> untouched_by uid b c -> untouched_by uid a c.
Proof.
  intros (Hp & Hf & He) (Hp' & Hf' & He'). repeat split.
  - rewrite Hp'. exact Hp.
  - intros t. rewrite Hf'. apply Hf.
  - intros t Ht. rewrite (He' t Ht). apply He, Ht.
Qed.

Section Confined.

Variable E : env.
Variable uid : Z.

Lemma confined_refl w : confined E uid w w.
Proof. intros _. apply untouched_refl. Qed.

Lemma confined_trans a b c :
  confined E uid a b -> confined E uid b c -> confined E uid a c.
Proof.
  intros Hab Hbc Ha. pose proof (Hab Ha) as Hq.
  eapply untouched_trans; [exact Hq |]. apply Hbc.
  unfold administrator in *. destruct Hq as (_ & Hf & _).
  rewrite Hf. exact Ha.
Qed.

Lemma confined_same_db w w' : db w' = db w -> confined E uid w w'.
Proof. intros Hdb _. rewrite Hdb. apply untouched_refl. Qed.

Lemma keeps_ret {A} (a : A) : confines E uid (mret a : M A).
Proof. intros w. apply confined_refl. Qed.

Lemma keeps_raise {A} e : confines E uid (raise e : M A).
Proof. intros w. apply confined_refl. Qed.

Lemma keeps_bind {A B} (m : M A) (k : A -> M B) :
  confines E uid m -> (forall a, confines E uid (k a)) -> confines E uid (m ≫= k).
Proof.
  intros Hm Hk w. rewrite bind_unfold. specialize (Hm w).
  destruct (m w) as [[a | e] w1]; cbn [snd] in *; [| exact Hm].
  eapply confined_trans; [exact Hm | apply Hk].
Qed.

Lemma keeps_emit c : confines E uid (emit c).
Proof. intros w. apply confined_same_db. reflexivity. Qed.

Lemma keeps_ud_get k : confines E uid (ud_get k).
Proof. intros w. apply confined_refl. Qed.

Lemma keeps_ud_item k : confines E uid (ud_item k).
Proof. intros w. unfold ud_item. destruct (user_data w !! k); apply confined_refl. Qed.

Lemma keeps_ud_set k v : confines E uid (ud_set k v).
Proof. intros w. apply confined_same_db. reflexivity. Qed.

Lemma keeps_ud_pop k : confines E uid (ud_pop k).
Proof. intros w. apply confined_same_db. reflexivity. Qed.

Lemma keeps_ud_clear : confines E uid ud_clear.
Proof. intros w. apply confined_same_db. reflexivity. Qed.

Lemma keeps_lift {A} e (o : option A) : confines E uid (lift_option e o).
Proof. destruct o; [apply keeps_ret | apply keeps_raise]. Qed.

Lemma keeps_select {A} (f : database -> A) : confines E uid (select E f).
Proof. intros w. unfold select. destruct (db_up E); apply confined_refl. Qed.

Lemma keeps_execute f :
  (forall d, untouched_by uid d (f d)) -> confines E uid (execute E f).
Proof.
  intros Hf w. unfold execute. destruct (db_up E); [| apply confined_refl].
  intros _. apply Hf.
Qed.

Lemma keeps_try {A} (m h : M A) : confines E uid m -> confines E uid h -> confines E uid (try_except m h).
Proof.
  intros Hm Hh w. unfold try_except. specialize (Hm w).
  destruct (m w) as [[a | e] w1]; cbn [snd] in *; [exact Hm |].
  eapply confined_trans; [exact Hm | apply Hh].
Qed.

Lemma keeps_try_ValueError {A} (m h : M A) :
  confines E uid m -> confines E uid h -> confines E uid (try_except_ValueError m h).
Proof.
  intros Hm Hh w. unfold try_except_ValueError. specialize (Hm w).
  destruct (m w) as [[a | []] w1]; cbn [snd] in *; try exact Hm.
  eapply confined_trans; [exact Hm | apply Hh].
Qed.

(** The check of [is_admin] answers [False] for this user, or the user is
    an administrator and nothing is claimed. *)
Lemma keeps_gate {B} (k : bool -> M B) :
  confines E uid (k false) -> confines E uid (is_admin E uid ≫= k).
Proof.
  intros Hk w Hna. unfold is_admin. rewrite run_assoc, run_select.
  destruct (db_up E); [| apply untouched_refl].
  rewrite run_mret.
  replace ((uid =? ADMIN_USER_ID E) || _) with false; [apply Hk, Hna |].
  symmetry. unfold administrator, flags in Hna.
  destruct (find_user uid (db w)); exact Hna.
Qed.

End Confined.

Create HintDb confine discriminated.

Ltac confine :=
  repeat match goal with
    | |- confines _ _ (mret _) => apply keeps_ret
    | |- confines _ _ (raise _) => apply keeps_raise
    | |- confines _ _ (is_admin _ _ ≫= _) =>
        apply keeps_gate; cbv beta iota; cbn [negb]; cbv iota
    | |- confines _ _ (_ ≫= _) => apply keeps_bind; [| intros ?]
    | |- confines _ _ (emit _) => apply keeps_emit
    | |- confines _ _ (ud_get _) => apply keeps_ud_get
    | |- confines _ _ (ud_item _) => apply keeps_ud_item
    | |- confines _ _ (ud_set _ _) => apply keeps_ud_set
    | |- confines _ _ (ud_pop _) => apply keeps_ud_pop
    | |- confines _ _ ud_clear => apply keeps_ud_clear
    | |- confines _ _ (lift_option _ _) => apply keeps_lift
    | |- confines _ _ (item _ _) => apply keeps_lift
    | |- confines _ _ (int _) => apply keeps_lift
    | |- confines _ _ (float _) => apply keeps_lift
    | |- confines _ _ (select _ _) => apply keeps_select
    | |- confines _ _ (try_except _ _) => apply keeps_try
    | |- confines _ _ (try_except_ValueError _ _) => apply keeps_try_ValueError
    | |- confines _ _ (let _ := _ in _) => cbv zeta
    | |- confines _ _ ((fun _ => _) _) => cbv beta
    | |- confines _ _ (match ?x with _ => _ end) => destruct x
    | |- confines _ _ _ => solve [auto with confine]
    end.

Lemma find_user_app t (l : list user_row) r :
  List.find (fun x => user_id x =? t) (l ++ [r])
  = match List.find (fun x => user_id x =? t) l with
    | Some x => Some x
    | None => if user_id r =? t then Some r else None
    end.
Proof.
  induction l as [| x l IH]; cbn [List.find app].
  - reflexivity.
  - destruct (user_id x =? t); [reflexivity | exact IH].
Qed.

Lemma register_user_confined E uid : confines E uid (register_user E uid).
Proof.
  unfold register_user. apply keeps_execute. intros d.
  destruct (find_user uid d) as [r |] eqn:Hr; [apply untouched_refl |].
  repeat split. intros t. unfold flags, find_user. cbn [users].
  rewrite find_user_app. cbn [user_id].
  destruct (List.find (fun x => user_id x =? t) (users d)); [reflexivity |].
  destruct (uid =? t); reflexivity.
Qed.
#[local] Hint Resolve register_user_confined : confine.

Lemma filter_other_app uid t (l : list entry_row) r :
  entry_user r = uid -> t <> uid ->
  List.filter (fun x => entry_user x =? t) (l ++ [r])
  = List.filter (fun x => entry_user x =? t) l.
Proof.
  intros Hr Ht. rewrite List.filter_app. cbn [List.filter].
  rewrite Hr. destruct (Z.eqb_spec uid t) as [-> | _]; [contradiction |].
  apply app_nil_r.
Qed.

Lemma add_time_entry_confined E uid pid hours description date :
  confines E uid (add_time_entry E uid pid hours description date).
Proof.
  intros w. unfold add_time_entry. cbv zeta.
  destruct (db_up E && row_ok E _); [| apply confined_refl].
  intros _. repeat split. intros t Ht. cbn [snd db].
  unfold entries_of, insert_entry. cbn [time_entries].
  apply (filter_other_app uid); [reflexivity | exact Ht].
Qed.
#[local] Hint Resolve add_time_entry_confined : confine.

Lemma filter_filter_other uid t eid (l : list entry_row) :
  t <> uid ->
  List.filter (fun x => entry_user x =? t)
    (List.filter (fun r => negb ((entry_id r =? eid) && (entry_user r =? uid))) l)
  = List.filter (fun x => entry_user x =? t) l.
Proof.
  intros Ht. induction l as [| x l IH]; [reflexivity |].
  cbn [List.filter].
  destruct (entry_user x =? t) eqn:Hx.
  - apply Z.eqb_eq in Hx.
    replace (entry_user x =? uid) with false
      by (symmetry; apply Z.eqb_neq; congruence).
    rewrite andb_false_r. cbn [negb List.filter].
    rewrite (proj2 (Z.eqb_eq _ _) Hx). f_equal. exact IH.
  - destruct (negb _); cbn [List.filter]; [rewrite Hx |]; exact IH.
Qed.

Lemma delete_time_entry_confined E uid eid :
  confines E uid (delete_time_entry E eid uid).
Proof.
  unfold delete_time_entry. confine.
  apply keeps_execute. intros d. repeat split.
  intros t Ht. unfold entries_of, remove_entry. cbn [time_entries].
  apply filter_filter_other, Ht.
Qed.
#[local] Hint Resolve delete_time_entry_confined : confine.

Lemma respond_confined E uid u t kb : confines E uid (respond u t kb).
Proof. unfold respond. confine. Qed.
#[local] Hint Resolve respond_confined : confine.

Lemma is_banned_confined E uid t : confines E uid (is_banned E t).
Proof. unfold is_banned. confine. Qed.
#[local] Hint Resolve is_banned_confined : confine.

Lemma check_user_ban_confined E uid t : confines E uid (check_user_ban E t).
Proof. unfold check_user_ban. confine. Qed.
#[local] Hint Resolve check_user_ban_confined : confine.

Lemma get_projects_confined E uid : confines E uid (get_projects E).
Proof. unfold get_projects. confine. Qed.
#[local] Hint Resolve get_projects_confined : confine.

Lemma get_user_entries_confined E uid t limit :
  confines E uid (get_user_entries E t limit).
Proof. unfold get_user_entries, limit_offset. confine. Qed.
#[local] Hint Resolve get_user_entries_confined : confine.

Lemma get_user_entries_paginated_confined E uid t limit offset :
  confines E uid (get_user_entries_paginated E t limit offset).
Proof. unfold get_user_entries_paginated, limit_offset. confine. Qed.
#[local] Hint Resolve get_user_entries_paginated_confined : confine.

Lemma get_projects_keyboard_confined E uid page page_size :
  confines E uid (get_projects_keyboard E page page_size).
Proof. unfold get_projects_keyboard. confine. Qed.
#[local] Hint Resolve get_projects_keyboard_confined : confine.

Lemma collaborator_confined E uid name args : confines E uid (collaborator E name args).
Proof. unfold collaborator. confine. Qed.
#[local] Hint Resolve collaborator_confined : confine.

Lemma target_user_confined E uid t : confines E uid (target_user t).
Proof. unfold target_user. confine. Qed.
#[local] Hint Resolve target_user_confined : confine.

Lemma as_str_confined E uid v : confines E uid (as_str v).
Proof. unfold as_str. confine. Qed.
#[local] Hint Resolve as_str_confined : confine.

Lemma int_arg_confined E uid action i : confines E uid (int_arg action i).
Proof. unfold int_arg. confine. Qed.
#[local] Hint Resolve int_arg_confined : confine.

Lemma start_add_hours_confined E u : confines E (effective_user u) (start_add_hours E u).
Proof. unfold start_add_hours. confine. Qed.
#[local] Hint Resolve start_add_hours_confined : confine.

Lemma select_project_confined E uid data : confines E uid (select_project E data).
Proof. unfold select_project. confine. Qed.
#[local] Hint Resolve select_project_confined : confine.

Lemma select_hours_confined E uid data : confines E uid (select_hours data).
Proof. unfold select_hours. confine. Qed.
#[local] Hint Resolve select_hours_confined : confine.

Lemma handle_hours_input_confined E uid msg : confines E uid (handle_hours_input msg).
Proof. unfold handle_hours_input. confine. Qed.
#[local] Hint Resolve handle_hours_input_confined : confine.

Lemma show_date_selection_confined E uid u : confines E uid (show_date_selection E u).
Proof. unfold show_date_selection. confine. Qed.
#[local] Hint Resolve show_date_selection_confined : confine.

Lemma handle_description_input_confined E u msg : confines E (effective_user u) (handle_description_input E u msg).
Proof. unfold handle_description_input. confine. Qed.
#[local] Hint Resolve handle_description_input_confined : confine.

Lemma skip_description_confined E uid u : confines E uid (skip_description E u).
Proof. unfold skip_description. confine. Qed.
#[local] Hint Resolve skip_description_confined : confine.

Lemma handle_calendar_confined E u data : confines E (effective_user u) (handle_calendar E u data).
Proof. unfold handle_calendar. confine. Qed.
#[local] Hint Resolve handle_calendar_confined : confine.

Lemma select_date_confined E u data : confines E (effective_user u) (select_date E u data).
Proof. unfold select_date. confine. Qed.
#[local] Hint Resolve select_date_confined : confine.

Lemma handle_date_input_confined E uid : confines E uid (handle_date_input).
Proof. unfold handle_date_input. confine. Qed.
#[local] Hint Resolve handle_date_input_confined : confine.

Lemma show_my_entries_page_confined E uid u page : confines E uid (show_my_entries_page E u page).
Proof. unfold show_my_entries_page. confine. Qed.
#[local] Hint Resolve show_my_entries_page_confined : confine.

Lemma show_my_entries_confined E uid u : confines E uid (show_my_entries E u).
Proof. unfold show_my_entries. confine. Qed.
#[local] Hint Resolve show_my_entries_confined : confine.

Lemma handle_entries_pagination_confined E uid u data : confines E uid (handle_entries_pagination E u data).
Proof. unfold handle_entries_pagination. confine. Qed.
#[local] Hint Resolve handle_entries_pagination_confined : confine.

Lemma show_delete_menu_confined E uid u : confines E uid (show_delete_menu E u).
Proof. unfold show_delete_menu. confine. Qed.
#[local] Hint Resolve show_delete_menu_confined : confine.

Lemma confirm_delete_entry_confined E uid u data : confines E uid (confirm_delete_entry E u data).
Proof. unfold confirm_delete_entry. confine. Qed.
#[local] Hint Resolve confirm_delete_entry_confined : confine.

Lemma delete_entry_confined E u data : confines E (effective_user u) (delete_entry E u data).
Proof. unfold delete_entry. confine. Qed.
#[local] Hint Resolve delete_entry_confined : confine.

Lemma show_delete_entries_from_page_confined E uid u data : confines E uid (show_delete_entries_from_page E u data).
Proof. unfold show_delete_entries_from_page. confine. Qed.
#[local] Hint Resolve show_delete_entries_from_page_confined : confine.

Lemma confirm_delete_entry_from_page_confined E uid u data : confines E uid (confirm_delete_entry_from_page E u data).
Proof. unfold confirm_delete_entry_from_page. confine. Qed.
#[local] Hint Resolve confirm_delete_entry_from_page_confined : confine.

Lemma delete_entry_from_page_confined E u data : confines E (effective_user u) (delete_entry_from_page E u data).
Proof. unfold delete_entry_from_page. confine. Qed.
#[local] Hint Resolve delete_entry_from_page_confined : confine.

Lemma show_reports_menu_confined E uid u : confines E uid (show_reports_menu u).
Proof. unfold show_reports_menu. confine. Qed.
#[local] Hint Resolve show_reports_menu_confined : confine.

Lemma show_custom_date_selection_confined E uid : confines E uid (show_custom_date_selection E).
Proof. unfold show_custom_date_selection. confine. Qed.
#[local] Hint Resolve show_custom_date_selection_confined : confine.

Lemma handle_report_confined E uid u data : confines E uid (handle_report E u data).
Proof. unfold handle_report. confine. Qed.
#[local] Hint Resolve handle_report_confined : confine.

Lemma export_user_csv_confined E uid u : confines E uid (export_user_csv E u).
Proof. unfold export_user_csv. confine. Qed.
#[local] Hint Resolve export_user_csv_confined : confine.

Lemma handle_report_calendar_confined E uid u data : confines E uid (handle_report_calendar E u data).
Proof. unfold handle_report_calendar. confine. Qed.
#[local] Hint Resolve handle_report_calendar_confined : confine.

Lemma show_admin_menu_confined E u : confines E (effective_user u) (show_admin_menu E u).
Proof. unfold show_admin_menu. confine. Qed.
#[local] Hint Resolve show_admin_menu_confined : confine.

Lemma confirm_delete_project_confined E u data arg : confines E (effective_user u) (confirm_delete_project E u data arg).
Proof. unfold confirm_delete_project. confine. Qed.
#[local] Hint Resolve confirm_delete_project_confined : confine.

Lemma confirm_ban_user_confined E u target : confines E (effective_user u) (confirm_ban_user E u target).
Proof. unfold confirm_ban_user. confine. Qed.
#[local] Hint Resolve confirm_ban_user_confined : confine.

Lemma delete_project_confined E u data : confines E (effective_user u) (delete_project E u data).
Proof. unfold delete_project. confine. Qed.
#[local] Hint Resolve delete_project_confined : confine.

Lemma handle_admin_confined E u data : confines E (effective_user u) (handle_admin E u data).
Proof. unfold handle_admin. confine. Qed.
#[local] Hint Resolve handle_admin_confined : confine.

Lemma start_confined E u : confines E (effective_user u) (start E u).
Proof. unfold start. confine. Qed.
#[local] Hint Resolve start_confined : confine.

Lemma show_help_confined E uid u : confines E uid (show_help u).
Proof. unfold show_help. confine. Qed.
#[local] Hint Resolve show_help_confined : confine.

Lemma back_to_main_confined E u : confines E (effective_user u) (back_to_main E u).
Proof. unfold back_to_main. confine. Qed.
#[local] Hint Resolve back_to_main_confined : confine.

Lemma handle_text_message_confined E u msg : confines E (effective_user u) (handle_text_message E u msg).
Proof. unfold handle_text_message. confine. Qed.
#[local] Hint Resolve handle_text_message_confined : confine.

Lemma button_handler_confined E u data : confines E (effective_user u) (button_handler E u data).
Proof. unfold button_handler. confine. Qed.
#[local] Hint Resolve button_handler_confined : confine.


Lemma wizard_confined E st u h :
  wizard E st u = Some h -> confines E (effective_user u) h.
Proof.
  unfold wizard. intros H.
  destruct st as [[] |]; destruct (body u);
    repeat match type of H with
           | (if ?b then _ else _) = _ => destruct b
           end;
    try discriminate; injection H as <-; auto with confine.
Qed.

Lemma process_update_confined E st u w :
  confined E (effective_user u) w (after (process_update E st u w)).
Proof.
  unfold process_update.
  destruct (is_command "start" u); [apply start_confined |].
  destruct (is_command "help" u); [apply show_help_confined |].
  destruct (wizard E st u) as [h |] eqn:Hw.
  - pose proof (wizard_confined E st u h Hw w) as Hh.
    destruct (h w) as [r w']. exact Hh.
  - destruct (body u); cbn [after].
    + apply button_handler_confined.
    + apply handle_text_message_confined.
    + apply confined_refl.
Qed.

(** X1. Whatever the update of a user for whom [is_admin] answers [False]
    (a command, a button with any callback data, a text), and whatever the
    state of the conversation, the database afterwards has the same
    projects, the same admin and ban flags for every user, and the same
    time entries for every other user. *)
Theorem non_admin_update_confined E st u w :
  administrator E (effective_user u) (db w) = false ->
  untouched_by (effective_user u) (db w) (db (after (process_update E st u w))).
Proof. intros Hna. apply (process_update_confined E st u w), Hna. Qed.

Lemma non_admin_update_confined_witness :
  administrator sample_env 7 sample_db = false /\
  untouched_by 7 sample_db
    (db (after (process_update sample_env None
                  (button_press 7 "admin_confirm_ban_user_1") (sample_world ∅)))).
Proof.
  split; [reflexivity |].
  apply (non_admin_update_confined sample_env None
           (button_press 7 "admin_confirm_ban_user_1") (sample_world ∅)).
  reflexivity.
Defined.

(** X2. As long as every update of a run comes from a user for whom
    [is_admin] answered [False] before the run, the projects and the admin
    and ban flags of all users are at the end what they were at the
    start, whatever the updates are. *)
Theorem no_admin_no_administration events : forall st w,
  Forall (fun eu => administrator (fst eu) (effective_user (snd eu)) (db w) = false) events ->
  projects (db (snd (run st w events))) = projects (db w) /\
  (forall t, flags t (db (snd (run st w events))) = flags t (db w)).
Proof.
  induction events as [| [E u] events IH]; intros st w Hall; cbn [run].
  - split; reflexivity.
  - inversion Hall as [| ? ? Hu Hrest]; subst. cbn [fst snd] in Hu.
    destruct (process_update_confined E st u w Hu) as (Hp & Hf & _).
    destruct (IH (conversation (process_update E st u w))
                 (after (process_update E st u w))) as [Hp' Hf'].
    + eapply Forall_impl; [exact Hrest |].
      intros [E' u'] H'. cbn [fst snd] in *. unfold administrator in *.
      rewrite Hf. exact H'.
    + split; [rewrite Hp'; exact Hp | intros t; rewrite Hf'; apply Hf].
Qed.

Lemma no_admin_no_administration_witness :
  let events := [ (sample_env, button_press 7 "admin_toggle_project_1");
                  (sample_env, button_press 9 "admin_confirm_ban_user_7");
                  (sample_env, {| effective_user := 42; body := Command "start" |}) ] in
  projects (db (snd (run None (sample_world ∅) events))) = projects sample_db.
Proof.
  intros events.
  refine (proj1 (no_admin_no_administration events None (sample_world ∅) _)).
  repeat constructor.
Defined.

(** ** Deleting an entry *)

Lemma token_arg_2 (a b : string) z :
  forallb (fun c => negb (Ascii.eqb c "_")) (list_ascii_of_string a) = true ->
  forallb (fun c => negb (Ascii.eqb c "_")) (list_ascii_of_string b) = true ->
  Py.split "_" (a +:+ String "_" (b +:+ String "_" (Py.str z))) = [a; b; Py.str z].
Proof.
  intros Ha Hb. rewrite !split_segment by assumption.
  rewrite split_numeral by apply str_numeral. reflexivity.
Qed.

Lemma delete_time_entry_run E {B} eid uid (k : bool -> M B) w :
  (delete_time_entry E eid uid ≫= k) w
  = if db_up E
    then k (owns uid eid (db w))
           (World (user_data w) (remove_entry eid uid (db w)) (calls w))
    else k false w.
Proof.
  unfold delete_time_entry. rewrite run_try, run_select.
  destruct (db_up E) eqn:Hup; [| rewrite run_mret; reflexivity].
  rewrite bind_unfold. unfold execute. rewrite Hup. reflexivity.
Qed.

Lemma in_remove_entry eid uid d r :
  In r (time_entries (remove_entry eid uid d))
  <-> In r (time_entries d) /\ ~ (entry_id r = eid /\ entry_user r = uid).
Proof.
  unfold remove_entry. cbn [time_entries]. rewrite List.filter_In.
  rewrite negb_true_iff, andb_false_iff, !Z.eqb_neq. intuition lia.
Qed.

(** X3. [delete_entry] on the token of the confirmation button never
    raises, also when the database is unreachable; it removes the row with
    that id when it belongs to the user who pressed the button and nothing
    else, and says whether a row was removed. *)
Theorem delete_entry_removes_own E u eid w :
  let uid := effective_user u in
  let o := delete_entry E u ("confirm_delete_" +:+ Py.str eid) w in
  o = (Ok RNone,
       World (user_data w)
             (if db_up E then remove_entry eid uid (db w) else db w)
             (calls w ++ deletion_notice (db_up E && owns uid eid (db w))))
  /\ users (db (snd o)) = users (db w)
  /\ projects (db (snd o)) = projects (db w)
  /\ (forall r, In r (time_entries (db (snd o)))
                <-> In r (time_entries (db w))
                    /\ (db_up E = true -> ~ (entry_id r = eid /\ entry_user r = uid))).
Proof.
  intros uid o.
  assert (Ho : o = (Ok RNone,
       World (user_data w)
             (if db_up E then remove_entry eid uid (db w) else db w)
             (calls w ++ deletion_notice (db_up E && owns uid eid (db w))))).
  { unfold o, delete_entry.
    change ("confirm_delete_" +:+ Py.str eid)
      with ("confirm" +:+ String "_" ("delete" +:+ String "_" (Py.str eid))).
    rewrite token_arg_2 by reflexivity.
    rewrite (item_int_run _ 2 (Py.str eid) eid) by (reflexivity || apply int_str).
    rewrite delete_time_entry_run. fold uid.
    destruct (db_up E); cbn [andb].
    - destruct (owns uid eid (db w)); mrun; rewrite <- ?app_assoc; reflexivity.
    - mrun. rewrite <- ?app_assoc. destruct w; reflexivity. }
  split; [exact Ho |]. rewrite Ho. cbn [snd db].
  destruct (db_up E).
  - split; [reflexivity |]. split; [reflexivity |].
    intros r. rewrite in_remove_entry. split.
    + intros [Hr Hn]. split; [exact Hr | intros _; exact Hn].
    + intros [Hr Hn]. split; [exact Hr | apply Hn; reflexivity].
  - split; [reflexivity |]. split; [reflexivity |].
    intros r. split; [intros Hr; split; [exact Hr | discriminate] | intros [Hr _]; exact Hr].
Qed.

(** X4. The confirmation step changes neither the database nor the
    session context.  It shows the entry and the delete button only for a
    row of the user who asks; the token of that button carries the id of
    the row.  For any other id the only effect is a notice. *)
Theorem confirm_delete_entry_reads E u eid w :
  db_up E = true ->
  match find_entry eid (effective_user u) (db w) with
  | Some r =>
      entry_id r = eid /\ entry_user r = effective_user u
      /\ In r (time_entries (db w))
      /\ exists t,
           confirm_delete_entry E u ("delete_entry_" +:+ Py.str eid) w
           = only_sends w RNone [edit_message_text t (Some (confirm_keyboard eid))]
  | None =>
      confirm_delete_entry E u ("delete_entry_" +:+ Py.str eid) w
      = only_sends w RNone [answer (Some NOT_FOUND)]
  end.
Proof.
  intros Hup.
  assert (Hrun : confirm_delete_entry E u ("delete_entry_" +:+ Py.str eid) w
                 = match find_entry eid (effective_user u) (db w) with
                   | Some r =>
                       only_sends w RNone
                         [edit_message_text (confirm_text r)
                            (Some (confirm_keyboard (entry_id r)))]
                   | None => only_sends w RNone [answer (Some NOT_FOUND)]
                   end).
  { unfold confirm_delete_entry.
    change ("delete_entry_" +:+ Py.str eid)
      with ("delete" +:+ String "_" ("entry" +:+ String "_" (Py.str eid))).
    rewrite token_arg_2 by reflexivity.
    rewrite (item_int_run _ 2 (Py.str eid) eid) by (reflexivity || apply int_str).
    rewrite run_select, Hup.
    destruct (find_entry eid (effective_user u) (db w)); mrun; reflexivity. }
  rewrite Hrun.
  destruct (find_entry eid (effective_user u) (db w)) as [r |] eqn:Hr; [| reflexivity].
  unfold find_entry in Hr. apply List.find_some in Hr as [Hin Hr].
  apply andb_true_iff in Hr as [H1 H2]. apply Z.eqb_eq in H1, H2.
  split; [exact H1 |]. split; [exact H2 |]. split; [exact Hin |].
  eexists. rewrite H1. reflexivity.
Qed.

Lemma confirm_delete_entry_reads_witness :
  db_up sample_env = true /\
  exists t,
    confirm_delete_entry sample_env (button_press 7 "delete_entry_3")
      ("delete_entry_" +:+ Py.str 3) (sample_world ∅)
    = only_sends (sample_world ∅) RNone
        [edit_message_text t (Some (confirm_keyboard 3))].
Proof.
  split; [reflexivity |].
  pose proof (confirm_delete_entry_reads sample_env (button_press 7 "delete_entry_3")
                3 (sample_world ∅) eq_refl) as H.
  change (find_entry 3 (effective_user (button_press 7 "delete_entry_3"))
            (db (sample_world ∅))) with (Some (sample_entry 3)) in H.
  exact (proj2 (proj2 (proj2 H))).
Defined.

(** ** Which handler a token reaches *)

Ltac decide_tests :=
  repeat match goal with
    | |- context [String.eqb ?a ?b] =>
        let v := eval vm_compute in (String.eqb a b) in
        match v with true => idtac | false => idtac end;
        change (String.eqb a b) with v
    | |- context [Py.startswith ?a ?b] =>
        let v := eval vm_compute in (Py.startswith a b) in
        match v with true => idtac | false => idtac end;
        change (Py.startswith a b) with v
    end.

(** X5. The branch of [button_handler] for [confirm_delete_project_]
    tokens is never taken: such a token starts with [confirm_delete_],
    which is tested first, so it is handed to [delete_entry], whose
    [int()] fails on the word "project". *)
Theorem confirm_delete_project_token_shadowed E u rest w :
  db_up E = true -> banned_in (db w) (effective_user u) = false ->
  button_handler E u ("confirm_delete_project_" +:+ rest) w
  = (Raise ValueError, World (user_data w) (db w) (calls w ++ [answer None])).
Proof.
  intros Hup Hban. unfold button_handler. decide_tests. cbn [negb]. cbv iota.
  rewrite (run_is_banned E _ _ _ Hup), Hban. mrun.
  unfold delete_entry.
  change ("confirm_delete_project_" +:+ rest)
    with ("confirm" +:+ String "_" ("delete" +:+ String "_"
            ("project" +:+ String "_" rest))).
  rewrite !split_segment by reflexivity.
  mrun. cbn [lookup list_lookup]. mrun. reflexivity.
Qed.

Lemma confirm_delete_project_token_shadowed_witness :
  db_up sample_env = true /\ banned_in sample_db 1 = false /\
  button_handler sample_env (button_press 1 "confirm_delete_project_2")
    ("confirm_delete_project_" +:+ "2") (sample_world ∅)
  = (Raise ValueError, World ∅ sample_db [answer None]).
Proof.
  split; [reflexivity | split; [reflexivity |]].
  exact (confirm_delete_project_token_shadowed sample_env
           (button_press 1 "confirm_delete_project_2") "2" (sample_world ∅)
           eq_refl eq_refl).
Defined.

(** ** Banning, unbanning, toggling *)

Lemma find_user_update t t' f d :
  (forall r, user_id (f r) = user_id r) ->
  find_user t' (update_user t f d)
  = (fun r => if user_id r =? t then f r else r) <$> find_user t' d.
Proof.
  intros Hf. unfold find_user, update_user. cbn [users].
  induction (users d) as [| r l IH]; [reflexivity |].
  cbn [map List.find].
  replace (user_id (if user_id r =? t then f r else r)) with (user_id r)
    by (destruct (user_id r =? t); [rewrite Hf |]; reflexivity).
  destruct (user_id r =? t'); [reflexivity | exact IH].
Qed.

Lemma find_user_id t d r : find_user t d = Some r -> user_id r = t.
Proof.
  unfold find_user. intros H. apply List.find_some in H as [_ H].
  apply Z.eqb_eq, H.
Qed.

Lemma update_user_row_run E {B} t f (k : bool -> M B) w :
  (update_user_row E t f ≫= k) w
  = if db_up E
    then k (bool_decide (is_Some (find_user t (db w))))
           (World (user_data w) (update_user t f (db w)) (calls w))
    else (Raise DatabaseError, w).
Proof.
  unfold update_user_row. rewrite run_assoc, run_select.
  destruct (db_up E) eqn:Hup; [| reflexivity].
  rewrite run_assoc, bind_unfold. unfold execute. rewrite Hup.
  rewrite run_mret. reflexivity.
Qed.

Lemma end_bind {A} (m : M A) w : m w = (m ≫= mret) w.
Proof. rewrite bind_unfold. destruct (m w) as [[a | e] w']; reflexivity. Qed.

Lemma update_user_effect t f d (ban : bool) :
  (forall r, user_id (f r) = user_id r) ->
  (forall r, is_admin_flag (f r) = is_admin_flag r) ->
  (forall r, is_banned_flag (f r) = ban) ->
  banned_in (update_user t f d) t = ban && bool_decide (is_Some (find_user t d))
  /\ fst (flags t (update_user t f d)) = fst (flags t d)
  /\ (forall t', t' <> t -> flags t' (update_user t f d) = flags t' d).
Proof.
  intros Hid Hadm Hban.
  unfold banned_in, flags. rewrite !(find_user_update t _ f) by exact Hid.
  split; [| split].
  - destruct (find_user t d) as [r |] eqn:Hr; cbn [fmap option_fmap option_map].
    + rewrite (find_user_id _ _ _ Hr), Z.eqb_refl, Hban.
      rewrite bool_decide_true by eauto. symmetry. apply andb_true_r.
    + rewrite bool_decide_false by (intros [? ?]; discriminate).
      symmetry. apply andb_false_r.
  - destruct (find_user t d) as [r |] eqn:Hr; cbn [fmap option_fmap option_map fst].
    + rewrite (find_user_id _ _ _ Hr), Z.eqb_refl. apply Hadm.
    + reflexivity.
  - intros t' Ht'. rewrite (find_user_update t t' f) by exact Hid.
    destruct (find_user t' d) as [r |] eqn:Hr; cbn [fmap option_fmap option_map].
    + rewrite (find_user_id _ _ _ Hr).
      destruct (Z.eqb_spec t' t); [contradiction | reflexivity].
    + reflexivity.
Qed.

Lemma ban_user_run E {B} t (k : bool -> M B) w :
  (ban_user E t ≫= k) w
  = if db_up E
    then k (bool_decide (is_Some (find_user t (db w))))
           (World (user_data w)
              (update_user t (fun r => {| user_id := user_id r;
                                          is_admin_flag := is_admin_flag r;
                                          is_banned_flag := true |}) (db w))
              (calls w))
    else (Raise DatabaseError, w).
Proof. unfold ban_user. apply update_user_row_run. Qed.

Lemma unban_user_run E {B} t (k : bool -> M B) w :
  (unban_user E t ≫= k) w
  = if db_up E
    then k (bool_decide (is_Some (find_user t (db w))))
           (World (user_data w)
              (update_user t (fun r => {| user_id := user_id r;
                                          is_admin_flag := is_admin_flag r;
                                          is_banned_flag := false |}) (db w))
              (calls w))
    else (Raise DatabaseError, w).
Proof. unfold unban_user. apply update_user_row_run. Qed.

(** X6. [ban_user] answers whether the user exists, and the user is
    banned afterwards exactly in that case; [unban_user] leaves the user
    not banned.  Neither changes the admin flag of the user, any flag of
    another user, the projects or the time entries. *)
Theorem ban_and_unban E t w (ban : bool) :
  db_up E = true ->
  let o := (if ban then ban_user E t else unban_user E t) w in
  let known := bool_decide (is_Some (find_user t (db w))) in
  fst o = Ok known
  /\ banned_in (db (snd o)) t = ban && known
  /\ fst (flags t (db (snd o))) = fst (flags t (db w))
  /\ (forall t', t' <> t -> flags t' (db (snd o)) = flags t' (db w))
  /\ projects (db (snd o)) = projects (db w)
  /\ time_entries (db (snd o)) = time_entries (db w)
  /\ user_data (snd o) = user_data w.
Proof.
  intros Hup o known. unfold o.
  destruct ban; [rewrite end_bind, ban_user_run | rewrite end_bind, unban_user_run];
    rewrite Hup; cbn [fst snd db user_data mret M_ret];
    (split; [reflexivity |]);
    match goal with
    | |- context [update_user t ?f (db w)] =>
        destruct (update_user_effect t f (db w) (is_banned_flag (f {| user_id := 0;
                      is_admin_flag := false; is_banned_flag := false |}))
                    ltac:(reflexivity) ltac:(reflexivity) ltac:(reflexivity))
          as (H1 & H2 & H3)
    end;
    (split; [exact H1 |]); (split; [exact H2 |]); (split; [exact H3 |]);
    repeat split.
Qed.

Lemma ban_and_unban_witness :
  db_up sample_env = true /\
  fst (ban_user sample_env 7 (sample_world ∅)) = Ok true /\
  banned_in (db (snd (ban_user sample_env 7 (sample_world ∅)))) 7 = true.
Proof.
  pose proof (ban_and_unban sample_env 7 (sample_world ∅) true eq_refl) as H.
  cbv zeta in H. destruct H as (H1 & H2 & _).
  split; [reflexivity | split; [exact H1 | exact H2]].
Defined.


Lemma toggle_project_status_run E {B} pid (k : bool -> M B) w :
  (toggle_project_status E pid ≫= k) w
  = if db_up E
    then k (bool_decide (is_Some (find_project pid (db w))))
           (World (user_data w)
              {| users := users (db w);
                 projects := map (fun r => if project_id r =? pid
                                           then {| project_id := project_id r;
                                                   project_name := project_name r;
                                                   is_active := negb (is_active r) |}
                                           else r) (projects (db w));
                 time_entries := time_entries (db w);
                 next_project_id := next_project_id (db w);
                 next_entry_id := next_entry_id (db w) |} (calls w))
    else (Raise DatabaseError, w).
Proof.
  unfold toggle_project_status. rewrite run_assoc, run_select.
  destruct (db_up E) eqn:Hup; [| reflexivity].
  rewrite run_assoc, bind_unfold. unfold execute. rewrite Hup.
  rewrite run_mret. reflexivity.
Qed.

Lemma find_project_toggled pid d :
  find_project pid
    {| users := users d;
       projects := map (fun r => if project_id r =? pid
                                 then {| project_id := project_id r;
                                         project_name := project_name r;
                                         is_active := negb (is_active r) |}
                                 else r) (projects d);
       time_entries := time_entries d;
       next_project_id := next_project_id d;
       next_entry_id := next_entry_id d |}
  = (fun r => {| project_id := project_id r; project_name := project_name r;
                 is_active := negb (is_active r) |}) <$> find_project pid d.
Proof.
  unfold find_project. cbn [projects].
  induction (projects d) as [| r l IH]; [reflexivity |].
  cbn [map List.find].
  destruct (project_id r =? pid) eqn:Hr; cbn [project_id]; rewrite Hr;
    [reflexivity | exact IH].
Qed.

Lemma map_toggle_twice {A} (c : A -> bool) (f : A -> A) (l : list A) :
  (forall r, c (f r) = c r) -> (forall r, f (f r) = r) ->
  map (fun r => if c r then f r else r) (map (fun r => if c r then f r else r) l) = l.
Proof.
  intros Hc Hf. induction l as [| r l IH]; [reflexivity |].
  cbn [map]. f_equal; [| exact IH].
  destruct (c r) eqn:Hr; [rewrite Hc, Hr; apply Hf | rewrite Hr; reflexivity].
Qed.

(** X7. Toggling twice gives back the database: for the status of a
    project and for the admin flag of a user, whether or not the row
    exists. *)
Theorem toggle_twice E w :
  (forall pid,
     db (snd ((toggle_project_status E pid;; toggle_project_status E pid) w)) = db w)
  /\ (forall t,
     db (snd ((toggle_user_admin E t;; toggle_user_admin E t) w)) = db w).
Proof.
  split.
  - intros pid. rewrite toggle_project_status_run.
    destruct (db_up E) eqn:Hup; [| reflexivity].
    rewrite end_bind, toggle_project_status_run, Hup.
    cbn [snd db projects users time_entries next_project_id next_entry_id].
    rewrite (map_toggle_twice (fun r => project_id r =? pid)).
    + destruct (db w); reflexivity.
    + intros r. reflexivity.
    + intros [i n a]. cbn. rewrite negb_involutive. reflexivity.
  - intros t. unfold toggle_user_admin. rewrite update_user_row_run.
    destruct (db_up E) eqn:Hup; [| reflexivity].
    rewrite end_bind, update_user_row_run, Hup.
    cbn [snd db]. unfold update_user.
    cbn [projects users time_entries next_project_id next_entry_id].
    rewrite (map_toggle_twice (fun r => user_id r =? t)).
    + destruct (db w); reflexivity.
    + intros r. reflexivity.
    + intros [i a b]. cbn. rewrite negb_involutive. reflexivity.
Qed.

Lemma get_projects_run E {B} (k : list (Z * string) -> M B) w :
  (get_projects E ≫= k) w
  = if db_up E
    then k (map (fun r => (project_id r, project_name r))
                (List.filter is_active (projects (db w)))) w
    else (Raise DatabaseError, w).
Proof. unfold get_projects. apply run_select. Qed.

(** X8. A project that was active is, after one toggle, no longer among
    the projects offered for a new entry; its time entries stay. *)
Theorem deactivated_project_not_offered E pid r w :
  db_up E = true ->
  find_project pid (db w) = Some r -> is_active r = true ->
  (forall r', In r' (projects (db w)) -> project_id r' = pid -> r' = r) ->
  let w1 := snd (toggle_project_status E pid w) in
  time_entries (db w1) = time_entries (db w)
  /\ forall offered, fst (get_projects E w1) = Ok offered ->
                     ~ In pid (map fst offered).
Proof.
  intros Hup Hr Hact Huniq w1.
  assert (Hw1 : w1 = World (user_data w)
              {| users := users (db w);
                 projects := map (fun r => if project_id r =? pid
                                           then {| project_id := project_id r;
                                                   project_name := project_name r;
                                                   is_active := negb (is_active r) |}
                                           else r) (projects (db w));
                 time_entries := time_entries (db w);
                 next_project_id := next_project_id (db w);
                 next_entry_id := next_entry_id (db w) |} (calls w)).
  { unfold w1. rewrite end_bind, toggle_project_status_run, Hup. reflexivity. }
  rewrite Hw1. split; [reflexivity |].
  intros offered. rewrite end_bind, get_projects_run, Hup. cbn [fst db projects].
  intros [= <-]. rewrite map_map. cbn [fst].
  rewrite in_map_iff. intros (x & Hx & Hin).
  apply List.filter_In in Hin as [Hin Hax].
  apply in_map_iff in Hin as (r' & <- & Hin').
  destruct (project_id r' =? pid) eqn:Hid.
  - apply Z.eqb_eq in Hid. rewrite (Huniq r' Hin' Hid) in Hax.
    cbn [is_active] in Hax. rewrite Hact in Hax. discriminate.
  - apply Z.eqb_neq in Hid. contradiction.
Qed.

Lemma deactivated_project_not_offered_witness :
  db_up sample_env = true /\
  time_entries (db (snd (toggle_project_status sample_env 2 (sample_world ∅))))
  = time_entries sample_db.
Proof.
  split; [reflexivity |].
  refine (proj1 (deactivated_project_not_offered sample_env 2
                   {| project_id := 2; project_name := "QA"; is_active := true |}
                   (sample_world ∅) eq_refl eq_refl eq_refl _)).
  intros r' Hin Hid. cbn in Hin.
  destruct Hin as [<- | [<- | [<- | []]]]; try discriminate; reflexivity.
Defined.

(** ** Choosing a project *)

Lemma token_arg_1 (a : string) z :
  forallb (fun c => negb (Ascii.eqb c "_")) (list_ascii_of_string a) = true ->
  Py.split "_" (a +:+ String "_" (Py.str z)) = [a; Py.str z].
Proof.
  intros Ha. rewrite split_segment by assumption.
  rewrite split_numeral by apply str_numeral. reflexivity.
Qed.

(** X9. [select_project] on the token [project_<id>]: the id is stored
    first; with a project of that id, its name is stored too, the hours
    are asked for and the answer is ENTERING_HOURS; with no such project
    the lookup of the name fails with a TypeError and only the id stays in
    the context. *)
Theorem select_project_token E pid w :
  db_up E = true ->
  select_project E ("project_" +:+ Py.str pid) w
  = match find_project pid (db w) with
    | Some r =>
        (Ok (RState ENTERING_HOURS),
         World (<["selected_project_name" := VStr (project_name r)]>
                  (<["selected_project_id" := VInt pid]> (user_data w)))
               (db w) (calls w ++ [hours_prompt (project_name r)]))
    | None =>
        (Raise TypeError,
         World (<["selected_project_id" := VInt pid]> (user_data w)) (db w) (calls w))
    end.
Proof.
  intros Hup. unfold select_project.
  change ("project_" +:+ Py.str pid) with ("project" +:+ String "_" (Py.str pid)).
  rewrite token_arg_1 by reflexivity.
  mrun. cbn [lookup list_lookup]. mrun. rewrite int_str. mrun. rewrite Hup.
  destruct (find_project pid (db w)) as [r |]; cbn [fmap option_fmap option_map];
    mrun; reflexivity.
Qed.

Lemma select_project_token_witness :
  db_up sample_env = true /\
  fst (select_project sample_env ("project_" +:+ Py.str 2) (sample_world ∅))
  = Ok (RState ENTERING_HOURS).
Proof.
  split; [reflexivity |].
  rewrite (select_project_token sample_env 2 (sample_world ∅) eq_refl).
  reflexivity.
Defined.

Lemma find_project_in (l : list project_row) r :
  In r l -> is_Some (List.find (fun x => project_id x =? project_id r) l).
Proof.
  induction l as [| x l IH]; [intros [] |].
  intros Hin. cbn [List.find].
  destruct (project_id x =? project_id r) eqn:Hx; [eauto |].
  destruct Hin as [-> | Hin]; [rewrite Z.eqb_refl in Hx; discriminate | apply IH, Hin].
Qed.

Lemma respond_run {B} u t kb (k : unit -> M B) w :
  (respond u t kb ≫= k) w
  = k tt (World (user_data w) (db w) (calls w ++ [prompt_call u t kb])).
Proof. unfold respond, prompt_call. destruct (is_callback u); mrun; reflexivity. Qed.

(** X10. [start_add_hours] for a user who is not banned, with the database
    up: without an active project it says so and ends the conversation;
    otherwise it answers SELECTING_PROJECT and shows a keyboard whose rows
    are the buttons of the active projects, and the token of every button
    names a project of the database, so that [select_project] finds its
    name. *)
Theorem start_add_hours_offers E u w :
  db_up E = true -> banned_in (db w) (effective_user u) = false ->
  (List.filter is_active (projects (db w)) = []
   /\ start_add_hours E u w
      = (Ok REND, World (user_data w) (db w)
                    (calls w ++ [prompt_call u NO_PROJECTS None])))
  \/ (exists kb,
        start_add_hours E u w
        = (Ok (RState SELECTING_PROJECT),
           World (user_data w) (db w)
             (calls w ++ [prompt_call u (Lit "📋 Выберите проект:") (Some kb)]))
        /\ (forall row,
              In row kb <->
              exists r, In r (projects (db w)) /\ is_active r = true
                        /\ row = project_choice (project_id r, project_name r))
        /\ (forall row, In row kb ->
              exists pid b, row = [b] /\ callback_data b = "project_" +:+ Py.str pid
                            /\ is_Some (find_project pid (db w)))).
Proof.
  intros Hup Hban. unfold start_add_hours.
  rewrite (run_is_banned E _ _ _ Hup), Hban. cbv iota.
  rewrite get_projects_run, Hup.
  destruct (List.filter is_active (projects (db w))) as [| r0 l] eqn:Hact.
  - left. split; [reflexivity |]. cbn [map]. rewrite respond_run. reflexivity.
  - right. rewrite <- Hact.
    exists (map project_choice
              (map (fun r => (project_id r, project_name r))
                   (List.filter is_active (projects (db w))))).
    assert (Hrows : forall row,
              In row (map project_choice
                        (map (fun r => (project_id r, project_name r))
                             (List.filter is_active (projects (db w)))))
              <-> exists r, In r (projects (db w)) /\ is_active r = true
                            /\ row = project_choice (project_id r, project_name r)).
    { intros row. rewrite map_map, in_map_iff. split.
      - intros (r & <- & Hr). apply List.filter_In in Hr as [Hr Ha]. eauto.
      - intros (r & Hr & Ha & ->). exists r. split; [reflexivity |].
        apply List.filter_In. auto. }
    split; [| split; [exact Hrows |]].
    + rewrite Hact. cbn [map]. rewrite respond_run. reflexivity.
    + intros row Hrow. apply Hrows in Hrow as (r & Hr & _ & ->).
      exists (project_id r), (InlineKeyboardButton (Lit (project_name r))
                                ("project_" +:+ Py.str (project_id r))).
      split; [reflexivity | split; [reflexivity |]].
      apply find_project_in, Hr.
Qed.

Lemma start_add_hours_offers_witness :
  db_up sample_env = true /\ banned_in sample_db 7 = false /\
  fst (start_add_hours sample_env (button_press 7 "add_hours") (sample_world ∅))
  = Ok (RState SELECTING_PROJECT).
Proof.
  split; [reflexivity | split; [reflexivity |]].
  destruct (start_add_hours_offers sample_env (button_press 7 "add_hours")
              (sample_world ∅) eq_refl eq_refl) as [[Hnone _] | (kb & Hrun & _)].
  - discriminate Hnone.
  - rewrite Hrun. reflexivity.
Defined.

(** ** Pressing a day of the calendar *)





(** ** The day before *)



Lemma days_in_month_pos y m : 1 <= m <= 12 -> 28 <= Cal.days_in_month y m.
Proof.
  intros Hm. unfold Cal.days_in_month.
  assert (Hc : m = 1 \/ m = 2 \/ m = 3 \/ m = 4 \/ m = 5 \/ m = 6 \/ m = 7 \/ m = 8
               \/ m = 9 \/ m = 10 \/ m = 11 \/ m = 12) by lia.
  destruct (Cal.isleap y);
    repeat (destruct Hc as [-> | Hc]; [cbn; lia |]); subst m; cbn; lia.
Qed.

Lemma valid_date_spec y m d :
  Cal.valid_date y m d = true
  <-> Cal.MINYEAR <= y <= Cal.MAXYEAR /\ 1 <= m <= 12 /\ 1 <= d <= Cal.days_in_month y m.
Proof.
  unfold Cal.valid_date. rewrite !andb_true_iff, !Z.leb_le. tauto.
Qed.


Lemma iso_not_custom y m d :
  Cal.valid_date y m d = true -> 1000 <= y -> Cal.iso y m d <> "custom".
Proof.
  intros Hv Hy Heq. pose proof (strptime_iso y m d Hv Hy) as H.
  rewrite Heq in H. vm_compute in H. discriminate H.
Qed.



(** ** The description step *)

Lemma show_date_selection_run E u w name hours :
  user_data w !! "selected_project_name" = Some name ->
  user_data w !! "selected_hours" = Some hours ->
  show_date_selection E u w
  = (Ok (RState SELECTING_DATE),
     World (user_data w) (db w)
       (calls w ++ [prompt_call u
                      (date_prompt name hours
                         (default NOT_SPECIFIED (user_data w !! "description")))
                      (Some (date_keyboard E))])).
Proof.
  intros Hname Hhours. unfold show_date_selection. cbv zeta. mrun.
  rewrite Hname. mrun. rewrite Hhours. mrun. rewrite respond_run. reflexivity.
Qed.

(** X13. After "skip" the description is stored as [None]: the key is
    present, so the date prompt interpolates [None] itself and not the
    default text of [.get('description', 'Не указано')]; the entry saved
    afterwards has no description, and its confirmation says
    'Не указано'.  A description typed by the user is stored stripped and
    shown as typed. *)
Theorem description_step E u w pid hours name :
  user_data w !! "selected_project_id" = Some pid ->
  user_data w !! "selected_hours" = Some hours ->
  user_data w !! "selected_project_name" = Some name ->
  let skipped := World (<["description" := VNone]> (user_data w)) (db w)
                   (calls w ++ [prompt_call u (date_prompt name hours VNone)
                                  (Some (date_keyboard E))]) in
  skip_description E u w = (Ok (RState SELECTING_DATE), skipped)
  /\ (forall msg,
        is_str "add_project" (user_data w !! "admin_action") = false ->
        handle_description_input E u msg w
        = (Ok (RState SELECTING_DATE),
           World (<["description" := VStr (Py.strip msg)]> (user_data w)) (db w)
             (calls w ++ [prompt_call u (date_prompt name hours (VStr (Py.strip msg)))
                            (Some (date_keyboard E))])))
  /\ (forall u' y m d,
        db_up E = true ->
        row_ok E (new_entry (db w) (effective_user u') pid hours VNone (Cal.iso y m d))
        = true ->
        handle_calendar E u' (select_token "cal_" y m d) skipped
        = (Ok REND,
           World ∅
             (insert_entry (new_entry (db w) (effective_user u') pid hours VNone
                              (Cal.iso y m d)) (db w))
             (calls skipped
              ++ [answer None;
                  reply_text
                    (entry_added name hours NOT_SPECIFIED
                       (Py.fmt02d d +:+ "." +:+ Py.fmt02d m +:+ "." +:+ Py.str y))
                    None]))).
Proof.
  intros Hpid Hhours Hname skipped.
  assert (Hne : forall k v, k <> "description" ->
                  <["description" := v]> (user_data w) !! k = user_data w !! k).
  { intros k v Hk. apply lookup_insert_ne. congruence. }
  split; [| split].
  - unfold skip_description. mrun.
    rewrite (show_date_selection_run E u _ name hours);
      cbn [user_data db calls]; rewrite ?Hne by discriminate; try assumption.
    rewrite lookup_insert_eq. reflexivity.
  - intros msg Hact. unfold handle_description_input. cbv zeta. mrun.
    rewrite Hact. mrun.
    rewrite (show_date_selection_run E u _ name hours);
      cbn [user_data db calls]; rewrite ?Hne by discriminate; try assumption.
    rewrite lookup_insert_eq. reflexivity.
  - intros u' y m d Hup Hrow.
    rewrite (handle_calendar_commit E u' skipped y m d pid hours);
      unfold skipped; cbn [user_data db calls];
      rewrite ?Hne by discriminate; try assumption.
    cbv zeta. rewrite lookup_insert_eq. cbn [default from_option id].
    rewrite Hup, Hrow, Hne, Hname by discriminate. cbn [andb]. unfold entry_saved.
    cbn [user_data db calls]. rewrite !Hne by discriminate.
    rewrite lookup_insert_eq, Hhours, Hpid. reflexivity.
Qed.

Lemma description_step_witness :
  fst (skip_description sample_env (button_press 7 "skip_description") date_world)
  = Ok (RState SELECTING_DATE).
Proof.
  assert (Hpid : user_data date_world !! "selected_project_id" = Some (VInt 1))
    by (vm_compute; reflexivity).
  assert (Hhours : user_data date_world !! "selected_hours"
                   = Some (VFloat (Py.float_of_Z 2)))
    by (vm_compute; reflexivity).
  assert (Hname : user_data date_world !! "selected_project_name" = Some (VStr "Dev"))
    by (vm_compute; reflexivity).
  rewrite (proj1 (description_step sample_env (button_press 7 "skip_description")
                    date_world (VInt 1) (VFloat (Py.float_of_Z 2)) (VStr "Dev")
                    Hpid Hhours Hname)).
  reflexivity.
Defined.

(** ** Choosing the range of a report *)

(** X14. With no start date pending, a day selected on the report calendar
    becomes the start of the range: it is stored in ISO form and as
    dd.mm.yyyy, and the end date is asked for on the calendar of the same
    month.  No report is produced and the database is not consulted. *)
Theorem report_range_start E u w y m d kb :
  truthy (user_data w !! "report_start_date") = false ->
  generate_report_calendar y m = Some kb ->
  let shown := Py.fmt02d d +:+ "." +:+ Py.fmt02d m +:+ "." +:+ Py.str y in
  handle_report_calendar E u (select_token "report_cal_" y m d) w
  = (Ok RNone,
     World (<["report_start_date_formatted" := VStr shown]>
              (<["report_start_date" := VStr (Cal.iso y m d)]> (user_data w)))
           (db w)
           (calls w ++ [edit_message_text (report_end_prompt (VStr shown)) (Some kb)])).
Proof.
  intros Hstart Hkb shown. unfold handle_report_calendar.
  replace (String.eqb (select_token "report_cal_" y m d) "report_cal_ignore")
    with false by reflexivity.
  replace (Py.startswith (select_token "report_cal_" y m d) "report_cal_prev_")
    with false by reflexivity.
  replace (Py.startswith (select_token "report_cal_" y m d) "report_cal_next_")
    with false by reflexivity.
  replace (Py.startswith (select_token "report_cal_" y m d) "report_cal_select_")
    with true by reflexivity.
  cbn [orb]. cbv iota. rewrite report_select_split.
  rewrite (item_int_run _ 3 (Py.str y) y) by (reflexivity || apply int_str).
  rewrite (item_int_run _ 4 (Py.str m) m) by (reflexivity || apply int_str).
  rewrite (item_int_run _ 5 (Py.str d) d) by (reflexivity || apply int_str).
  cbv zeta. mrun. rewrite Hstart. cbn [negb]. cbv iota. mrun.
  rewrite Hkb. mrun. reflexivity.
Qed.

Lemma report_range_start_witness :
  exists kb,
    generate_report_calendar 2024 6 = Some kb /\
    user_data (snd (handle_report_calendar sample_env (button_press 7 "x")
                      (select_token "report_cal_" 2024 6 3) (sample_world ∅)))
    !! "report_start_date" = Some (VStr "2024-06-03").
Proof.
  destruct (generate_report_calendar 2024 6) as [kb |] eqn:Hkb;
    [| vm_compute in Hkb; discriminate].
  exists kb. split; [reflexivity |].
  assert (Hstart : truthy (user_data (sample_world ∅) !! "report_start_date") = false)
    by (vm_compute; reflexivity).
  rewrite (report_range_start sample_env (button_press 7 "x") (sample_world ∅)
             2024 6 3 kb Hstart Hkb).
  cbn [snd user_data]. rewrite lookup_insert_ne by discriminate.
  rewrite lookup_insert_eq. reflexivity.
Defined.

Lemma handle_report_custom_context E u w :
  user_data (snd (handle_report E u "report_custom" w)) = user_data w.
Proof.
  unfold handle_report, target_user, show_custom_date_selection.
  change (Py.split "_" "report_custom") with ["report"; "custom"].
  cbv zeta. mrun. cbn [lookup list_lookup]. mrun. decide_tests. cbv iota.
  destruct (generate_report_calendar _ _); mrun; reflexivity.
Qed.

(** X15. Opening the range picker again does not forget a start date that
    is pending: the context is the same after [report_custom], so the next
    day selected is still checked as the end of the range that started on
    the date chosen before. *)
Theorem report_range_reopened E u w ys ms ds y m d fmt :
  db_up E = true ->
  Cal.valid_date ys ms ds = true -> 1000 <= ys ->
  Cal.valid_date y m d = true -> 1000 <= y ->
  user_data w !! "report_start_date" = Some (VStr (Cal.iso ys ms ds)) ->
  user_data w !! "report_start_date_formatted" = Some fmt ->
  let w1 := snd (handle_report E u "report_custom" w) in
  user_data w1 = user_data w
  /\ handle_report_calendar E u (select_token "report_cal_" y m d) w1
     = if Cal.date_ltb (Cal.mkdate y m d) (Cal.mkdate ys ms ds)
       then range_rejected w1 END_BEFORE_START
       else if 365 <? Cal.days_between (Cal.mkdate y m d) (Cal.mkdate ys ms ds)
            then range_rejected w1 PERIOD_TOO_LONG
            else report_sent E u w1 (VStr (Cal.iso ys ms ds)) (Cal.iso y m d).
Proof.
  intros Hup Hvs Hys Hv Hy Hstart Hfmt w1.
  assert (Hud : user_data w1 = user_data w) by apply handle_report_custom_context.
  split; [exact Hud |].
  apply (handle_report_calendar_end E u w1 ys ms ds y m d fmt);
    try assumption; rewrite Hud; assumption.
Qed.

Lemma report_range_reopened_witness :
  user_data (snd (handle_report sample_env (button_press 7 "report_custom")
                    "report_custom" range_start_world))
  = user_data range_start_world.
Proof.
  assert (Hstart : user_data range_start_world !! "report_start_date"
                   = Some (VStr (Cal.iso 2024 1 1))) by (vm_compute; reflexivity).
  assert (Hfmt : user_data range_start_world !! "report_start_date_formatted"
                 = Some (VStr "01.01.2024")) by (vm_compute; reflexivity).
  exact (proj1 (report_range_reopened sample_env (button_press 7 "report_custom")
                  range_start_world 2024 1 1 2024 6 1 (VStr "01.01.2024")
                  eq_refl eq_refl ltac:(lia) eq_refl ltac:(lia) Hstart Hfmt)).
Defined.

(** ** Leaving to the main menu *)

Lemma is_admin_run E {B} uid (k : bool -> M B) w :
  (is_admin E uid ≫= k) w
  = if db_up E then k (administrator E uid (db w)) w else (Raise DatabaseError, w).
Proof.
  unfold is_admin. rewrite run_assoc, run_select.
  destruct (db_up E); [| reflexivity].
  rewrite run_mret. unfold administrator, flags.
  destruct (find_user uid (db w)); reflexivity.
Qed.

(** X16. [back_to_main] empties the session context before anything else:
    with the database up it sends the main menu, with the admin row
    exactly for an administrator, and ends the conversation; with the
    database down it raises, the context is empty all the same, and a
    conversation that was running stays in its state. *)
Theorem back_to_main_clears E u w :
  user_data (snd (back_to_main E u w)) = ∅
  /\ db (snd (back_to_main E u w)) = db w
  /\ (db_up E = true ->
      back_to_main E u w
      = (Ok REND,
         World ∅ (db w)
           (calls w ++ (if is_callback u then [answer None] else [])
            ++ [reply_menu (Lit "🏠 Главное меню:")
                  (main_menu (administrator E (effective_user u) (db w)))])))
  /\ (db_up E = false ->
      back_to_main E u w = (Raise DatabaseError, World ∅ (db w) (calls w))
      /\ forall s data,
           body u = Callback data -> re_exact "back_to_main" data = true ->
           conversation (process_update E (Some s) u w) = Some s
           /\ user_data (after (process_update E (Some s) u w)) = ∅).
Proof.
  assert (Hrun : back_to_main E u w
                 = if db_up E
                   then (Ok REND,
                         World ∅ (db w)
                           (calls w ++ (if is_callback u then [answer None] else [])
                            ++ [reply_menu (Lit "🏠 Главное меню:")
                                  (main_menu (administrator E (effective_user u) (db w)))]))
                   else (Raise DatabaseError, World ∅ (db w) (calls w))).
  { unfold back_to_main. mrun. rewrite is_admin_run. cbn [db].
    destruct (db_up E); [| reflexivity].
    destruct (is_callback u); mrun; rewrite <- ?app_assoc; reflexivity. }
  split; [rewrite Hrun; destruct (db_up E); reflexivity |].
  split; [rewrite Hrun; destruct (db_up E); reflexivity |].
  split; [intros Hup; rewrite Hrun, Hup; reflexivity |].
  intros Hup. rewrite Hup in Hrun. split; [exact Hrun |].
  intros s data Hbody Hdata.
  unfold process_update, is_command, wizard. rewrite Hbody. cbv iota.
  unfold re_exact in Hdata. apply orb_true_iff in Hdata.
  assert (Hp : re_prefix "project_" data = false /\ re_prefix "hours_" data = false
               /\ re_exact "skip_description" data = false
               /\ re_prefix "date_" data = false /\ re_prefix "cal_" data = false
               /\ re_exact "back_to_main" data = true).
  { destruct Hdata as [H | H]; apply String.eqb_eq in H; subst data;
      repeat split; reflexivity. }
  destruct Hp as (H1 & H2 & H3 & H4 & H5 & H6).
  destruct s; rewrite ?H1, ?H2, ?H3, ?H4, ?H5, H6; cbv iota; rewrite Hrun;
    split; reflexivity.
Qed.

Lemma back_to_main_clears_witness :
  db_up offline_env = false /\
  user_data (after (process_update offline_env (Some SELECTING_DATE)
                      (button_press 7 "back_to_main") date_world)) = ∅ /\
  conversation (process_update offline_env (Some SELECTING_DATE)
                  (button_press 7 "back_to_main") date_world) = Some SELECTING_DATE.
Proof.
  destruct (back_to_main_clears offline_env (button_press 7 "back_to_main") date_world)
    as (_ & _ & _ & Hdown).
  destruct (Hdown eq_refl) as [_ Hstay].
  destruct (Hstay SELECTING_DATE "back_to_main" eq_refl eq_refl) as [Hst Hud].
  split; [reflexivity | split; [exact Hud | exact Hst]].
Defined.

(** ** Malformed token arguments *)

Lemma startswith_inv s p : Py.startswith s p = true -> exists rest, s = p +:+ rest.
Proof.
  revert s. induction p as [| a p IH]; intros s H; [exists s; reflexivity |].
  destruct s as [| b s]; [discriminate |].
  cbn [Py.startswith] in H. apply andb_true_iff in H as [Hab Hs].
  apply Ascii.eqb_eq in Hab. subst b.
  destruct (IH s Hs) as [rest ->]. exists rest. reflexivity.
Qed.

(** C3 (the code departs from the claim). Whenever [int()] refuses the
    argument of a project-selection token or of an entries-page token, the
    handler raises [ValueError] on reading it: [select_project] and
    [handle_entries_pagination] leave the context, the database and the
    chat as they were, and the conversation keeps its state; through
    [button_handler] the callback has been answered before the exception
    leaves. *)
Theorem malformed_token_raises E uid data arg w :
  Py.int arg = None ->
  (Py.split "_" data !! 1%nat = Some arg ->
     select_project E data w = (Raise ValueError, w)
     /\ (Py.startswith data "project_" = true ->
         process_update E (Some SELECTING_PROJECT) (button_press uid data) w
         = {| conversation := Some SELECTING_PROJECT; after := w;
              by_wizard := Some (Raise ValueError) |}))
  /\ (Py.split "_" data !! 2%nat = Some arg ->
        handle_entries_pagination E (button_press uid data) data w
        = (Raise ValueError, w)
        /\ (Py.startswith data "entries_page_" = true ->
            db_up E = true -> banned_in (db w) uid = false ->
            button_handler E (button_press uid data) data w
            = (Raise ValueError,
               World (user_data w) (db w) (calls w ++ [answer None])))).
Proof.
  intros Hint. split.
  - intros Harg.
    assert (H1 : select_project E data w = (Raise ValueError, w)).
    { unfold select_project. mrun. rewrite Harg. mrun. rewrite Hint. reflexivity. }
    split; [exact H1 |]. intros Hpre.
    unfold process_update, is_command.
    change (body (button_press uid data)) with (Callback data). cbv iota.
    unfold wizard.
    change (body (button_press uid data)) with (Callback data). cbv iota.
    unfold re_prefix. rewrite Hpre. cbv iota. rewrite H1. reflexivity.
  - intros Harg.
    assert (H2 : forall w0, handle_entries_pagination E (button_press uid data) data w0
                            = (Raise ValueError, w0)).
    { intros w0. unfold handle_entries_pagination. mrun. rewrite Harg. mrun.
      rewrite Hint. reflexivity. }
    split; [apply H2 |]. intros Hpre Hup Hban.
    destruct (startswith_inv _ _ Hpre) as [rest ->].
    unfold button_handler. decide_tests. cbn [negb]. cbv iota.
    rewrite (run_is_banned E _ _ _ Hup).
    change (effective_user (button_press uid ("entries_page_" +:+ rest))) with uid.
    rewrite Hban. mrun. apply H2.
Qed.

Lemma malformed_token_raises_witness :
  select_project sample_env "project_abc" (sample_world ∅)
  = (Raise ValueError, sample_world ∅).
Proof.
  apply (malformed_token_raises sample_env 7 "project_abc" "abc" (sample_world ∅)).
  - vm_compute. reflexivity.
  - reflexivity.
Defined.

(** The project token of the admin menu is read behind a guard,
    [bot.py:918]: with an argument that [isdigit()] refuses, no branch of
    [handle_admin] reads a number and the administrator is told that the
    action is unknown. *)
Lemma admin_project_token_guarded E u w :
  db_up E = true -> administrator E (effective_user u) (db w) = true ->
  handle_admin E u "admin_project_abc" w
  = only_sends w RNone [answer (Some (Lit "❌ Неизвестное действие"))].
Proof.
  intros Hup Hadm. unfold handle_admin.
  rewrite is_admin_run, Hup, Hadm. cbn [negb]. cbv iota zeta.
  change (Py.join "_" (tail (Py.split "_" "admin_project_abc"))) with "project_abc".
  decide_tests.
  change (Py.split "_" "project_abc" !! 1%nat) with (Some "abc").
  change (Py.isdigit "abc") with false.
  cbn [andb]. cbv iota. mrun. reflexivity.
Qed.

(** ** The start command *)

Lemma registered_known uid d : is_Some (find_user uid (registered uid d)).
Proof.
  unfold registered. destruct (find_user uid d) as [r |] eqn:Hr; [rewrite Hr; eauto |].
  unfold find_user in *. cbn [users]. rewrite find_user_app, Hr.
  cbn [user_id]. rewrite Z.eqb_refl. eauto.
Qed.

Lemma registered_flags uid d t : flags t (registered uid d) = flags t d.
Proof.
  unfold registered. destruct (find_user uid d) as [r |] eqn:Hr; [reflexivity |].
  unfold flags, find_user in *. cbn [users]. rewrite find_user_app. cbn [user_id].
  destruct (List.find (fun x => user_id x =? t) (users d)) eqn:Ht; [reflexivity |].
  destruct (uid =? t); reflexivity.
Qed.

Lemma registered_twice uid d : registered uid (registered uid d) = registered uid d.
Proof.
  destruct (registered_known uid d) as [r Hr].
  unfold registered at 1. rewrite Hr. reflexivity.
Qed.

Lemma banned_in_flags d t : banned_in d t = snd (flags t d).
Proof. unfold banned_in, flags. destruct (find_user t d); reflexivity. Qed.

Lemma start_run E u w :
  db_up E = true ->
  start E u w
  = if banned_in (db w) (effective_user u)
    then only_sends w RNone [reply_text BANNED None]
    else (Ok RNone,
          World (user_data w) (registered (effective_user u) (db w))
            (calls w ++ [reply_menu (Lit "👋 Привет, {}!")
                           (main_menu (administrator E (effective_user u) (db w)))])).
Proof.
  intros Hup. unfold start. rewrite (run_is_banned E _ _ _ Hup).
  destruct (banned_in (db w) (effective_user u)); cbv iota; [mrun; reflexivity |].
  assert (Hreg : register_user E (effective_user u) w
                 = (Ok tt, World (user_data w) (registered (effective_user u) (db w))
                             (calls w)))
    by (unfold register_user, execute; rewrite Hup; reflexivity).
  rewrite bind_unfold, Hreg, is_admin_run, Hup. cbn [db user_data calls]. mrun.
  unfold administrator. rewrite registered_flags. reflexivity.
Qed.

(** X17. [/start] with the database up.  A banned user gets the ban notice
    and nothing else happens.  Any other user is registered: afterwards
    the user has a row; the flags of every user, the projects and the time
    entries are as before; the menu has the admin row exactly for an
    administrator; and a second [/start] leaves the database as the first
    one left it.  The session context is never touched. *)
Theorem start_registers E u w :
  db_up E = true ->
  let uid := effective_user u in
  let w1 := snd (start E u w) in
  fst (start E u w) = Ok RNone
  /\ user_data w1 = user_data w
  /\ (forall t, flags t (db w1) = flags t (db w))
  /\ projects (db w1) = projects (db w)
  /\ time_entries (db w1) = time_entries (db w)
  /\ db (snd (start E u w1)) = db w1
  /\ (banned_in (db w) uid = true ->
      db w1 = db w /\ calls w1 = calls w ++ [reply_text BANNED None])
  /\ (banned_in (db w) uid = false ->
      is_Some (find_user uid (db w1))
      /\ exists greeting,
           calls w1 = calls w ++ [reply_menu greeting
                                    (main_menu (administrator E uid (db w)))]).
Proof.
  intros Hup uid w1. unfold w1. rewrite !(start_run E u _ Hup).
  destruct (banned_in (db w) (effective_user u)) eqn:Hban.
  - cbn [fst snd only_sends user_data db calls]. rewrite Hban.
    cbn [snd only_sends db].
    repeat split; intros; try reflexivity; unfold uid in *; congruence.
  - cbn [fst snd user_data db calls].
    rewrite banned_in_flags, registered_flags, <- banned_in_flags, Hban.
    cbn [snd db].
    split; [reflexivity |]. split; [reflexivity |].
    split; [intros t; apply registered_flags |].
    split; [unfold registered; destruct (find_user _ _); reflexivity |].
    split; [unfold registered; destruct (find_user _ _); reflexivity |].
    split; [apply registered_twice |].
    split; [unfold uid; congruence |].
    intros _. split; [apply registered_known | eexists; reflexivity].
Qed.

Lemma start_registers_witness :
  db_up sample_env = true /\
  is_Some (find_user 42 (db (snd (start sample_env {| effective_user := 42;
                                                       body := Command "start" |}
                                    (sample_world ∅))))).
Proof.
  split; [reflexivity |].
  destruct (start_registers sample_env {| effective_user := 42; body := Command "start" |}
              (sample_world ∅) eq_refl) as (_ & _ & _ & _ & _ & _ & _ & Hnew).
  exact (proj1 (Hnew eq_refl)).
Defined.

(** ** A whole pass through the wizard *)

Lemma process_update_wizard E st u w h :
  is_command "start" u = false -> is_command "help" u = false ->
  wizard E st u = Some h ->
  process_update E st u w
  = {| conversation := next_state st (fst (h w)); after := snd (h w);
       by_wizard := Some (fst (h w)) |}.
Proof.
  intros Hs Hh Hw. unfold process_update. rewrite Hs, Hh, Hw.
  destruct (h w); reflexivity.
Qed.

Lemma start_add_hours_some E u w r :
  db_up E = true -> banned_in (db w) (effective_user u) = false ->
  In r (projects (db w)) -> is_active r = true ->
  exists c, start_add_hours E u w
            = (Ok (RState SELECTING_PROJECT),
               World (user_data w) (db w) (calls w ++ [c])).
Proof.
  intros Hup Hban Hr Ha. unfold start_add_hours.
  rewrite (run_is_banned E _ _ _ Hup), Hban. cbv iota.
  rewrite get_projects_run, Hup.
  destruct (List.filter is_active (projects (db w))) as [| r0 l] eqn:Hact.
  - assert (Hin : In r (List.filter is_active (projects (db w))))
      by (apply List.filter_In; auto).
    rewrite Hact in Hin. destruct Hin.
  - cbn [map]. rewrite respond_run. eexists. reflexivity.
Qed.

Lemma find_project_some pid d r :
  find_project pid d = Some r -> In r (projects d) /\ project_id r = pid.
Proof.
  unfold find_project. intros H. apply List.find_some in H as [Hin H].
  split; [exact Hin | apply Z.eqb_eq, H].
Qed.

Lemma ud_lookup_eq (m : gmap string pyval) k v : <[k := v]> m !! k = Some v.
Proof. apply lookup_insert_eq. Qed.

Lemma ud_lookup_ne (m : gmap string pyval) k k' v :
  k <> k' -> <[k := v]> m !! k' = m !! k'.
Proof. apply lookup_insert_ne. Qed.

Ltac ud_lookup :=
  repeat first [ rewrite ud_lookup_eq
               | rewrite ud_lookup_ne by discriminate ].

(** X18. One pass through the wizard, for a user who is not banned and a
    project that is active: the add-hours button, the button of the
    project, a typed amount of hours that passes the two tests, a typed
    description and the "today" button.  With the database up and the row
    accepted, the run ends out of the conversation, with an empty context
    and exactly one more row: the user's, for that project, hours,
    stripped description and today's ISO date.  Nothing pending from an
    admin action may be in the context, or the description would be taken
    as a project name. *)
Theorem wizard_saves_entry E uid pid r hours_msg h description w :
  let t := today E in
  let row := new_entry (db w) uid (VInt pid) (VFloat h)
               (VStr (Py.strip description)) (Cal.strftime_iso t) in
  db_up E = true -> row_ok E row = true ->
  banned_in (db w) uid = false ->
  find_project pid (db w) = Some r -> is_active r = true ->
  Py.float (Py.replace "," "." hours_msg) = Some h ->
  Py.float_le h (Py.float_of_Z 0) || Py.float_gt h (Py.float_of_Z 24) = false ->
  is_str "add_project" (user_data w !! "admin_action") = false ->
  Cal.valid_date (Cal.year t) (Cal.month t) (Cal.day t) = true ->
  1000 <= Cal.year t ->
  let final := run None w
                 [ (E, button_press uid "add_hours");
                   (E, button_press uid ("project_" +:+ Py.str pid));
                   (E, text_message uid hours_msg);
                   (E, text_message uid description);
                   (E, button_press uid ("date_" +:+ Cal.strftime_iso t)) ] in
  fst final = None
  /\ user_data (snd final) = ∅
  /\ db (snd final) = insert_entry row (db w).
Proof.
  intros t row Hup Hrow Hban Hr Ha Hfloat Hrange Hact Hv Hy final.
  destruct (find_project_some _ _ _ Hr) as [Hin Hid].
  (* the add-hours button *)
  destruct (start_add_hours_some E (button_press uid "add_hours") w r Hup Hban Hin Ha)
    as [c1 H1].
  unfold final. cbn [run].
  rewrite (process_update_wizard E None (button_press uid "add_hours") w
             (start_add_hours E (button_press uid "add_hours")) eq_refl eq_refl eq_refl).
  rewrite H1. cbn [conversation after fst snd next_state].
  (* the project *)
  rewrite (process_update_wizard E (Some SELECTING_PROJECT)
             (button_press uid ("project_" +:+ Py.str pid)) _
             (select_project E ("project_" +:+ Py.str pid)) eq_refl eq_refl eq_refl).
  assert (H2 : forall w0, db w0 = db w ->
            select_project E ("project_" +:+ Py.str pid) w0
            = (Ok (RState ENTERING_HOURS),
               World (<["selected_project_name" := VStr (project_name r)]>
                        (<["selected_project_id" := VInt pid]> (user_data w0)))
                     (db w0) (calls w0 ++ [hours_prompt (project_name r)]))).
  { intros w0 Hw0. unfold select_project.
    change ("project_" +:+ Py.str pid) with ("project" +:+ String "_" (Py.str pid)).
    rewrite token_arg_1 by reflexivity.
    mrun. cbn [lookup list_lookup]. mrun. rewrite int_str. mrun.
    rewrite Hup, Hw0, Hr. cbn [fmap option_fmap option_map]. mrun. reflexivity. }
  rewrite H2 by reflexivity. cbn [conversation after fst snd next_state user_data db calls].
  (* the hours *)
  rewrite (process_update_wizard E (Some ENTERING_HOURS) (text_message uid hours_msg) _
             (handle_hours_input hours_msg) eq_refl eq_refl eq_refl).
  rewrite handle_hours_input_run, Hfloat, Hrange. cbn [user_data].
  rewrite lookup_insert_eq. unfold hours_stored.
  cbn [conversation after fst snd next_state user_data db calls].
  (* the description *)
  rewrite (process_update_wizard E (Some ENTERING_DESCRIPTION)
             (text_message uid description) _
             (handle_description_input E (text_message uid description) description)
             eq_refl eq_refl eq_refl).
  assert (H4 : forall w0 name hours,
            is_str "add_project" (user_data w0 !! "admin_action") = false ->
            user_data w0 !! "selected_project_name" = Some name ->
            user_data w0 !! "selected_hours" = Some hours ->
            exists c,
              handle_description_input E (text_message uid description) description w0
              = (Ok (RState SELECTING_DATE),
                 World (<["description" := VStr (Py.strip description)]> (user_data w0))
                       (db w0) (calls w0 ++ [c]))).
  { intros w0 name hours Hact0 Hname Hhours.
    unfold handle_description_input. cbv zeta. mrun. rewrite Hact0. mrun.
    rewrite (show_date_selection_run E _ _ name hours);
      cbn [user_data db calls];
      rewrite ?lookup_insert_ne by discriminate; try assumption.
    eexists. reflexivity. }
  match goal with
  | |- context [handle_description_input _ _ _ ?w0] =>
      destruct (H4 w0 (VStr (project_name r)) (VFloat h)) as [c4 Hc4];
        [ cbn [user_data]; rewrite !lookup_insert_ne by discriminate; exact Hact
        | cbn [user_data]; rewrite lookup_insert_ne by discriminate;
          apply lookup_insert_eq
        | cbn [user_data]; apply lookup_insert_eq
        | rewrite Hc4 ]
  end.
  cbn [conversation after fst snd next_state user_data db calls].
  (* the date *)
  rewrite (process_update_wizard E (Some SELECTING_DATE)
             (button_press uid ("date_" +:+ Cal.strftime_iso t)) _
             (select_date E (button_press uid ("date_" +:+ Cal.strftime_iso t))
                ("date_" +:+ Cal.strftime_iso t)) eq_refl eq_refl eq_refl).
  unfold Cal.strftime_iso.
  rewrite (select_date_commit E _ _ _ (VInt pid) (VFloat h)
             (iso_not_custom _ _ _ Hv Hy));
    cbn [user_data db calls].
  2: { rewrite !lookup_insert_ne by discriminate. apply lookup_insert_eq. }
  2: { rewrite lookup_insert_ne by discriminate. apply lookup_insert_eq. }
  cbv zeta. ud_lookup. cbn [default from_option id effective_user button_press].
  fold t. unfold row, Cal.strftime_iso in Hrow. rewrite Hup, Hrow. cbn [andb].
  rewrite (strptime_iso _ _ _ Hv Hy).
  unfold entry_saved. cbn [conversation after fst snd next_state user_data db calls].
  ud_lookup.
  split; [reflexivity |]. split; reflexivity.
Qed.

Lemma wizard_saves_entry_witness :
  let final := run None (sample_world ∅)
                 [ (sample_env, button_press 7 "add_hours");
                   (sample_env, button_press 7 "project_1");
                   (sample_env, text_message 7 "2,0");
                   (sample_env, text_message 7 " review ");
                   (sample_env, button_press 7 "date_2024-06-15") ] in
  fst final = None /\ user_data (snd final) = ∅ /\
  time_entries (db (snd final))
  = time_entries sample_db
    ++ [ {| entry_id := 13; entry_user := 7; entry_project := VInt 1;
            entry_hours := VFloat (Py.float_of_Z 2);
            entry_description := VStr "review"; entry_date := "2024-06-15" |} ].
Proof.
  assert (Hact : is_str "add_project" (user_data (sample_world ∅) !! "admin_action")
                 = false) by (vm_compute; reflexivity).
  assert (Hfloat : Py.float (Py.replace "," "." "2,0") = Some (Py.float_of_Z 2))
    by (vm_compute; reflexivity).
  assert (Hrange : Py.float_le (Py.float_of_Z 2) (Py.float_of_Z 0)
                   || Py.float_gt (Py.float_of_Z 2) (Py.float_of_Z 24) = false)
    by (vm_compute; reflexivity).
  destruct (wizard_saves_entry sample_env 7 1
              {| project_id := 1; project_name := "Dev"; is_active := true |}
              "2,0" (Py.float_of_Z 2) " review " (sample_world ∅)
              eq_refl eq_refl eq_refl eq_refl eq_refl Hfloat Hrange Hact
              eq_refl ltac:(vm_compute; discriminate)) as (Hst & Hud & Hdb).
  cbv zeta. split; [exact Hst |]. split; [exact Hud |].
  change (run None (sample_world ∅) _)
    with (run None (sample_world ∅)
            [ (sample_env, button_press 7 "add_hours");
              (sample_env, button_press 7 ("project_" +:+ Py.str 1));
              (sample_env, text_message 7 "2,0");
              (sample_env, text_message 7 " review ");
              (sample_env, button_press 7
                 ("date_" +:+ Cal.strftime_iso (today sample_env))) ]).
  rewrite Hdb. reflexivity.
Defined.

(** ** The shape of the report calendar *)

Lemma itermonthdays_length y m :
  1 <= m <= 12 ->
  exists k, (4 <= k <= 6)%nat /\ length (Cal.itermonthdays y m) = (7 * k)%nat.
Proof.
  intros Hm. unfold Cal.itermonthdays. cbv zeta.
  rewrite !length_app, !repeat_length, length_map, length_seq.
  pose proof (days_in_month_pos y m Hm) as Hlo.
  pose proof (days_in_month_bound y m) as Hhi.
  set (day1 := Cal.weekday y m 1). set (n := Cal.days_in_month y m) in *.
  assert (Hb : 0 <= day1 mod 7 < 7) by (apply Z.mod_pos_bound; lia).
  assert (Ha : 0 <= (0 - day1 - n) mod 7 < 7) by (apply Z.mod_pos_bound; lia).
  assert (Hsum : exists k, 4 <= k <= 6 /\ day1 mod 7 + n + (0 - day1 - n) mod 7 = 7 * k).
  { exists ((day1 mod 7 + n + (0 - day1 - n) mod 7) / 7).
    Z.div_mod_to_equations. lia. }
  destruct Hsum as (k & Hk & Hsum). exists (Z.to_nat k). split; [lia |]. lia.
Qed.

Lemma chunks_shape {A} k : forall fuel (l : list A),
  length l = (7 * k)%nat -> (k <= fuel)%nat ->
  length (Cal.chunks fuel l) = k /\ Forall (fun w => length w = 7%nat) (Cal.chunks fuel l).
Proof.
  induction k as [| k IH]; intros fuel l Hl Hf.
  - destruct l; [| cbn in Hl; lia]. destruct fuel; split; constructor.
  - destruct fuel as [| fuel]; [lia |].
    destruct l as [| a l]; [cbn in Hl; lia |].
    cbn [Cal.chunks].
    destruct (IH fuel (skipn 7 (a :: l))) as [Hlen Hall].
    + rewrite length_skipn. lia.
    + lia.
    + split; [cbn [length]; rewrite Hlen; reflexivity |].
      constructor; [| exact Hall]. rewrite length_firstn. lia.
Qed.

Lemma report_calendar_cell_token y m day b :
  report_calendar_cell y m day = Some b -> callback_data b = report_cell_token y m day.
Proof.
  unfold report_calendar_cell, report_cell_token.
  destruct (day =? 0); [intros [= <-]; reflexivity |].
  destruct (mkdate y m day); [| discriminate].
  cbn [mbind option_bind]. intros [= <-]. reflexivity.
Qed.

Lemma report_calendar_cell_total y m day :
  Cal.MINYEAR <= y <= Cal.MAXYEAR -> 1 <= m <= 12 ->
  day = 0 \/ 1 <= day <= Cal.days_in_month y m ->
  is_Some (report_calendar_cell y m day).
Proof.
  intros Hy Hm Hd. unfold report_calendar_cell, mkdate.
  destruct (Z.eqb_spec day 0) as [| Hne]; [eauto |].
  destruct Hd as [| Hd]; [contradiction |].
  assert (Hv : Cal.valid_date y m day = true)
    by (apply valid_date_spec; auto).
  rewrite Hv. cbn [mbind option_bind]. eauto.
Qed.

Lemma Forall2_tokens y m (week : list Z) (row : list button) :
  Forall2 (fun d b => report_calendar_cell y m d = Some b) week row ->
  map callback_data row = map (report_cell_token y m) week.
Proof.
  induction 1 as [| d b week row Hb _ IH]; [reflexivity |].
  cbn [map]. rewrite IH, (report_calendar_cell_token _ _ _ _ Hb). reflexivity.
Qed.

(** X19. For every month of the years 1..9999, [generate_report_calendar]
    gives the navigation row, the row of the seven weekday names, four to
    six week rows of exactly seven buttons and the back row, hence seven to
    nine rows.  Read row by row, the tokens of the week rows are those of
    the days of [calendar.monthcalendar]: padding is inert and every day of
    the month, past or future, can be selected. *)
Theorem report_calendar_shape y m :
  Cal.MINYEAR <= y <= Cal.MAXYEAR -> 1 <= m <= 12 ->
  exists header week_header rows,
    generate_report_calendar y m
    = Some (header :: week_header :: rows
            ++ [[InlineKeyboardButton (Lit "🔙 Назад к отчетам") "reports"]])
    /\ length header = 3%nat /\ length week_header = 7%nat
    /\ (4 <= length rows <= 6)%nat
    /\ Forall (fun row => length row = 7%nat) rows
    /\ map callback_data (concat rows)
       = map (report_cell_token y m) (Cal.itermonthdays y m).
Proof.
  intros Hy Hm. unfold generate_report_calendar, Cal.monthcalendar.
  assert (Hmb : (1 <=? m) && (m <=? 12) = true)
    by (apply andb_true_iff; split; apply Z.leb_le; lia).
  rewrite Hmb. cbn [mbind option_bind].
  assert (Hname : is_Some (russian_months !! Z.to_nat m)).
  { apply lookup_lt_is_Some. cbn. lia. }
  destruct Hname as [name ->]. cbn [mbind option_bind].
  set (days := Cal.itermonthdays y m).
  assert (Hrows : is_Some (mapM (fun week => mapM (report_calendar_cell y m) week)
                             (Cal.chunks (length days) days))).
  { apply mapM_is_Some. apply Forall_forall. intros week Hweek.
    apply mapM_is_Some. apply Forall_forall. intros d Hd.
    apply report_calendar_cell_total; [assumption | assumption |].
    apply itermonthdays_elem.
    apply list_elem_of_In in Hweek. apply list_elem_of_In in Hd.
    eapply chunks_elem; eassumption. }
  destruct Hrows as [rows Hrows]. rewrite Hrows. cbn [mbind option_bind].
  eexists _, _, rows. split; [reflexivity |].
  split; [reflexivity |]. split; [reflexivity |].
  apply mapM_Some in Hrows.
  destruct (itermonthdays_length y m Hm) as (k & Hk & Hlen). fold days in Hlen.
  destruct (chunks_shape k (length days) days Hlen ltac:(lia)) as [Hn Hseven].
  split; [rewrite <- (Forall2_length _ _ _ Hrows), Hn; exact Hk |].
  split.
  - clear Hn. induction Hrows as [| week row cal rows' Hrow _ IH]; [constructor |].
    inversion Hseven as [| ? ? Hw Hrest]; subst.
    constructor; [| apply IH, Hrest].
    apply mapM_Some in Hrow. rewrite <- (Forall2_length _ _ _ Hrow). exact Hw.
  - transitivity (map (report_cell_token y m) (concat (Cal.chunks (length days) days)));
      [| rewrite concat_chunks by lia; reflexivity].
    clear Hn Hseven. induction Hrows as [| week row cal rows' Hrow _ IH]; [reflexivity |].
    cbn [concat]. rewrite !map_app, IH. f_equal.
    apply mapM_Some in Hrow. apply Forall2_tokens, Hrow.
Qed.

Lemma report_calendar_shape_witness :
  exists kb, generate_report_calendar 2024 2 = Some kb /\ (5 <= length kb)%nat.
Proof.
  destruct (report_calendar_shape 2024 2 ltac:(unfold Cal.MINYEAR, Cal.MAXYEAR; lia)
              ltac:(lia)) as (header & week_header & rows & Hkb & _ & _ & Hrows & _).
  eexists. split; [exact Hkb |].
  cbn [length]. rewrite length_app. cbn [length]. lia.
Defined.

(** ** Deleting a project *)

Lemma find_project_filter pid p d :
  List.find (fun r => project_id r =? p)
    (List.filter (fun r => negb (project_id r =? pid)) (projects d))
  = if p =? pid then None else find_project p d.
Proof.
  unfold find_project.
  induction (projects d) as [| r l IH]; [destruct (p =? pid); reflexivity |].
  cbn [List.filter List.find].
  destruct (project_id r =? pid) eqn:Hr; cbn [negb List.find].
  - rewrite IH. destruct (Z.eqb_spec p pid) as [-> | Hne]; [reflexivity |].
    apply Z.eqb_eq in Hr. destruct (Z.eqb_spec (project_id r) p); [lia | reflexivity].
  - destruct (project_id r =? p) eqn:Hp; [| exact IH].
    apply Z.eqb_eq in Hp. apply Z.eqb_neq in Hr.
    destruct (Z.eqb_spec p pid); [lia | reflexivity].
Qed.

Lemma without_project_spec pid d :
  (forall r, In r (projects (without_project pid d))
             <-> In r (projects d) /\ project_id r <> pid)
  /\ (forall e, In e (time_entries (without_project pid d))
                <-> In e (time_entries d) /\ entry_project e <> VInt pid)
  /\ find_project pid (without_project pid d) = None
  /\ (references_ok d -> references_ok (without_project pid d)).
Proof.
  assert (He : forall e, In e (time_entries (without_project pid d))
                <-> In e (time_entries d) /\ entry_project e <> VInt pid).
  { intros e. unfold without_project. cbn [time_entries]. rewrite List.filter_In.
    destruct (entry_project e) as [| p | |]; try (intuition congruence).
    rewrite negb_true_iff, Z.eqb_neq. intuition congruence. }
  split; [| split; [exact He | split]].
  - intros r. unfold without_project. cbn [projects]. rewrite List.filter_In.
    rewrite negb_true_iff, Z.eqb_neq. tauto.
  - unfold find_project, without_project. cbn [projects].
    rewrite find_project_filter, Z.eqb_refl. reflexivity.
  - intros Hok e p Hin Hp. apply He in Hin as [Hin Hne].
    unfold find_project, without_project. cbn [projects].
    rewrite find_project_filter.
    destruct (Z.eqb_spec p pid) as [-> | _]; [congruence |].
    apply (Hok e p Hin Hp).
Qed.

Lemma get_projects_keyboard_run E {B} page (k : keyboard -> M B) w :
  db_up E = true ->
  exists kb, (get_projects_keyboard E page 5 ≫= k) w = k kb w.
Proof.
  intros Hup. unfold get_projects_keyboard. rewrite run_assoc, run_select, Hup.
  unfold projects_keyboard, total_pages_of.
  destruct (Z.of_nat (length (projects (db w))) =? 0);
    cbn [mbind option_bind Z.eqb]; mrun; eexists; reflexivity.
Qed.

(** X20. The last step of the deletion of a project, pressed by an
    administrator with the database up, never raises: afterwards no
    project has that id and no time entry refers to it, every other project
    and every other time entry is still there, the users and the session
    context are as before, and entries that referred to existing projects
    still do. *)
Theorem delete_project_cascades E u pid w :
  db_up E = true -> administrator E (effective_user u) (db w) = true ->
  let o := delete_project E u ("final_delete_project_" +:+ Py.str pid) w in
  fst o = Ok RNone
  /\ db (snd o) = without_project pid (db w)
  /\ user_data (snd o) = user_data w
  /\ find_project pid (db (snd o)) = None
  /\ (forall r, In r (projects (db (snd o)))
                <-> In r (projects (db w)) /\ project_id r <> pid)
  /\ (forall e, In e (time_entries (db (snd o)))
                <-> In e (time_entries (db w)) /\ entry_project e <> VInt pid)
  /\ (references_ok (db w) -> references_ok (db (snd o))).
Proof.
  intros Hup Hadm o.
  assert (Ho : exists sent,
            o = (Ok RNone, World (user_data w) (without_project pid (db w)) sent)).
  { unfold o, delete_project.
    change ("final_delete_project_" +:+ Py.str pid)
      with ("final" +:+ String "_" ("delete" +:+ String "_"
              ("project" +:+ String "_" (Py.str pid)))).
    rewrite !split_segment by reflexivity.
    rewrite split_numeral by apply str_numeral.
    rewrite (item_int_run _ 3 (Py.str pid) pid) by (reflexivity || apply int_str).
    rewrite is_admin_run, Hup, Hadm. cbn [negb]. cbv iota.
    rewrite run_try, run_select, Hup, run_select, Hup.
    rewrite bind_unfold. unfold execute at 1. rewrite Hup.
    fold (without_project pid (db w)).
    destruct (bool_decide (is_Some (find_project pid (db w)))).
    - destruct (0 <? _); rewrite run_emit;
        match goal with
        | |- context [(get_projects_keyboard E 0 5 ≫= ?k) ?w0] =>
            destruct (get_projects_keyboard_run E 0 k w0 Hup) as [kb ->]
        end; mrun; eexists; reflexivity.
    - rewrite run_emit. unfold show_project_card, collaborator.
      rewrite run_select, Hup. mrun. eexists. reflexivity. }
  destruct Ho as [sent ->]. cbn [fst snd db user_data].
  destruct (without_project_spec pid (db w)) as (Hp & He & Hf & Hok).
  split; [reflexivity |]. split; [reflexivity |]. split; [reflexivity |].
  split; [exact Hf |]. split; [exact Hp |]. split; [exact He | exact Hok].
Qed.

Lemma delete_project_cascades_witness :
  db_up sample_env = true /\ administrator sample_env 1 sample_db = true /\
  time_entries (db (snd (delete_project sample_env (button_press 1 "final_delete_project_1")
                           ("final_delete_project_" +:+ Py.str 1) (sample_world ∅))))
  = [].
Proof.
  split; [reflexivity | split; [reflexivity |]].
  destruct (delete_project_cascades sample_env (button_press 1 "final_delete_project_1")
              1 (sample_world ∅) eq_refl eq_refl) as (_ & Hdb & _).
  rewrite Hdb. reflexivity.
Defined.

Lemma entries_of_project_nil pid d :
  entries_of_project pid d = [] ->
  forall e, In e (time_entries d) -> entry_project e <> VInt pid.
Proof.
  unfold entries_of_project. intros Hnil e Hin Hp.
  assert (Hf : In e (List.filter
                       (fun r => match entry_project r with
                                 | VInt p => p =? pid
                                 | _ => false
                                 end) (time_entries d))).
  { apply List.filter_In. split; [exact Hin |]. rewrite Hp. apply Z.eqb_refl. }
  rewrite Hnil in Hf. destruct Hf.
Qed.

(** X21. [AdminManager.delete_project] never removes a time entry and
    never leaves one without its project: when an entry refers to the
    project it answers [False] and changes nothing; otherwise it removes
    the project, answers whether there was one, and keeps every other
    project. *)
Theorem admin_delete_project_guard E pid w :
  let o := admin_delete_project E pid w in
  time_entries (db (snd o)) = time_entries (db w)
  /\ users (db (snd o)) = users (db w)
  /\ (references_ok (db w) -> references_ok (db (snd o)))
  /\ (db_up E = true ->
      (entries_of_project pid (db w) <> [] -> o = (Ok false, w))
      /\ (entries_of_project pid (db w) = [] ->
          fst o = Ok (bool_decide (is_Some (find_project pid (db w))))
          /\ find_project pid (db (snd o)) = None
          /\ forall r, In r (projects (db (snd o)))
                       <-> In r (projects (db w)) /\ project_id r <> pid)).
Proof.
  intros o.
  assert (Ho : o = if db_up E
                   then if 0 <? Z.of_nat (length (entries_of_project pid (db w)))
                        then (Ok false, w)
                        else (Ok (bool_decide (is_Some (find_project pid (db w)))),
                              World (user_data w)
                                {| users := users (db w);
                                   projects := List.filter
                                                 (fun r => negb (project_id r =? pid))
                                                 (projects (db w));
                                   time_entries := time_entries (db w);
                                   next_project_id := next_project_id (db w);
                                   next_entry_id := next_entry_id (db w) |}
                                (calls w))
                   else (Raise DatabaseError, w)).
  { unfold o, admin_delete_project. rewrite run_select.
    destruct (db_up E) eqn:Hup; [| reflexivity].
    destruct (0 <? _); [reflexivity |].
    rewrite run_select, Hup, bind_unfold. unfold execute. rewrite Hup. reflexivity. }
  assert (Hcount : (0 <? Z.of_nat (length (entries_of_project pid (db w))))
                   = negb (bool_decide (entries_of_project pid (db w) = []))).
  { destruct (entries_of_project pid (db w)); reflexivity. }
  rewrite Ho, Hcount. clear Ho Hcount.
  destruct (db_up E); [| repeat split; try reflexivity; try tauto; discriminate].
  destruct (bool_decide_reflect (entries_of_project pid (db w) = [])) as [Hnil | Hsome];
    cbn [negb fst snd db time_entries users projects].
  - split; [reflexivity |]. split; [reflexivity |]. split.
    + intros Hok e p Hin Hp. unfold find_project. cbn [projects].
      rewrite find_project_filter.
      destruct (Z.eqb_spec p pid) as [-> | _].
      * exfalso. exact (entries_of_project_nil pid (db w) Hnil e Hin Hp).
      * apply (Hok e p Hin Hp).
    + intros _. split; [intros Hne; contradiction |].
      intros _. split; [reflexivity |]. split.
      * unfold find_project. cbn [projects].
        rewrite find_project_filter, Z.eqb_refl. reflexivity.
      * intros r. rewrite List.filter_In, negb_true_iff, Z.eqb_neq. tauto.
  - split; [reflexivity |]. split; [reflexivity |]. split; [tauto |].
    intros _. split; [reflexivity | intros Hnil; contradiction].
Qed.

Lemma admin_delete_project_guard_witness :
  db_up sample_env = true /\
  admin_delete_project sample_env 1 (sample_world ∅) = (Ok false, sample_world ∅) /\
  find_project 3 (db (snd (admin_delete_project sample_env 3 (sample_world ∅)))) = None.
Proof.
  split; [reflexivity |]. split.
  - destruct (admin_delete_project_guard sample_env 1 (sample_world ∅))
      as (_ & _ & _ & Hup).
    apply (proj1 (Hup eq_refl)). discriminate.
  - destruct (admin_delete_project_guard sample_env 3 (sample_world ∅))
      as (_ & _ & _ & Hup).
    exact (proj1 (proj2 (proj2 (Hup eq_refl) eq_refl))).
Defined.

(** ** A ban takes effect *)

Lemma get_user_detail_keyboard_run E {B} t (k : keyboard -> M B) w :
  db_up E = true ->
  exists kb, (get_user_detail_keyboard E t ≫= k) w = k kb w.
Proof.
  intros Hup. unfold get_user_detail_keyboard, is_banned.
  rewrite run_assoc, run_select, Hup, run_mret. eexists. reflexivity.
Qed.

Lemma show_user_card_run E {B} t (k : unit -> M B) w :
  db_up E = true ->
  exists c, (show_user_card E t ≫= k) w
            = k tt (World (user_data w) (db w) (calls w ++ [c])).
Proof.
  intros Hup. unfold show_user_card, collaborator.
  rewrite run_assoc, run_select, Hup, run_assoc.
  destruct (get_user_detail_keyboard_run E t
              (fun kb => emit (edit_message_text (Lit (report E "get_user_brief_info"
                                                              [VInt t])) (Some kb)) ≫= k)
              w Hup) as [kb Hkb].
  rewrite Hkb, run_emit. eexists. reflexivity.
Qed.

Lemma ban_token_action t :
  Py.join "_" (tail (Py.split "_" ("admin_confirm_ban_user_" +:+ Py.str t)))
  = "confirm_ban_user_" +:+ Py.str t.
Proof.
  change ("admin_confirm_ban_user_" +:+ Py.str t)
    with ("admin" +:+ String "_" ("confirm" +:+ String "_" ("ban" +:+ String "_"
            ("user" +:+ String "_" (Py.str t))))).
  rewrite !split_segment by reflexivity.
  rewrite split_numeral by apply str_numeral. reflexivity.
Qed.

(** X22. When an administrator confirms the ban of a known user, the user
    is banned from then on: the admin flag of the user, every other user,
    the projects and the entries are as before, and the next button of the
    banned user outside the admin menu is answered with the ban notice and
    nothing else. *)
Theorem ban_takes_effect E u t r w :
  db_up E = true -> administrator E (effective_user u) (db w) = true ->
  find_user t (db w) = Some r ->
  let w1 := snd (handle_admin E u ("admin_confirm_ban_user_" +:+ Py.str t) w) in
  fst (handle_admin E u ("admin_confirm_ban_user_" +:+ Py.str t) w) = Ok RNone
  /\ banned_in (db w1) t = true
  /\ fst (flags t (db w1)) = fst (flags t (db w))
  /\ (forall t', t' <> t -> flags t' (db w1) = flags t' (db w))
  /\ projects (db w1) = projects (db w)
  /\ time_entries (db w1) = time_entries (db w)
  /\ (forall E' u' data,
        db_up E' = true -> effective_user u' = t ->
        Py.startswith data "admin_" = false ->
        button_handler E' u' data w1
        = only_sends w1 RNone [answer (Some BANNED_SHORT); edit_message_text BANNED None]).
Proof.
  intros Hup Hadm Hr w1.
  set (banned_row := fun r => {| user_id := user_id r;
                                 is_admin_flag := is_admin_flag r;
                                 is_banned_flag := true |}).
  assert (Hrun : exists sent,
            handle_admin E u ("admin_confirm_ban_user_" +:+ Py.str t) w
            = (Ok RNone,
               World (user_data w) (update_user t banned_row (db w)) sent)).
  { unfold handle_admin. rewrite is_admin_run, Hup, Hadm. cbn [negb]. cbv iota zeta.
    rewrite ban_token_action. decide_tests. cbn [andb]. cbv iota.
    unfold int_arg.
    change ("confirm_ban_user_" +:+ Py.str t)
      with ("confirm" +:+ String "_" ("ban" +:+ String "_"
              ("user" +:+ String "_" (Py.str t)))).
    rewrite !split_segment by reflexivity.
    rewrite split_numeral by apply str_numeral.
    rewrite (item_int_run _ 3 (Py.str t) t) by (reflexivity || apply int_str).
    rewrite ban_user_run, Hup. fold banned_row.
    destruct (bool_decide _); rewrite run_emit;
      match goal with
      | |- context [(show_user_card E t ≫= ?k) ?w0] =>
          destruct (show_user_card_run E t k w0 Hup) as [c ->]
      end; mrun; eexists; reflexivity. }
  destruct Hrun as [sent Hrun]. unfold w1. rewrite Hrun. cbn [fst snd db].
  destruct (update_user_effect t banned_row (db w) true
              ltac:(reflexivity) ltac:(reflexivity) ltac:(reflexivity))
    as (Hban & Hadmflag & Hothers).
  split; [reflexivity |].
  assert (Hb : banned_in (update_user t banned_row (db w)) t = true).
  { rewrite Hban. rewrite bool_decide_true by (rewrite Hr; eauto). reflexivity. }
  split; [exact Hb |]. split; [exact Hadmflag |]. split; [exact Hothers |].
  split; [reflexivity |]. split; [reflexivity |].
  intros E' u' data Hup' Hu' Hdata.
  apply button_handler_banned; [exact Hup' | | exact Hdata].
  rewrite Hu'. exact Hb.
Qed.

Lemma ban_takes_effect_witness :
  db_up sample_env = true /\ administrator sample_env 1 sample_db = true /\
  banned_in (db (snd (handle_admin sample_env (button_press 1 "admin_confirm_ban_user_7")
                        ("admin_confirm_ban_user_" +:+ Py.str 7) (sample_world ∅)))) 7
  = true.
Proof.
  split; [reflexivity | split; [reflexivity |]].
  destruct (ban_takes_effect sample_env (button_press 1 "admin_confirm_ban_user_7") 7
              {| user_id := 7; is_admin_flag := false; is_banned_flag := false |}
              (sample_world ∅) eq_refl eq_refl eq_refl) as (_ & Hb & _).
  exact Hb.
Defined.

Lemma unban_token_action t :
  Py.join "_" (tail (Py.split "_" ("admin_unban_user_" +:+ Py.str t)))
  = "unban_user_" +:+ Py.str t.
Proof.
  change ("admin_unban_user_" +:+ Py.str t)
    with ("admin" +:+ String "_" ("unban" +:+ String "_"
            ("user" +:+ String "_" (Py.str t)))).
  rewrite !split_segment by reflexivity.
  rewrite split_numeral by apply str_numeral. reflexivity.
Qed.

(** X23. The ban is not checked for the tokens of the admin menu: an
    administrator who is banned still passes [button_handler] with such a
    token, and the unban button pressed for the own account lifts the
    ban. *)
Theorem banned_admin_lifts_own_ban E u r w :
  db_up E = true ->
  find_user (effective_user u) (db w) = Some r ->
  is_banned_flag r = true -> is_admin_flag r = true ->
  let o := button_handler E u ("admin_unban_user_" +:+ Py.str (effective_user u)) w in
  fst o = Ok RNone
  /\ banned_in (db w) (effective_user u) = true
  /\ banned_in (db (snd o)) (effective_user u) = false
  /\ administrator E (effective_user u) (db (snd o)) = true.
Proof.
  intros Hup Hr Hbanned Hadmin o.
  set (t := effective_user u) in *.
  set (free_row := fun r => {| user_id := user_id r;
                               is_admin_flag := is_admin_flag r;
                               is_banned_flag := false |}).
  assert (Hadm : administrator E t (db w) = true).
  { unfold administrator, flags. rewrite Hr. cbn [fst]. rewrite Hadmin.
    apply orb_true_r. }
  assert (Hrun : exists sent,
            o = (Ok RNone, World (user_data w) (update_user t free_row (db w)) sent)).
  { unfold o, button_handler.
    replace (Py.startswith ("admin_unban_user_" +:+ Py.str t) "admin_") with true
      by reflexivity.
    cbn [negb]. cbv iota. mrun. decide_tests. cbv iota.
    unfold handle_admin. fold t. rewrite is_admin_run, Hup. cbn [db].
    rewrite Hadm. cbn [negb]. cbv iota zeta.
    rewrite unban_token_action. decide_tests. cbn [andb]. cbv iota.
    unfold int_arg.
    change ("unban_user_" +:+ Py.str t)
      with ("unban" +:+ String "_" ("user" +:+ String "_" (Py.str t))).
    rewrite !split_segment by reflexivity.
    rewrite split_numeral by apply str_numeral.
    rewrite (item_int_run _ 2 (Py.str t) t) by (reflexivity || apply int_str).
    rewrite unban_user_run, Hup. fold free_row. cbn [db user_data calls].
    destruct (bool_decide _); rewrite run_emit;
      match goal with
      | |- context [(show_user_card E t ≫= ?k) ?w0] =>
          destruct (show_user_card_run E t k w0 Hup) as [c ->]
      end; mrun; eexists; reflexivity. }
  destruct Hrun as [sent ->]. cbn [fst snd db].
  destruct (update_user_effect t free_row (db w) false
              ltac:(reflexivity) ltac:(reflexivity) ltac:(reflexivity))
    as (Hban & Hadmflag & _).
  split; [reflexivity |].
  split; [unfold banned_in; rewrite Hr; exact Hbanned |].
  split; [rewrite Hban; reflexivity |].
  unfold administrator in *. rewrite Hadmflag. exact Hadm.
Qed.

Lemma banned_admin_lifts_own_ban_witness :
  let d := {| users := [ {| user_id := 5; is_admin_flag := true; is_banned_flag := true |} ];
              projects := []; time_entries := [];
              next_project_id := 1; next_entry_id := 1 |} in
  banned_in (db (snd (button_handler sample_env (button_press 5 "admin_unban_user_5")
                        ("admin_unban_user_" +:+ Py.str 5) (World ∅ d [])))) 5 = false.
Proof.
  intros d.
  destruct (banned_admin_lifts_own_ban sample_env (button_press 5 "admin_unban_user_5")
              {| user_id := 5; is_admin_flag := true; is_banned_flag := true |}
              (World ∅ d []) eq_refl eq_refl eq_refl eq_refl) as (_ & _ & H & _).
  exact H.
Defined.

(** ** Initialising the database *)

Lemma init_database_run E w :
  init_database E w
  = if db_up E
    then (Ok tt,
          World (user_data w)
            (match projects (db w) with
             | [] => fold_left insert_project default_projects (db w)
             | _ => db w
             end) (calls w))
    else (Raise DatabaseError, w).
Proof.
  unfold init_database. rewrite run_select.
  destruct (db_up E) eqn:Hup; [| reflexivity].
  destruct (projects (db w)) as [| r l] eqn:Hp; cbn [length Z.of_nat Z.eqb].
  - unfold execute. rewrite Hup. reflexivity.
  - destruct w; reflexivity.
Qed.

(** X24. [init_database] at every start of the bot: a table of projects
    that has a row is left as it is; an empty one gets the five default
    projects, active, with distinct names and fresh consecutive ids; users
    and time entries are never touched; and running it again changes
    nothing more. *)
Theorem init_database_idempotent E w :
  db_up E = true ->
  let w1 := snd (init_database E w) in
  fst (init_database E w) = Ok tt
  /\ users (db w1) = users (db w)
  /\ time_entries (db w1) = time_entries (db w)
  /\ (projects (db w) <> [] -> db w1 = db w)
  /\ (projects (db w) = [] ->
      projects (db w1)
      = map (fun p => {| project_id := next_project_id (db w) + Z.of_nat (fst p);
                         project_name := snd p; is_active := true |})
            (zip (seq 0 5) default_projects)
      /\ NoDup (map project_name (projects (db w1))))
  /\ init_database E w1 = (Ok tt, w1).
Proof.
  intros Hup w1. unfold w1. rewrite (init_database_run E w), Hup. cbn [fst snd].
  rewrite init_database_run, Hup. cbn [db user_data calls].
  destruct w as [ud [us ps es np ne] cs]. cbn [db user_data calls projects].
  destruct ps as [| r l].
  - cbn [fold_left default_projects insert_project users time_entries projects
         next_project_id next_entry_id app].
    split; [reflexivity |]. split; [reflexivity |]. split; [reflexivity |].
    split; [congruence |]. split; [| reflexivity].
    intros _. split.
    + cbn. rewrite Z.add_0_r, <- !Z.add_assoc. reflexivity.
    + cbn [map project_name app]. apply (bool_decide_unpack _). vm_compute. exact I.
  - cbn [users time_entries projects].
    split; [reflexivity |]. split; [reflexivity |]. split; [reflexivity |].
    split; [reflexivity |]. split; [discriminate | reflexivity].
Qed.

Lemma init_database_idempotent_witness :
  db_up sample_env = true /\
  db (snd (init_database sample_env (sample_world ∅))) = sample_db.
Proof.
  split; [reflexivity |].
  destruct (init_database_idempotent sample_env (sample_world ∅) eq_refl)
    as (_ & _ & _ & Hsame & _).
  apply Hsame. discriminate.
Defined.

(** ** A project name is awaited *)

(** A text of at most [n] characters is stored as it is. *)
Lemma varchar_fits n s :
  (length (Unicode.chars s) <= n)%nat -> varchar n s = Some s.
Proof.
  intros H. unfold varchar.
  rewrite skipn_all2 by exact H. cbn [forallb].
  rewrite firstn_all2 by exact H. rewrite chars_concat. reflexivity.
Qed.

Lemma add_project_run E {B} name (k : bool -> M B) w :
  (add_project E name ≫= k) w
  = if db_up E
    then match (if has_nul name then None else varchar 255 name) with
         | None => k false w
         | Some stored =>
             if existsb (fun r => String.eqb (project_name r) stored) (projects (db w))
             then k false (World (user_data w) (refuse_project (db w)) (calls w))
             else k true (World (user_data w) (insert_project (db w) stored) (calls w))
         end
    else k false w.
Proof.
  unfold add_project. rewrite run_try, run_select.
  destruct (db_up E) eqn:Hup; [| cbv iota; rewrite run_mret; reflexivity].
  destruct (if has_nul name then None else varchar 255 name) as [stored |].
  - cbn [lift_option]. rewrite run_mret, run_select, Hup.
    destruct (existsb _ _).
    + rewrite bind_unfold. unfold execute. rewrite Hup.
      rewrite end_raise. cbv iota. rewrite run_mret. reflexivity.
    + rewrite bind_unfold. unfold execute. rewrite Hup. reflexivity.
  - cbn [lift_option]. rewrite run_raise. cbv iota. rewrite run_mret. reflexivity.
Qed.

(** X25. While [admin_action] is 'add_project', a text of a user who is
    not banned is never dispatched as a menu label: it is taken as the name
    of a project.  The context is emptied in every case and neither users
    nor time entries are touched.  For a user who is no administrator
    nothing else happens, not even a reply.  For an administrator, a name
    that cannot be sent or stored (a NUL character, more than 255
    characters) is refused and the database stays as it is; a name that a
    project has already is refused and the projects stay as they are, but
    the id that the insert took from the sequence is not given back; any
    other name adds one active project with the next id.  A stripped text
    of at most 255 characters without NUL is stored as it is. *)
Theorem pending_add_project E u msg w :
  db_up E = true -> banned_in (db w) (effective_user u) = false ->
  user_data w !! "admin_action" = Some (VStr "add_project") ->
  let o := handle_text_message E u msg w in
  let name := Py.strip msg in
  let stored := if has_nul name then None else varchar 255 name in
  let known s := existsb (fun r => String.eqb (project_name r) s) (projects (db w)) in
  let refusal := reply_text (Fmt "❌ Проект '{}' уже существует!" [VStr name]) None in
  fst o = Ok REND
  /\ user_data (snd o) = ∅
  /\ users (db (snd o)) = users (db w)
  /\ time_entries (db (snd o)) = time_entries (db w)
  /\ (administrator E (effective_user u) (db w) = false ->
      db (snd o) = db w /\ calls (snd o) = calls w)
  /\ (administrator E (effective_user u) (db w) = true ->
      match stored with
      | None => db (snd o) = db w /\ calls (snd o) = calls w ++ [refusal]
      | Some s =>
          next_project_id (db (snd o)) = next_project_id (db w) + 1
          /\ if known s
             then projects (db (snd o)) = projects (db w)
                  /\ calls (snd o) = calls w ++ [refusal]
             else projects (db (snd o))
                  = projects (db w)
                    ++ [{| project_id := next_project_id (db w); project_name := s;
                           is_active := true |}]
                  /\ exists kb,
                       calls (snd o)
                       = calls w ++ [reply_text (Fmt "✅ Проект '{}' создан!" [VStr name]) None;
                                     reply_text PROJECTS_MENU (Some kb)]
      end)
  /\ ((length (Unicode.chars name) <= 255)%nat -> has_nul name = false ->
      stored = Some name).
Proof.
  intros Hup Hban Hact o name stored known refusal.
  assert (Ho : o = (handle_description_input E u msg) w).
  { unfold o, handle_text_message. rewrite (run_is_banned E _ _ _ Hup), Hban.
    cbv iota. mrun. rewrite Hact. cbn [is_str].
    replace (String.eqb "add_project" "add_project") with true by reflexivity.
    reflexivity. }
  unfold handle_description_input in Ho. cbv zeta in Ho. revert Ho. mrun.
  rewrite Hact. cbn [is_str].
  replace (String.eqb "add_project" "add_project") with true by reflexivity.
  cbv iota. rewrite is_admin_run, Hup. fold name.
  assert (Hfits : (length (Unicode.chars name) <= 255)%nat -> has_nul name = false ->
                  stored = Some name).
  { intros Hlen Hnul. unfold stored. rewrite Hnul. apply varchar_fits. exact Hlen. }
  destruct (administrator E (effective_user u) (db w)); cbv iota.
  - rewrite run_assoc, add_project_run, Hup. fold stored.
    destruct stored as [s |].
    + fold (known s). destruct (known s); cbv iota.
      * mrun. intros ->. cbn [fst snd user_data db calls refuse_project users time_entries
                                projects next_project_id].
        repeat (split; [first [reflexivity | discriminate] |]).
        split; [| exact Hfits]. intros _. split; [reflexivity |].
        split; reflexivity.
      * rewrite run_assoc, run_emit, run_assoc.
        match goal with
        | |- context [(get_projects_keyboard E 0 5 ≫= ?k) ?w0] =>
            destruct (get_projects_keyboard_run E 0 k w0 Hup) as [kb ->]
        end.
        mrun. intros ->. cbn [fst snd user_data db calls insert_project users time_entries
                                projects next_project_id].
        repeat (split; [first [reflexivity | discriminate] |]).
        split; [| exact Hfits]. intros _. split; [reflexivity |].
        split; [reflexivity |]. exists kb. rewrite <- app_assoc. reflexivity.
    + mrun. intros ->. cbn [fst snd user_data db calls].
      repeat (split; [first [reflexivity | discriminate] |]).
      split; [| exact Hfits]. intros _. split; reflexivity.
  - mrun. intros ->. cbn [fst snd user_data db calls].
    repeat (split; [first [reflexivity | discriminate] |]).
    split; [intros _; split; first [reflexivity | apply app_nil_r] |].
    split; [discriminate | exact Hfits].
Qed.

Lemma pending_add_project_witness :
  let w := sample_world (<["admin_action" := VStr "add_project"]> ∅) in
  let o := handle_text_message sample_env (text_message 1 " Dev ") " Dev " w in
  projects (db (snd o)) = projects sample_db
  /\ next_project_id (db (snd o)) = 5
  /\ projects (db (snd (handle_text_message sample_env (text_message 1 MY_ENTRIES_LABEL)
                          MY_ENTRIES_LABEL w)))
     = projects sample_db
       ++ [ {| project_id := 4; project_name := MY_ENTRIES_LABEL; is_active := true |} ].
Proof.
  intros w o.
  assert (Hact : user_data w !! "admin_action" = Some (VStr "add_project"))
    by (vm_compute; reflexivity).
  destruct (pending_add_project sample_env (text_message 1 " Dev ") " Dev " w
              eq_refl eq_refl Hact) as (_ & _ & _ & _ & _ & Hadmin & _).
  specialize (Hadmin eq_refl).
  change (Py.strip " Dev ") with "Dev" in Hadmin.
  change (if has_nul "Dev" then None else varchar 255 "Dev") with (Some "Dev") in Hadmin.
  cbv beta iota in Hadmin.
  change (existsb (fun r => String.eqb (project_name r) "Dev") (projects (db w)))
    with true in Hadmin.
  cbv iota in Hadmin.
  destruct Hadmin as (Hnext & Hsame & _).
  split; [exact Hsame |]. split; [exact Hnext |].
  vm_compute. reflexivity.
Defined.

(** ** Turning the pages of the entries *)

Lemma handle_entries_pagination_token E u p w :
  handle_entries_pagination E u ("entries_page_" +:+ Py.str p) w
  = show_my_entries_page E u p w.
Proof.
  unfold handle_entries_pagination.
  change ("entries_page_" +:+ Py.str p)
    with ("entries" +:+ String "_" ("page" +:+ String "_" (Py.str p))).
  rewrite token_arg_2 by reflexivity.
  apply (item_int_run _ 2 (Py.str p) p); [reflexivity | apply int_str].
Qed.

(** X26. On a page of the listing that shows an entry, every navigation
    button leads to a neighbouring page that exists and shows an entry as
    well: its token is read back by [handle_entries_pagination] as that
    page, the page is not negative and it starts before the end of the
    user's entries. *)
Theorem entries_navigation E u page w b :
  let total := Z.of_nat (length (entries_of (effective_user u) (db w))) in
  0 <= page -> page * 5 < total ->
  In b (entries_nav page ((total + 5 - 1) / 5)) ->
  exists p, (p = page - 1 \/ p = page + 1)
            /\ 0 <= p /\ p * 5 < total
            /\ callback_data b = "entries_page_" +:+ Py.str p
            /\ handle_entries_pagination E u (callback_data b) w
               = show_my_entries_page E u p w.
Proof.
  intros total Hpage Hshown Hb. unfold entries_nav in Hb.
  apply in_app_or in Hb as [Hb | Hb].
  - destruct (0 <? page) eqn:Hprev; [| destruct Hb].
    destruct Hb as [<- | []]. apply Z.ltb_lt in Hprev.
    exists (page - 1). split; [left; reflexivity |].
    split; [lia |]. split; [lia |]. split; [reflexivity |].
    apply handle_entries_pagination_token.
  - destruct (page <? (total + 5 - 1) / 5 - 1) eqn:Hnext; [| destruct Hb].
    destruct Hb as [<- | []].
    rewrite (entries_nav_next total page) in Hnext by lia.
    apply Z.ltb_lt in Hnext.
    exists (page + 1). split; [right; reflexivity |].
    split; [lia |]. split; [lia |]. split; [reflexivity |].
    apply handle_entries_pagination_token.
Qed.

Lemma entries_navigation_witness :
  let b := InlineKeyboardButton (Lit "Вперёд ▶️") "entries_page_2" in
  let u := button_press 7 "entries_page_2" in
  In b (entries_nav 1 3)
  /\ exists p, 0 <= p /\ p * 5 < 12
               /\ handle_entries_pagination sample_env u (callback_data b) (sample_world ∅)
                  = show_my_entries_page sample_env u p (sample_world ∅).
Proof.
  intros b u.
  assert (Hin : In b (entries_nav 1 3)) by (right; left; reflexivity).
  split; [exact Hin |].
  destruct (entries_navigation sample_env u 1 (sample_world ∅) b
              ltac:(lia) ltac:(vm_compute; reflexivity) Hin)
    as (p & _ & Hp & Hlt & _ & Hrun).
  exists p. split; [exact Hp |]. split; [exact Hlt | exact Hrun].
Defined.

(** ** Reports while the database is down *)

(** X27. When the collaborator that builds the data fails, the export
    catches the error and answers with the failure notice, while a report
    button lets the error out and sends nothing; neither changes the
    context. *)
Theorem report_failures E u w :
  db_up E = false ->
  export_user_csv E u w
  = (Ok RNone,
     World (user_data w) (db w)
       (calls w ++ [answer (Some (Lit "❌ Ошибка экспорта: {}"))]))
  /\ (forall data name, In (data, name) direct_reports ->
        handle_report E u data w = (Raise DatabaseError, w)).
Proof.
  intros Hup. split.
  - unfold export_user_csv, target_user, collaborator. mrun.
    rewrite Hup. mrun. reflexivity.
  - intros data name Hin. unfold direct_reports in Hin. cbn [In] in Hin.
    destruct Hin as [H | [H | [H | [H | [H | []]]]]]; injection H as <- <-;
      unfold handle_report, target_user, collaborator;
      match goal with
      | |- context [Py.split "_" ?s] =>
          let l := eval vm_compute in (Py.split "_" s) in
          change (Py.split "_" s) with l
      end;
      mrun; cbn [lookup list_lookup]; mrun; decide_tests; mrun;
      rewrite Hup; reflexivity.
Qed.

Lemma report_failures_witness :
  db_up offline_env = false /\
  fst (export_user_csv offline_env (button_press 7 "export_csv") (sample_world ∅))
  = Ok RNone /\
  fst (handle_report offline_env (button_press 7 "report_today") "report_today"
         (sample_world ∅)) = Raise DatabaseError.
Proof.
  destruct (report_failures offline_env (button_press 7 "export_csv") (sample_world ∅)
              eq_refl) as [Hcsv _].
  destruct (report_failures offline_env (button_press 7 "report_today") (sample_world ∅)
              eq_refl) as [_ Hrep].
  split; [reflexivity |]. split.
  - rewrite Hcsv. reflexivity.
  - rewrite (Hrep "report_today" "get_today_report"); [reflexivity | left; reflexivity].
Defined.
